(** * Story pipeline: contract extraction, stage failure policy, composites

    A shallow embedding of the generator classes of [story_generator.py],
    [Story-2.py] and [Story3.py], of the HTTP handlers of [new_server.py]
    and of the client loop of [testing.py], with the properties of the
    pipeline specification stated and settled against them. *)

From Stdlib Require Import ZArith Lia List Ascii String Bool.
From stdpp Require Import gmap strings.
Import ListNotations.

#[local] Set Warnings "-register-all".

Local Open Scope Z_scope.
Local Open Scope list_scope.

(** ** Python values *)

(** A Python [str] is modelled as the list of its characters. *)
Abbreviation str := (list ascii).

(** Image payloads ([bytes]) are byte lists. *)
Abbreviation bytes := (list ascii).

Definition lit (s : string) : str := list_ascii_of_string s.
Arguments lit : simpl never.

Definition dquote : ascii := ascii_of_nat 34.

(** The exception classes the pipeline distinguishes. All of them are
    subclasses of Python's [Exception]; [APIError] stands for any other
    [Exception] the generative client raises (timeout, quota,
    transport), with its message. *)
Inductive exn : Type :=
| JSONDecodeError
| IndexError
| KeyError
| TypeError
| AttributeError
| UnidentifiedImageError
| OSError
| UnboundLocalError
| APIError (cause : str)
| UnicodeEncodeError.

(** The result of running a piece of Python: a value, or a raised
    exception. *)
Inductive Outcome (A : Type) : Type :=
| Returned (a : A)
| Raised (e : exn).
Arguments Returned {A} a.
Arguments Raised {A} e.

(** [except (json.JSONDecodeError, IndexError)] *)
Definition is_JSONDecodeError_or_IndexError (e : exn) : bool :=
  match e with
  | JSONDecodeError | IndexError => true
  | _ => false
  end.

(** [except Exception] *)
Definition is_Exception (e : exn) : bool := true.

(** JSON values as [json.loads] builds them: [dict] (insertion ordered),
    [list], [str], [int], [bool], [None]. Floating-point numbers are left
    out of the model. *)
Inductive json : Type :=
| JNull
| JBool (b : bool)
| JNum (z : Z)
| JStr (s : str)
| JArr (l : list json)
| JObj (kvs : list (str * json)).

Definition str_eqb (a b : str) : bool := bool_decide (a = b).

(** Python truthiness of a JSON value: [None], [False], [0], the empty
    string, list and dict are false. *)
Definition truthy (v : json) : bool :=
  match v with
  | JNull => false
  | JBool b => b
  | JNum z => negb (z =? 0)
  | JStr s => negb (Nat.eqb (length s) 0)
  | JArr l => negb (Nat.eqb (length l) 0)
  | JObj kvs => negb (Nat.eqb (length kvs) 0)
  end.

(** Truthiness of an optional result ([None] is false). *)
Definition truthy_opt (r : option json) : bool :=
  match r with
  | None => false
  | Some v => truthy v
  end.

Fixpoint assoc (k : str) (kvs : list (str * json)) : option json :=
  match kvs with
  | [] => None
  | (k', v) :: rest => if str_eqb k' k then Some v else assoc k rest
  end.

(** [k in d] for a dict [d]. *)
Definition has_key (k : str) (kvs : list (str * json)) : bool :=
  match assoc k kvs with Some _ => true | None => false end.

(** [d.get(k, default)]; any value other than a dict has no [get]. *)
Definition dict_get (d : json) (k : str) (default : json) : Outcome json :=
  match d with
  | JObj kvs => Returned (match assoc k kvs with Some v => v | None => default end)
  | _ => Raised AttributeError
  end.

(** [d[k]] for a dict; indexing another value with a [str] is a
    [TypeError]. *)
Definition dict_item (d : json) (k : str) : Outcome json :=
  match d with
  | JObj kvs => match assoc k kvs with Some v => Returned v | None => Raised KeyError end
  | _ => Raised TypeError
  end.

(** ** [str] methods *)

(** [s.find(c)] for a one-character needle: index of the first
    occurrence, [-1] when there is none. *)
Fixpoint find (c : ascii) (s : str) : Z :=
  match s with
  | [] => -1
  | x :: t =>
      if Ascii.eqb x c then 0
      else let r := find c t in if r <? 0 then -1 else r + 1
  end.

(** [s.rfind(c)]: index of the last occurrence, [-1] when there is
    none. *)
Fixpoint rfind (c : ascii) (s : str) : Z :=
  match s with
  | [] => -1
  | x :: t =>
      let r := rfind c t in
      if 0 <=? r then r + 1
      else if Ascii.eqb x c then 0 else -1
  end.

(** Normalisation of a slice bound: a negative bound counts from the
    end, and every bound is clamped to [0 .. len]. *)
Definition slice_bound (len i : Z) : Z :=
  if i <? 0 then Z.max 0 (i + len) else Z.min i len.

(** [s[start:stop]] *)
Definition slice (s : str) (start stop : Z) : str :=
  let len := Z.of_nat (length s) in
  let a := slice_bound len start in
  let b := slice_bound len stop in
  firstn (Z.to_nat (b - a)) (skipn (Z.to_nat a) s).

(** [s.replace(' ', '_')] *)
Definition replace_space (s : str) : str :=
  map (fun c => if Ascii.eqb c " "%char then "_"%char else c) s.

(** [s.lower()] on ASCII text: the letters A to Z. [str.lower()] also
    maps the cased letters outside ASCII, which this byte-level
    function leaves as they are; statements about lower-casing are
    made for ASCII names (see [ascii_str]). *)
Definition lower_char (c : ascii) : ascii :=
  let n := nat_of_ascii c in
  if (Nat.leb 65 n && Nat.leb n 90)%bool then ascii_of_nat (n + 32) else c.

Definition lower (s : str) : str := map lower_char s.

(** [str(i)] for a natural number (used for [i + 1] in file names). *)
Definition digit_char (n : nat) : ascii := ascii_of_nat (48 + n).

Fixpoint str_of_nat_fuel (fuel n : nat) (acc : str) : str :=
  match fuel with
  | O => acc
  | S fuel' =>
      let acc' := digit_char (n mod 10) :: acc in
      if Nat.eqb (n / 10) 0 then acc' else str_of_nat_fuel fuel' (n / 10) acc'
  end.

Definition str_of_nat (n : nat) : str := str_of_nat_fuel (S n) n [].

(** [str(z)] for an [int]. *)
Definition str_of_int (z : Z) : str :=
  if z <? 0 then "-"%char :: str_of_nat (Z.to_nat (- z))
  else str_of_nat (Z.to_nat z).

(** ** A reference strict JSON parser

    [json.loads] belongs to the Python standard library; the stages
    receive it through their environment (see [Env] below). The parser
    of this module is one concrete strict parser, used to run the
    stages on concrete response texts, with the serialiser it reads
    back. It covers objects, arrays, strings with the one-character
    escapes, integers and the three literals; number literals with a
    fraction or an exponent and [\u] escapes are rejected. *)
Module RefJSON.

Definition is_ws (c : ascii) : bool :=
  let n := nat_of_ascii c in
  (Nat.eqb n 32 || Nat.eqb n 10 || Nat.eqb n 13 || Nat.eqb n 9)%bool.

Fixpoint skip_ws (s : str) : str :=
  match s with
  | c :: t => if is_ws c then skip_ws t else s
  | [] => []
  end.

Fixpoint strip_prefix (p s : str) : option str :=
  match p, s with
  | [], _ => Some s
  | a :: p', b :: s' => if Ascii.eqb a b then strip_prefix p' s' else None
  | _ :: _, [] => None
  end.

Definition unescape (c : ascii) : option ascii :=
  if Ascii.eqb c dquote then Some dquote
  else if Ascii.eqb c "\"%char then Some "\"%char
  else if Ascii.eqb c "/"%char then Some "/"%char
  else if Ascii.eqb c "n"%char then Some (ascii_of_nat 10)
  else if Ascii.eqb c "r"%char then Some (ascii_of_nat 13)
  else if Ascii.eqb c "t"%char then Some (ascii_of_nat 9)
  else if Ascii.eqb c "b"%char then Some (ascii_of_nat 8)
  else if Ascii.eqb c "f"%char then Some (ascii_of_nat 12)
  else None.

(** The characters of a string literal after its opening quote, up to
    the closing quote. Control characters are refused (strict mode). *)
Fixpoint string_body (s acc : str) : option (str * str) :=
  match s with
  | [] => None
  | c :: t =>
      if Ascii.eqb c dquote then Some (rev acc, t)
      else if Ascii.eqb c "\"%char then
        match t with
        | e :: t' =>
            match unescape e with
            | Some x => string_body t' (x :: acc)
            | None => None
            end
        | [] => None
        end
      else if Nat.ltb (nat_of_ascii c) 32 then None
      else string_body t (c :: acc)
  end.

Definition is_digit (c : ascii) : bool :=
  let n := nat_of_ascii c in (Nat.leb 48 n && Nat.leb n 57)%bool.

Fixpoint digits (s : str) (acc : list nat) : list nat * str :=
  match s with
  | c :: t => if is_digit c then digits t ((nat_of_ascii c - 48)%nat :: acc) else (rev acc, s)
  | [] => (rev acc, [])
  end.

Definition nat_of_digits (ds : list nat) : nat :=
  fold_left (fun n d => (10 * n + d)%nat) ds 0%nat.

Definition starts_fraction (s : str) : bool :=
  match s with
  | c :: _ => (Ascii.eqb c "."%char || Ascii.eqb c "e"%char || Ascii.eqb c "E"%char)%bool
  | [] => false
  end.

Definition number (s : str) : option (json * str) :=
  let '(neg, s1) :=
    match s with
    | c :: t => if Ascii.eqb c "-"%char then (true, t) else (false, s)
    | [] => (false, s)
    end in
  match digits s1 [] with
  | ([], _) => None
  | (d :: ds, rest) =>
      if starts_fraction rest then None
      else
        let ds' := if Nat.eqb d 0 then [d] else d :: ds in
        let rest' := skipn (length ds') s1 in
        let n := Z.of_nat (nat_of_digits ds') in
        Some (JNum (if neg then - n else n), rest')
  end.

(** [d[k] = v] on an insertion-ordered dict. *)
Fixpoint dict_set (kvs : list (str * json)) (k : str) (v : json) : list (str * json) :=
  match kvs with
  | [] => [(k, v)]
  | (k', v') :: rest =>
      if str_eqb k' k then (k', v) :: rest else (k', v') :: dict_set rest k v
  end.

Fixpoint value (fuel : nat) (s : str) {struct fuel} : option (json * str) :=
  match fuel with
  | O => None
  | S f =>
      match skip_ws s with
      | [] => None
      | c :: r =>
          if Ascii.eqb c dquote then
            match string_body r [] with
            | Some (x, r') => Some (JStr x, r')
            | None => None
            end
          else if Ascii.eqb c "["%char then
            match skip_ws r with
            | c' :: r' =>
                if Ascii.eqb c' "]"%char then Some (JArr [], r')
                else elements f r []
            | [] => None
            end
          else if Ascii.eqb c "{"%char then
            match skip_ws r with
            | c' :: r' =>
                if Ascii.eqb c' "}"%char then Some (JObj [], r')
                else members f r []
            | [] => None
            end
          else
            match strip_prefix (lit "null") (c :: r) with
            | Some r' => Some (JNull, r')
            | None =>
            match strip_prefix (lit "true") (c :: r) with
            | Some r' => Some (JBool true, r')
            | None =>
            match strip_prefix (lit "false") (c :: r) with
            | Some r' => Some (JBool false, r')
            | None => number (c :: r)
            end end end
      end
  end
with elements (fuel : nat) (s : str) (acc : list json) {struct fuel} : option (json * str) :=
  match fuel with
  | O => None
  | S f =>
      match value f s with
      | Some (v, r) =>
          match skip_ws r with
          | c :: r' =>
              if Ascii.eqb c ","%char then elements f r' (v :: acc)
              else if Ascii.eqb c "]"%char then Some (JArr (rev (v :: acc)), r')
              else None
          | [] => None
          end
      | None => None
      end
  end
with members (fuel : nat) (s : str) (acc : list (str * json)) {struct fuel} : option (json * str) :=
  match fuel with
  | O => None
  | S f =>
      match skip_ws s with
      | q :: r0 =>
          if Ascii.eqb q dquote then
            match string_body r0 [] with
            | Some (k, r1) =>
                match skip_ws r1 with
                | colon :: r2 =>
                    if Ascii.eqb colon ":"%char then
                      match value f r2 with
                      | Some (v, r3) =>
                          match skip_ws r3 with
                          | c :: r4 =>
                              if Ascii.eqb c ","%char then members f r4 (dict_set acc k v)
                              else if Ascii.eqb c "}"%char then Some (JObj (dict_set acc k v), r4)
                              else None
                          | [] => None
                          end
                      | None => None
                      end
                    else None
                | [] => None
                end
            | None => None
            end
          else None
      | [] => None
      end
  end.

(** The whole text must be one JSON value, up to surrounding white
    space; anything else is a [JSONDecodeError]. *)
Definition loads (s : str) : Outcome json :=
  match value (S (length s)) s with
  | Some (v, r) =>
      match skip_ws r with
      | [] => Returned v
      | _ :: _ => Raised JSONDecodeError
      end
  | None => Raised JSONDecodeError
  end.

(** *** The matching serialiser *)

(** The escape of one character inside a string literal. *)
Definition escape_char (c : ascii) : str :=
  if Ascii.eqb c dquote then ["\"%char; dquote]
  else if Ascii.eqb c "\"%char then ["\"%char; "\"%char]
  else if Nat.eqb (nat_of_ascii c) 10 then ["\"%char; "n"%char]
  else if Nat.eqb (nat_of_ascii c) 13 then ["\"%char; "r"%char]
  else if Nat.eqb (nat_of_ascii c) 9 then ["\"%char; "t"%char]
  else if Nat.eqb (nat_of_ascii c) 8 then ["\"%char; "b"%char]
  else if Nat.eqb (nat_of_ascii c) 12 then ["\"%char; "f"%char]
  else [c].

Definition escape (s : str) : str := flat_map escape_char s.

Definition quote (s : str) : str := dquote :: escape s ++ [dquote].

Fixpoint join (sep : str) (l : list str) : str :=
  match l with
  | [] => []
  | x :: rest =>
      match rest with
      | [] => x
      | _ :: _ => x ++ sep ++ join sep rest
      end
  end.

(** [json.dumps(j)] with the default separators. *)
Fixpoint dumps (j : json) : str :=
  match j with
  | JNull => lit "null"
  | JBool b => if b then lit "true" else lit "false"
  | JNum z => str_of_int z
  | JStr s => quote s
  | JArr l => "["%char :: join (lit ", ") (map dumps l) ++ ["]"%char]
  | JObj kvs =>
      "{"%char
        :: join (lit ", ") (map (fun '(k, v) => quote k ++ lit ": " ++ dumps v) kvs)
        ++ ["}"%char]
  end.

(** The characters a string of the model may hold: no control
    character but the five that have a one-character escape. *)
Definition plain_char (c : ascii) : bool :=
  let n := nat_of_ascii c in
  (Nat.leb 32 n || Nat.eqb n 10 || Nat.eqb n 13 || Nat.eqb n 9 || Nat.eqb n 8
   || Nat.eqb n 12)%bool.

Definition plain_b (s : str) : bool := forallb plain_char s.

(** The JSON values the serialiser and the parser agree on: plain
    strings, objects without repeated key. *)
Fixpoint wellformed (j : json) : bool :=
  match j with
  | JStr s => plain_b s
  | JArr l => forallb wellformed l
  | JObj kvs =>
      (bool_decide (NoDup (map fst kvs))
       && forallb (fun '(k, v) => plain_b k && wellformed v) kvs)%bool
  | _ => true
  end.

(** The fuel the parser needs on a value: one unit per value and per
    list item. *)
Fixpoint size (j : json) : nat :=
  match j with
  | JArr l => S (fold_right (fun x n => S (size x + n)) 0 l)%nat
  | JObj kvs => S (fold_right (fun '(k, v) n => S (size v + n)) 0 kvs)%nat
  | _ => 1
  end.

(** One [key: value] member as the serialiser writes it. *)
Definition entry (kv : str * json) : str :=
  let '(k, v) := kv in quote k ++ lit ": " ++ dumps v.

Definition wellformed_entry (kv : str * json) : bool :=
  let '(k, v) := kv in (plain_b k && wellformed v)%bool.

Definition elements_size (l : list json) : nat :=
  fold_right (fun x n => S (size x + n)) 0%nat l.

Definition members_size (kvs : list (str * json)) : nat :=
  fold_right (fun '(k, v) n => S (size v + n)) 0%nat kvs.

(** What may follow a serialised value: nothing that would extend a
    number literal. *)
Definition separated (rest : str) : Prop :=
  match rest with
  | [] => True
  | c :: _ => is_digit c = false /\ starts_fraction rest = false
  end.

(** The head of a serialised value: neither white space nor a closing
    bracket. *)
Definition opens_value (c : ascii) : Prop :=
  is_ws c = false /\ Ascii.eqb c "]" = false /\ Ascii.eqb c "}" = false.

(** The parser, given fuel for [j], reads [j] back from its
    serialisation and leaves what follows. *)
Definition round_trips (j : json) : Prop :=
  wellformed j = true ->
  forall (fuel : nat) (rest : str),
    (size j <= fuel)%nat -> separated rest ->
    value fuel (dumps j ++ rest) = Some (j, rest).

End RefJSON.

(** Induction on JSON values, through the lists they nest. *)
Section json_induction.
Variable P : json -> Prop.
Hypothesis Hnull : P JNull.
Hypothesis Hbool : forall b, P (JBool b).
Hypothesis Hnum : forall z, P (JNum z).
Hypothesis Hstr : forall s, P (JStr s).
Hypothesis Harr : forall l, List.Forall P l -> P (JArr l).
Hypothesis Hobj : forall kvs, List.Forall (fun kv => P (snd kv)) kvs -> P (JObj kvs).

Fixpoint json_nested_ind (j : json) : P j :=
  match j with
  | JNull => Hnull
  | JBool b => Hbool b
  | JNum z => Hnum z
  | JStr s => Hstr s
  | JArr l =>
      Harr l ((fix go (l : list json) : List.Forall P l :=
                 match l with
                 | [] => @List.Forall_nil _ P
                 | x :: r => @List.Forall_cons _ P x r (json_nested_ind x) (go r)
                 end) l)
  | JObj kvs =>
      Hobj kvs ((fix go (l : list (str * json)) : List.Forall (fun kv => P (snd kv)) l :=
                   match l with
                   | [] => @List.Forall_nil _ (fun kv => P (snd kv))
                   | (k, v) :: r =>
                       @List.Forall_cons _ (fun kv => P (snd kv)) (k, v) r
                         (json_nested_ind v) (go r)
                   end) kvs)
  end.
End json_induction.

(** ** The generative capability and the world the stages act on *)

(** [google.genai] responses: [response.candidates[0].content.parts],
    each part with an optional [inline_data] blob. *)
Record Blob : Type := { data : bytes }.
Record Part : Type := { text : option str; inline_data : option Blob }.
Record Content : Type := { parts : option (list Part) }.
Record Candidate : Type := { content : option Content }.
Record Response : Type := { candidates : option (list Candidate) }.

(** A decoded picture ([PIL.Image]), opaque apart from its source. *)
Inductive Image : Type := Picture (source : bytes).

(** The pieces of an f-string: literal text and formatted values. *)
Inductive fragment : Type :=
| Lit (s : str)
| Fmt (v : json).

Abbreviation fstring := (list fragment).

Definition Text (s : string) : fragment := Lit (lit s).

(** One element of a multi-modal [contents] list. *)
Inductive prompt_part : Type :=
| PText (s : fstring)
| PImage (img : Image).

(** The [contents] argument of [generate_content]: one prompt string or
    an ordered list of parts. *)
Inductive contents : Type :=
| Prompt (s : fstring)
| Parts (l : list prompt_part).

(** The LangChain chains ([prompt | llm | StrOutputParser()]). *)
Inductive chain : Type := story_chain | scene_chain | script_chain | audio_chain.

(** A call made to the generative capability. *)
Inductive call : Type :=
| Invoke (c : chain) (inputs : list (str * json))
| GenerateContent (c : contents).

(** What a generator is constructed over: the two generative
    capabilities (their outcome may differ from call to call, so they
    take the number of calls made before), the image decoder, the JSON
    library, the file system's acceptance of a name, and the clock
    ([datetime.now().strftime("%Y%m%d%H%M%S")], read after a number of
    calls). *)
Record Env : Type := {
  invoke : nat -> chain -> list (str * json) -> Outcome str;
  generate_content : nat -> contents -> Outcome Response;
  Image_open : bytes -> Outcome Image;
  json_loads : str -> Outcome json;
  json_dumps : option nat -> json -> str;
  writable : str -> bool;
  strftime_now : nat -> str
}.

(** The mutable world: the files of the project directory and the log
    of calls made to the capability, oldest first. *)
Record World : Type := {
  files : gmap str Image;
  calls : list call
}.

Definition empty_world : World := {| files := ∅; calls := [] |}.

(** Computations over a world [W]: a world in, an outcome and a world
    out. A raised exception keeps the effects made before it. *)
Definition St (W A : Type) : Type := W -> Outcome A * W.

Definition ret {W A} (a : A) : St W A := fun w => (Returned a, w).

Definition raise {W A} (e : exn) : St W A := fun w => (Raised e, w).

Definition bind {W A B} (m : St W A) (k : A -> St W B) : St W B :=
  fun w =>
    match m w with
    | (Returned a, w') => k a w'
    | (Raised e, w') => (Raised e, w')
    end.

Definition lift {W A} (o : Outcome A) : St W A := fun w => (o, w).

Notation "'let!' x ':=' m 'in' k" := (bind m (fun x => k))
  (at level 10, x pattern, m at level 100, k at level 200).

(** [try: body  except <classes> as e: handler e] *)
Definition try_except {W A} (body : St W A) (classes : exn -> bool)
    (handler : exn -> St W A) : St W A :=
  fun w =>
    match body w with
    | (Returned a, w') => (Returned a, w')
    | (Raised e, w') => if classes e then handler e w' else (Raised e, w')
    end.

(** The generator's computations act on [World]. *)
Abbreviation M := (St World).

Section Capability.
Variable E : Env.

(** [chain.invoke(inputs)] *)
Definition chain_invoke (c : chain) (inputs : list (str * json)) : M str :=
  fun w =>
    (invoke E (length (calls w)) c inputs,
     {| files := files w; calls := calls w ++ [Invoke c inputs] |}).

(** [self.genai_client.models.generate_content(model=..., contents=c, config=...)] *)
Definition models_generate_content (c : contents) : M Response :=
  fun w =>
    (generate_content E (length (calls w)) c,
     {| files := files w; calls := calls w ++ [GenerateContent c] |}).

(** [datetime.datetime.now().strftime("%Y%m%d%H%M%S")] *)
Definition timestamp_now : M str :=
  fun w => (Returned (strftime_now E (length (calls w))), w).

(** [Image.open(BytesIO(b))] *)
Definition open_image (b : bytes) : M Image := lift (Image_open E b).

(** [image.save(filename)]: replaces whatever the name held. A save
    fails here when the file system refuses the name, before anything
    is written; a failure of the encoder after the file was opened,
    which would leave an empty file, is not among the failures of this
    model, and statements about files after a failed item are made
    for a file system that takes the writes (see [writable]). *)
Definition image_save (image : Image) (filename : str) : M unit :=
  fun w =>
    if writable E filename
    then (Returned tt, {| files := <[filename := image]> (files w); calls := calls w |})
    else (Raised OSError, w).
End Capability.

(** [response.candidates[0].content.parts], as iterated by [for part in ...]. *)
Definition response_parts (response : Response) : Outcome (list Part) :=
  match candidates response with
  | None => Raised TypeError
  | Some [] => Raised IndexError
  | Some (c :: _) =>
      match content c with
      | None => Raised AttributeError
      | Some ct =>
          match parts ct with
          | None => Raised TypeError
          | Some ps => Returned ps
          end
      end
  end.

(** A method of [str] called on a value: anything but a [str] has no
    [replace]. *)
Definition as_str (v : json) : Outcome str :=
  match v with
  | JStr s => Returned s
  | _ => Raised AttributeError
  end.

(** [for x in v] over a JSON value: a list yields its items, a string
    its characters, a dict its keys; nothing else is iterable. *)
Definition py_iter (v : json) : Outcome (list json) :=
  match v with
  | JArr l => Returned l
  | JStr s => Returned (map (fun c => JStr [c]) s)
  | JObj kvs => Returned (map (fun kv => JStr (fst kv)) kvs)
  | _ => Raised TypeError
  end.

(** ** More Python operations on JSON values *)

(** [v + 1] as the stages compute it for a scene index: an [int] (a
    [bool] counts as 0 or 1); anything else cannot be added to. *)
Definition py_add_one (v : json) : Outcome Z :=
  match v with
  | JNum z => Returned (z + 1)
  | JBool b => Returned (if b then 2 else 1)
  | _ => Raised TypeError
  end.

(** The scene index a generator of [Story-2.py] works with. Its first
    statement prints [scene_index + 1], so a value that cannot be added
    to raises [TypeError] before anything else happens. *)
Definition py_index (v : json) : Outcome Z :=
  match py_add_one v with
  | Returned z => Returned (z - 1)
  | Raised e => Raised e
  end.

(** [len(v)] *)
Definition py_len (v : json) : Outcome nat :=
  match v with
  | JArr l => Returned (length l)
  | JStr s => Returned (length s)
  | JObj kvs => Returned (length kvs)
  | _ => Raised TypeError
  end.

(** [d[k] = v]: item assignment with a [str] key works on a dict
    only. *)
Definition py_setitem (d : json) (k : str) (v : json) : Outcome json :=
  match d with
  | JObj kvs => Returned (JObj (RefJSON.dict_set kvs k v))
  | _ => Raised TypeError
  end.

(** Truthiness of a [str] or [None] result. *)
Definition truthy_name (f : option str) : bool :=
  match f with
  | Some (_ :: _) => true
  | _ => false
  end.

(** What the HTTP handlers take from the standard library:
    [base64.b64decode] on a request value, and the text of an exception
    inside an f-string. *)
Record Codec : Type := {
  b64decode : json -> Outcome bytes;
  str_of_exception : exn -> str
}.

(** [[base64.b64decode(img_str) for img_str in items]] *)
Fixpoint b64decode_all (K : Codec) (items : list json) : Outcome (list bytes) :=
  match items with
  | [] => Returned []
  | img_str :: rest =>
      match b64decode K img_str with
      | Returned b =>
          match b64decode_all K rest with
          | Returned bs => Returned (b :: bs)
          | Raised e => Raised e
          end
      | Raised e => Raised e
      end
  end.

(** ** [Story-2.py]

    The stages as they run on a console that takes every line: what
    [print] writes is left out here. [Story2Console] below has the
    character, background and composite stages with their output. *)
Module Story2.
Section Generator.
Variable E : Env.

Definition generate_story_and_characters (topic description style : json)
  : M (option json) :=
  let! response_text :=
    chain_invoke E story_chain
      [(lit "topic", topic); (lit "description", description); (lit "style", style)] in
  try_except
    (let start := find "{" response_text in
     let end_ := rfind "}" response_text + 1 in
     let! story_data := lift (json_loads E (slice response_text start end_)) in
     ret (Some story_data))
    is_JSONDecodeError_or_IndexError
    (fun e => ret None).

(** [f"{name.replace(' ', '_').lower()}.png"] *)
Definition character_filename (name : str) : str :=
  lower (replace_space name) ++ lit ".png".

(** The [for part in ...] loop of [generate_character_image]: the
    first part carrying image data is saved and its file name
    returned; without one the result is [None]. *)
Fixpoint character_image_parts (name : json) (ps : list Part) : M (option str) :=
  match ps with
  | [] => ret None
  | part :: rest =>
      match inline_data part with
      | Some blob =>
          let! image := open_image E (data blob) in
          let! name_s := lift (as_str name) in
          let filename := character_filename name_s in
          let! _ := image_save E image filename in
          ret (Some filename)
      | None => character_image_parts name rest
      end
  end.

(** The prompt of the character portrait. *)
Definition character_contents (name appearance style : json) : contents :=
  Prompt [Text "Create a "; Fmt style; Text " illustration of a character named ";
          Fmt name; Text ". ";
          Text "Appearance: "; Fmt appearance; Text ". ";
          Text "The background must be plain white with no other elements."].

Definition generate_character_image (character style : json) : M (option str) :=
  let! name := lift (dict_get character (lit "name") (JStr (lit "Unknown_Character"))) in
  let! appearance :=
    lift (dict_get character (lit "appearance") (JStr (lit "No appearance described"))) in
  let contents := character_contents name appearance style in
  try_except
    (let! response := models_generate_content E contents in
     let! ps := lift (response_parts response) in
     character_image_parts name ps)
    is_Exception
    (fun e => ret None).

(** [f"background_{i + 1}.png"] *)
Definition background_filename (i : nat) : str :=
  lit "background_" ++ str_of_nat (i + 1) ++ lit ".png".

(** The prompt of one background item. *)
Definition background_contents (style desc : json) : contents :=
  Prompt [Text "Generate a background image in a "; Fmt style;
          Text " style. The image must ONLY be a background scene, with no characters or figures. Description: ";
          Fmt desc].

(** The [for part in ...] loop of one background item: the first
    part carrying image data is saved, its name appended, and the
    loop left ([break]). *)
Fixpoint background_image_parts (i : nat) (generated_files : list str) (ps : list Part)
  : M (list str) :=
  match ps with
  | [] => ret generated_files
  | part :: rest =>
      match inline_data part with
      | Some blob =>
          let! image := open_image E (data blob) in
          let filename := background_filename i in
          let! _ := image_save E image filename in
          ret (generated_files ++ [filename])
      | None => background_image_parts i generated_files rest
      end
  end.

(** [for i, desc in enumerate(background_descriptions)], from index [i]. *)
Fixpoint background_images_from (i : nat) (background_descriptions : list json)
    (style : json) (generated_files : list str) : M (list str) :=
  match background_descriptions with
  | [] => ret generated_files
  | desc :: rest =>
      let contents := background_contents style desc in
      let! generated_files' :=
        try_except
          (let! response := models_generate_content E contents in
           let! ps := lift (response_parts response) in
           background_image_parts i generated_files ps)
          is_Exception
          (fun e => ret generated_files) in
      background_images_from (S i) rest style generated_files'
  end.

Definition generate_background_images (background_descriptions style : json)
  : M (list str) :=
  let! items := lift (py_iter background_descriptions) in
  background_images_from 0 items style [].

Definition generate_scene_descriptions (storyline characters style : json)
  : M (option json) :=
  try_except
    (let! response_text :=
       chain_invoke E scene_chain
         [(lit "storyline", storyline);
          (lit "characters", JStr (json_dumps E None characters));
          (lit "style", style)] in
     let! scenes_data :=
       lift (json_loads E
               (slice response_text (find "{" response_text) (rfind "}" response_text + 1))) in
     ret (Some scenes_data))
    is_Exception
    (fun e => ret None).

(** [for img_bytes in character_images_bytes: prompt_parts.append(Image.open(...))] *)
Fixpoint append_character_images (prompt_parts : list prompt_part)
    (character_images_bytes : list bytes) : M (list prompt_part) :=
  match character_images_bytes with
  | [] => ret prompt_parts
  | img_bytes :: rest =>
      let! img := open_image E img_bytes in
      append_character_images (prompt_parts ++ [PImage img]) rest
  end.

Fixpoint scene_image_parts (scene_index : Z) (ps : list Part) : M (option str) :=
  match ps with
  | [] => ret None
  | part :: rest =>
      match inline_data part with
      | Some blob =>
          let! image := open_image E (data blob) in
          let filename := lit "scene_" ++ str_of_int (scene_index + 1) ++ lit ".png" in
          let! _ := image_save E image filename in
          ret (Some filename)
      | None => scene_image_parts scene_index rest
      end
  end.

Definition generate_scene_image_with_references (scene_description style : json)
    (character_images_bytes : list bytes) (background_image_byte : bytes)
    (scene_index : Z) : M (option str) :=
  let! background := open_image E background_image_byte in
  let prompt_parts :=
    [PText [Text "Create a final, composite illustration in a "; Fmt style;
            Text " style. Scene Description: '"; Fmt scene_description; Text "'."];
     PText [Text "Use this image as the definite background:"];
     PImage background;
     PText [Text "Place these characters consistently within the background:"]] in
  let! prompt_parts := append_character_images prompt_parts character_images_bytes in
  try_except
    (let! response := models_generate_content E (Parts prompt_parts) in
     let! ps := lift (response_parts response) in
     scene_image_parts scene_index ps)
    is_Exception
    (fun e => ret None).

Definition generate_narration_and_dialogue (storyline scene_descriptions : json)
  : M (option json) :=
  try_except
    (let! response_text :=
       chain_invoke E script_chain
         [(lit "storyline", storyline);
          (lit "scene_descriptions", JStr (json_dumps E None scene_descriptions))] in
     let! script_data :=
       lift (json_loads E
               (slice response_text (find "{" response_text) (rfind "}" response_text + 1))) in
     ret (Some script_data))
    is_Exception
    (fun e => ret None).

Definition generate_background_audio_description (scene_description : json)
    (scene_index : Z) : M (option json) :=
  try_except
    (let! response_text :=
       chain_invoke E audio_chain [(lit "scene_description", scene_description)] in
     let! audio_data :=
       lift (json_loads E
               (slice response_text (find "{" response_text) (rfind "}" response_text + 1))) in
     ret (Some audio_data))
    is_Exception
    (fun e => ret None).
End Generator.
End Story2.

(** ** [story_generator.py] *)
Module StoryGenerator.
Section Generator.
Variable E : Env.

Definition generate_story_and_characters (topic description style : json)
  : M (option json) :=
  let! response_text :=
    chain_invoke E story_chain
      [(lit "topic", topic); (lit "description", description); (lit "style", style)] in
  try_except
    (let start := find "{" response_text in
     let end_ := rfind "}" response_text + 1 in
     let! story_data := lift (json_loads E (slice response_text start end_)) in
     ret (Some story_data))
    is_JSONDecodeError_or_IndexError
    (fun e => ret None).

(** [f"{name.replace(' ', '_').lower()}_{style.replace(' ', '_')}.png"] *)
Definition character_filename (name style : str) : str :=
  lower (replace_space name) ++ lit "_" ++ replace_space style ++ lit ".png".

Fixpoint character_image_parts (name style : json) (ps : list Part) : M (option str) :=
  match ps with
  | [] => ret None
  | part :: rest =>
      match inline_data part with
      | Some blob =>
          let! image := open_image E (data blob) in
          let! name_s := lift (as_str name) in
          let! style_s := lift (as_str style) in
          let filename := character_filename name_s style_s in
          let! _ := image_save E image filename in
          ret (Some filename)
      | None => character_image_parts name style rest
      end
  end.

(** The prompt of the character portrait. *)
Definition character_contents (name appearance traits style : json) : contents :=
  Prompt [Text "Create a "; Fmt style; Text " illustration of a character named ";
          Fmt name; Text ". ";
          Text "Character appearance: "; Fmt appearance; Text ". ";
          Text "Character personality traits: "; Fmt traits; Text ". ";
          Text "The background must be plain white with no other elements. ";
          Text "The image should be high quality and must match the style ";
          Fmt style; Text ". ";
          Text "The character must be the main focus of the image with nothing around them."].

Definition generate_character_image (character style storyline : json) : M (option str) :=
  let! name := lift (dict_item character (lit "name")) in
  let! appearance := lift (dict_item character (lit "appearance")) in
  let! traits := lift (dict_get character (lit "traits") (JStr [])) in
  let contents := character_contents name appearance traits style in
  try_except
    (let! response := models_generate_content E contents in
     let! ps := lift (response_parts response) in
     character_image_parts name style ps)
    is_Exception
    (fun e => ret None).
Definition generate_scene_descriptions (storyline characters style : json)
  : M (option json) :=
  let character_list_str := json_dumps E (Some 2%nat) characters in
  try_except
    (let! response_text :=
       chain_invoke E scene_chain
         [(lit "storyline", storyline);
          (lit "characters", JStr character_list_str);
          (lit "style", style)] in
     let! scenes_data :=
       lift (json_loads E
               (slice response_text (find "{" response_text) (rfind "}" response_text + 1))) in
     ret (Some scenes_data))
    is_Exception
    (fun e => ret None).

(** [for img_bytes in character_images_bytes: prompt_parts.append(Image.open(...))] *)
Fixpoint append_character_images (prompt_parts : list prompt_part)
    (character_images_bytes : list bytes) : M (list prompt_part) :=
  match character_images_bytes with
  | [] => ret prompt_parts
  | img_bytes :: rest =>
      let! img := open_image E img_bytes in
      append_character_images (prompt_parts ++ [PImage img]) rest
  end.

(** [f"scene_{scene_index + 1}.png"], once [scene_index + 1] is known. *)
Definition scene_filename (next : Z) : str :=
  lit "scene_" ++ str_of_int next ++ lit ".png".

Fixpoint scene_image_parts (scene_index : json) (ps : list Part) : M (option str) :=
  match ps with
  | [] => ret None
  | part :: rest =>
      match inline_data part with
      | Some blob =>
          let! image := open_image E (data blob) in
          let! next := lift (py_add_one scene_index) in
          let filename := scene_filename next in
          let! _ := image_save E image filename in
          ret (Some filename)
      | None => scene_image_parts scene_index rest
      end
  end.

(** The three instruction texts of the composite prompt. *)
Definition scene_prompt_texts (scene_description style : json) : list prompt_part :=
  [PText [Text "Create a "; Fmt style;
          Text " illustration of a scene . Do not add any text or speech bubbles. "];
   PText [Text "Scene Description: '"; Fmt scene_description; Text "'. "];
   PText [Text "Use the following images as a direct visual reference to ensure the characters in the scene are very much consistent with their original appearance and traits ,Do not merge characters."]].

(** The handler prints [scene_index + 1] with the exception, so it
    raises itself when the index cannot be added to. *)
Definition generate_scene_image_with_references (scene_description style : json)
    (character_images_bytes : list bytes) (scene_index : json) : M (option str) :=
  let prompt_parts := scene_prompt_texts scene_description style in
  let! prompt_parts := append_character_images prompt_parts character_images_bytes in
  try_except
    (let! response := models_generate_content E (Parts prompt_parts) in
     let! ps := lift (response_parts response) in
     scene_image_parts scene_index ps)
    is_Exception
    (fun e => let! _ := lift (py_add_one scene_index) in ret None).
End Generator.
End StoryGenerator.

(** ** [Story3.py] *)
Module Story3.
Section Generator.
Variable E : Env.

(** [f"char_{sanitized_name}_{timestamp}.png"] *)
Definition character_filename (sanitized_name timestamp : str) : str :=
  lit "char_" ++ sanitized_name ++ lit "_" ++ timestamp ++ lit ".png".

Fixpoint character_image_parts (name : json) (ps : list Part) : M (option str) :=
  match ps with
  | [] => ret None
  | part :: rest =>
      match inline_data part with
      | Some blob =>
          let! image := open_image E (data blob) in
          let! timestamp := timestamp_now E in
          let! name_s := lift (as_str name) in
          let sanitized_name := lower (replace_space name_s) in
          let filename := character_filename sanitized_name timestamp in
          let! _ := image_save E image filename in
          ret (Some filename)
      | None => character_image_parts name rest
      end
  end.

Definition character_contents (name appearance style : json) : contents :=
  Prompt [Text "
        Create a high-quality character concept art of a single character With just that person in the final output.
        **Character Name:** "; Fmt name; Text "
        **Art Style:** "; Fmt style; Text "
        **Character Appearance:** "; Fmt appearance; Text "
        **Crucial Background Instructions:**
        - The background MUST be a solid, plain white color.
        - There should be absolutely no other elements, objects, shadows, or ground textures in the background.
        - The output should be the character isolated on a **pure white background**, in a **neutral standing** pose.
        "].

Definition generate_character_image (character style : json) : M (option str) :=
  let! name := lift (dict_get character (lit "name") (JStr (lit "Unknown_Character"))) in
  let! appearance :=
    lift (dict_get character (lit "appearance") (JStr (lit "No appearance described"))) in
  let contents := character_contents name appearance style in
  try_except
    (let! response := models_generate_content E contents in
     let! ps := lift (response_parts response) in
     character_image_parts name ps)
    is_Exception
    (fun e => ret None).

(** [f"bg_{i + 1}_{timestamp}.png"] *)
Definition background_filename (i : nat) (timestamp : str) : str :=
  lit "bg_" ++ str_of_nat (i + 1) ++ lit "_" ++ timestamp ++ lit ".png".

Definition background_contents (style desc : json) : contents :=
  Prompt [Text "
            Generate a high-quality background illustration to be used as a 'background plate' in a composite scene.

            **Art Style:** "; Fmt style; Text "
            **Scene Description:** "; Lit [dquote]; Fmt desc; Lit [dquote]; Text "

            **CRITICAL COMPOSITION RULES:**
            1.  **Create Open Space:** The absolute priority is to create a scene with significant open space (negative space) in the foreground or mid-ground. This empty area is where characters will be placed later. Think of it as setting a stage for actors; the stage needs an open area for the performance.
            2.  **Framing:** The composition must be a medium shot or wide shot to provide a clear view of the environment and the open space.
            3.  **Avoid Central Clutter:** Do NOT place a large, detailed, or eye-catching object directly in the center of the frame. The main focus of the background should be off-center to leave room.
            4.  **No Figures:** The image MUST be an environment/landscape ONLY. There must be ABSOLUTELY NO people, characters, figures, or creatures.

            The final image must look like a beautiful but intentionally incomplete scene, ready for the main characters to be added.
            "].

Fixpoint background_image_parts (i : nat) (generated_files : list str) (ps : list Part)
  : M (list str) :=
  match ps with
  | [] => ret generated_files
  | part :: rest =>
      match inline_data part with
      | Some blob =>
          let! image := open_image E (data blob) in
          let! timestamp := timestamp_now E in
          let filename := background_filename i timestamp in
          let! _ := image_save E image filename in
          ret (generated_files ++ [filename])
      | None => background_image_parts i generated_files rest
      end
  end.

Fixpoint background_images_from (i : nat) (background_descriptions : list json)
    (style : json) (generated_files : list str) : M (list str) :=
  match background_descriptions with
  | [] => ret generated_files
  | desc :: rest =>
      let contents := background_contents style desc in
      let! generated_files' :=
        try_except
          (let! response := models_generate_content E contents in
           let! ps := lift (response_parts response) in
           background_image_parts i generated_files ps)
          is_Exception
          (fun e => ret generated_files) in
      background_images_from (S i) rest style generated_files'
  end.

Definition generate_background_images (background_descriptions style : json)
  : M (list str) :=
  let! items := lift (py_iter background_descriptions) in
  background_images_from 0 items style [].

(** The handler of this stage prints [response_text]; when the
    exception it catches was raised by [invoke] itself the name is
    still unbound and the handler raises [UnboundLocalError]. The
    outer [try_except] below is the handler in that situation, the
    inner one the handler once [response_text] is bound. *)
Definition generate_scene_descriptions (storyline characters style background_descriptions : json)
  : M (option json) :=
  try_except
    (let! response_text :=
       chain_invoke E scene_chain
         [(lit "storyline", storyline);
          (lit "characters", JStr (json_dumps E (Some 2%nat) characters));
          (lit "style", style);
          (lit "background_descriptions",
           JStr (json_dumps E (Some 2%nat) background_descriptions))] in
     try_except
       (let start := find "{" response_text in
        let end_ := rfind "}" response_text + 1 in
        let! _ :=
          if ((start =? -1) || (end_ =? 0))%bool then raise JSONDecodeError else ret tt in
        let! scenes_data := lift (json_loads E (slice response_text start end_)) in
        ret (Some scenes_data))
       is_JSONDecodeError_or_IndexError
       (fun e => ret None))
    is_JSONDecodeError_or_IndexError
    (fun e => raise UnboundLocalError).

Fixpoint append_character_images (prompt_parts : list prompt_part)
    (character_images_bytes : list bytes) : M (list prompt_part) :=
  match character_images_bytes with
  | [] => ret prompt_parts
  | img_bytes :: rest =>
      let! img := open_image E img_bytes in
      append_character_images (prompt_parts ++ [PImage img]) rest
  end.

Fixpoint scene_image_parts (scene_index : Z) (ps : list Part) : M (option str) :=
  match ps with
  | [] => ret None
  | part :: rest =>
      match inline_data part with
      | Some blob =>
          let! image := open_image E (data blob) in
          let! timestamp := timestamp_now E in
          let filename :=
            lit "scene_" ++ str_of_int (scene_index + 1) ++ lit "_" ++ timestamp ++ lit ".png" in
          let! _ := image_save E image filename in
          ret (Some filename)
      | None => scene_image_parts scene_index rest
      end
  end.

Definition generate_scene_image_with_references (scene_description style : json)
    (character_images_bytes : list bytes) (background_image_byte : bytes)
    (scene_index : Z) : M (option str) :=
  let! background := open_image E background_image_byte in
  let prompt_parts :=
    [PText [Text "Create a high-quality composite illustration in **"; Fmt style; Text "** style."];
     PText [Text "Scene description: "; Lit [dquote]; Fmt scene_description; Lit [dquote]];
     PText [Lit [ascii_of_nat 10]; Text "**Composition & Consistency Rules:**"];
     PText [Text "1. **Fixed Background**: Use the provided image as the definitive, unchangeable background. Do not add or remove any background elements."];
     PText [Text "2. **Accurate Character Placement**: Place the characters **exactly as described**, matching their **locations, actions, and spatial relationships** in the scene description."];
     PText [Text "3. **Perspective & Depth**: Match the perspective and scale of the characters to the background. Characters closer to the foreground should appear larger; those farther should appear smaller."];
     PText [Text "4. **Lighting Alignment**: Match character lighting and shadows to the background's light source (e.g., sunlight direction, ambient lighting)."];
     PText [Text "5. **Surface Interaction**: Characters must interact with the environment realistically â€” sitting on chairs, leaning against trees, standing on the ground, etc."];
     PText [Text "6. **Shadow Casting**: Add realistic shadows beneath characters to make them feel naturally integrated into the scene."];
     PText [Text "7. **No Floating Figures**: Characters must appear firmly grounded, never hovering or clipping through surfaces."];
     PText [Text "8. **Character Consistency**: Do NOT swap character identities or positions. Maintain accurate facial features, clothing, and posture throughout scenes."];
     PText [Text "9. **No Additional Characters**: Do NOT add any new characters or figures that are not described in the scene.DO NOT Duplicate a character once added into the scene"];
     PText [Text "10. Utilize the bakcground efficiently to place the characters in a **LOGICAL** way such that it doesnt look disproportionate or out of place."];
     PText [Text "11. **Character Continuity Across Scenes:** Maintain the same identity, outfit, hairstyle, and visual style for each character throughout all generated scenes. Do not change or swap appearances between frames."];
     PText [Lit [ascii_of_nat 10]; Text "Use this image as the background:"];
     PImage background;
     PText [Text "Place these characters consistently within the scene:"]] in
  let! prompt_parts := append_character_images prompt_parts character_images_bytes in
  try_except
    (let! response := models_generate_content E (Parts prompt_parts) in
     let! ps := lift (response_parts response) in
     scene_image_parts scene_index ps)
    is_Exception
    (fun e => ret None).
End Generator.
End Story3.

(** ** [new_server.py]

    The handlers call the generator with the interface of [Story-2.py]
    (three-argument [generate_scene_descriptions], narration and audio
    stages); they are modelled over [Story2]. A handler's result is the
    JSON body and the HTTP status. *)

Fixpoint is_prefix (p s : str) : bool :=
  match p, s with
  | [], _ => true
  | a :: p', b :: s' => (Ascii.eqb a b && is_prefix p' s')%bool
  | _ :: _, [] => false
  end.

Fixpoint is_substring (p s : str) : bool :=
  (is_prefix p s || match s with [] => false | _ :: t => is_substring p t end)%bool.

(** [k in data] for a [str] [k]: a key of a dict, an item of a list, a
    substring of a string; other values are not containers. *)
Definition py_in (k : str) (data : json) : Outcome bool :=
  match data with
  | JObj kvs => Returned (has_key k kvs)
  | JArr l => Returned (existsb (fun v => match v with JStr s => str_eqb s k | _ => false end) l)
  | JStr s => Returned (is_substring k s)
  | _ => Raised TypeError
  end.

(** [all(k in data for k in keys)], stopping at the first miss. *)
Fixpoint all_in (keys : list str) (data : json) : Outcome bool :=
  match keys with
  | [] => Returned true
  | k :: rest =>
      match py_in k data with
      | Returned true => all_in rest data
      | Returned false => Returned false
      | Raised e => Raised e
      end
  end.

(** [not data or not all(k in data for k in required)] *)
Definition missing_fields (data : json) (required : list str) : Outcome bool :=
  if negb (truthy data) then Returned true
  else match all_in required data with
       | Returned b => Returned (negb b)
       | Raised e => Raised e
       end.

Module NewServer.
Section Server.
Variable E : Env.

Definition handle_error (message : string) (status_code : Z) : json * Z :=
  (JObj [(lit "error", JStr (lit message))], status_code).

(** [jsonify(body)] with the default status. *)
Definition jsonify (body : json) : json * Z := (body, 200).

Definition api_generate_story (data : json) : M (json * Z) :=
  let! missing :=
    lift (missing_fields data [lit "topic"; lit "description"; lit "style"]) in
  if missing
  then ret (handle_error "Missing required fields: topic, description, style" 400)
  else
    let! topic := lift (dict_item data (lit "topic")) in
    let! description := lift (dict_item data (lit "description")) in
    let! style := lift (dict_item data (lit "style")) in
    let! result := Story2.generate_story_and_characters E topic description style in
    ret (match result with
         | Some v =>
             if truthy v then jsonify v
             else handle_error "Story generation failed on the server." 500
         | None => handle_error "Story generation failed on the server." 500
         end).

(** The generator's list of file names as the Python value the
    handler tests with [is not None]. *)
Definition filenames_value (filenames : list str) : option json :=
  Some (JArr (map JStr filenames)).

Definition api_generate_background_images (data : json) : M (json * Z) :=
  let! missing :=
    lift (missing_fields data [lit "background_descriptions"; lit "style"]) in
  if missing
  then ret (handle_error "Missing required fields: background_descriptions, style" 400)
  else
    let! background_descriptions := lift (dict_item data (lit "background_descriptions")) in
    let! style := lift (dict_item data (lit "style")) in
    let! generated := Story2.generate_background_images E background_descriptions style in
    let filenames := filenames_value generated in
    ret (match filenames with
         | Some v => jsonify (JObj [(lit "filenames", v)])
         | None => handle_error "Background image generation failed on the server." 500
         end).
End Server.
Section MoreHandlers.
Variable E : Env.
Variable K : Codec.

(** An error response whose message is computed. *)
Definition error_response (message : str) (status_code : Z) : json * Z :=
  (JObj [(lit "error", JStr message)], status_code).

(** [jsonify(result) if result else handle_error(failure, 500)] *)
Definition answer_result (result : option json) (failure : string) : json * Z :=
  match result with
  | Some v => if truthy v then jsonify v else handle_error failure 500
  | None => handle_error failure 500
  end.

(** [jsonify({"filename": filename}) if filename else handle_error(failure, 500)] *)
Definition answer_filename (filename : option str) (failure : string) : json * Z :=
  match filename with
  | Some f =>
      if truthy_name filename then jsonify (JObj [(lit "filename", JStr f)])
      else handle_error failure 500
  | None => handle_error failure 500
  end.

Definition api_generate_character_image (data : json) : M (json * Z) :=
  let! missing := lift (missing_fields data [lit "character"; lit "style"]) in
  if missing
  then ret (handle_error "Missing required fields: character, style" 400)
  else
    let! character := lift (dict_item data (lit "character")) in
    let! style := lift (dict_item data (lit "style")) in
    let! filename := Story2.generate_character_image E character style in
    ret (answer_filename filename "Character image generation failed on the server.").

Definition api_generate_scene_descriptions (data : json) : M (json * Z) :=
  let! missing :=
    lift (missing_fields data [lit "storyline"; lit "characters"; lit "style"]) in
  if missing
  then ret (handle_error "Missing required fields: storyline, characters, style" 400)
  else
    let! storyline := lift (dict_item data (lit "storyline")) in
    let! characters := lift (dict_item data (lit "characters")) in
    let! style := lift (dict_item data (lit "style")) in
    let! result := Story2.generate_scene_descriptions E storyline characters style in
    ret (answer_result result "Failed to generate scene descriptions on the server.").

(** The [try] that decodes the reference images: the decoded bytes,
    or the 400 response of its handler. *)
Definition decode_references (data : json) : M (json * Z + list bytes * bytes) :=
  try_except
    (let! images := lift (dict_item data (lit "character_images_base64")) in
     let! items := lift (py_iter images) in
     let! char_bytes := lift (b64decode_all K items) in
     let! background := lift (dict_item data (lit "background_image_base64")) in
     let! bg_bytes := lift (b64decode K background) in
     ret (inr (char_bytes, bg_bytes)))
    is_Exception
    (fun e =>
       ret (inl (error_response
                   (lit "Invalid Base64 image data provided: " ++ str_of_exception K e) 400))).

Definition api_generate_scene_image (data : json) : M (json * Z) :=
  let required_keys :=
    [lit "scene_description"; lit "style"; lit "character_images_base64";
     lit "background_image_base64"] in
  let! missing := lift (missing_fields data required_keys) in
  if missing
  then ret (handle_error "Missing required fields. Required: ['scene_description', 'style', 'character_images_base64', 'background_image_base64']" 400)
  else
    let! decoded := decode_references data in
    match decoded with
    | inl response => ret response
    | inr (char_bytes, bg_bytes) =>
        let! scene_description := lift (dict_item data (lit "scene_description")) in
        let! style := lift (dict_item data (lit "style")) in
        let! scene_index := lift (dict_get data (lit "scene_index") (JNum 0)) in
        let! index := lift (py_index scene_index) in
        let! filename :=
          Story2.generate_scene_image_with_references E scene_description style
            char_bytes bg_bytes index in
        ret (answer_filename filename "Failed to generate scene image on the server.")
    end.

Definition api_generate_script (data : json) : M (json * Z) :=
  let! missing := lift (missing_fields data [lit "storyline"; lit "scene_descriptions"]) in
  if missing
  then ret (handle_error "Missing required fields: storyline, scene_descriptions" 400)
  else
    let! storyline := lift (dict_item data (lit "storyline")) in
    let! scene_descriptions := lift (dict_item data (lit "scene_descriptions")) in
    let! result := Story2.generate_narration_and_dialogue E storyline scene_descriptions in
    ret (answer_result result "Failed to generate script on the server.").

Definition api_generate_audio_description (data : json) : M (json * Z) :=
  let! missing := lift (missing_fields data [lit "scene_description"]) in
  if missing
  then ret (handle_error "Missing required field: scene_description" 400)
  else
    let! scene_description := lift (dict_item data (lit "scene_description")) in
    let! scene_index := lift (dict_get data (lit "scene_index") (JNum 0)) in
    let! index := lift (py_index scene_index) in
    let! result := Story2.generate_background_audio_description E scene_description index in
    ret (answer_result result "Failed to generate audio description on the server.").
End MoreHandlers.
End NewServer.

(** ** [flask_server.py]

    The earlier server, over the generator of [story_generator.py]. *)
Module FlaskServer.
Section Server.
Variable E : Env.
Variable K : Codec.

(** [jsonify({"error": message}), status] *)
Definition error (message : string) (status_code : Z) : json * Z :=
  (JObj [(lit "error", JStr (lit message))], status_code).

Definition handle_generate_story (data : json) : M (json * Z) :=
  let! missing :=
    lift (missing_fields data [lit "topic"; lit "description"; lit "style"]) in
  if missing
  then ret (error "Missing required fields: topic, description, style" 400)
  else
    let! topic := lift (dict_item data (lit "topic")) in
    let! description := lift (dict_item data (lit "description")) in
    let! style := lift (dict_item data (lit "style")) in
    let! result := StoryGenerator.generate_story_and_characters E topic description style in
    ret (match result with
         | Some v => if truthy v then (v, 200) else error "Story generation failed" 500
         | None => error "Story generation failed" 500
         end).

Definition handle_generate_character_image (data : json) : M (json * Z) :=
  let! missing := lift (missing_fields data [lit "character"; lit "style"]) in
  if missing
  then ret (error "Missing required fields: character, style" 400)
  else
    let! character := lift (dict_item data (lit "character")) in
    let! style := lift (dict_item data (lit "style")) in
    let! character :=
      lift (py_setitem character (lit "background_scene")
              (JStr (lit "plain white background"))) in
    let! image_filename := StoryGenerator.generate_character_image E character style (JStr []) in
    ret (match image_filename with
         | Some f =>
             if truthy_name image_filename
             then (JObj [(lit "message", JStr (lit "Image generated successfully"));
                         (lit "filename", JStr f)], 200)
             else error "Image generation failed" 500
         | None => error "Image generation failed" 500
         end).

Definition api_generate_scene_descriptions (data : json) : M (json * Z) :=
  let! missing :=
    lift (missing_fields data [lit "storyline"; lit "characters"; lit "style"]) in
  if missing
  then ret (error "Missing fields: storyline, characters, and style" 400)
  else
    let! storyline := lift (dict_item data (lit "storyline")) in
    let! characters := lift (dict_item data (lit "characters")) in
    let! style := lift (dict_item data (lit "style")) in
    let! result := StoryGenerator.generate_scene_descriptions E storyline characters style in
    ret (match result with
         | Some v =>
             if truthy v then (v, 200) else error "Failed to generate scene descriptions" 500
         | None => error "Failed to generate scene descriptions" 500
         end).

(** The [try] that decodes the character images: the decoded bytes, or
    the 400 response of its handler. *)
Definition decode_images (data : json) : M (json * Z + list bytes) :=
  try_except
    (let! images := lift (dict_item data (lit "character_images")) in
     let! items := lift (py_iter images) in
     let! images_bytes := lift (b64decode_all K items) in
     ret (inr images_bytes))
    is_Exception
    (fun e =>
       ret (inl (JObj [(lit "error",
                        JStr (lit "Invalid Base64 image data: " ++ str_of_exception K e))],
                 400))).

Definition api_generate_scene_image (data : json) : M (json * Z) :=
  let! missing :=
    lift (missing_fields data [lit "scene_description"; lit "style"; lit "character_images"]) in
  if missing
  then ret (error "Missing fields: scene_description, style, character_images" 400)
  else
    let! decoded := decode_images data in
    match decoded with
    | inl response => ret response
    | inr images_bytes =>
        let! scene_description := lift (dict_item data (lit "scene_description")) in
        let! style := lift (dict_item data (lit "style")) in
        let! scene_index := lift (dict_get data (lit "scene_index") (JNum 0)) in
        let! filename :=
          StoryGenerator.generate_scene_image_with_references E scene_description style
            images_bytes scene_index in
        ret (match filename with
             | Some f =>
                 if truthy_name filename then (JObj [(lit "filename", JStr f)], 200)
                 else error "Failed to generate scene image" 500
             | None => error "Failed to generate scene image" 500
             end)
    end.
End Server.
End FlaskServer.

(** ** [image_generation.py]

    The notebook version of the generator: a story stage, a character
    stage that reads the character's background scene, and the
    pipeline [process_complete_story] that draws every character of a
    story and reports on each. What [print] writes and what
    [image.show()] displays is not part of the model. *)
Module ImageGeneration.
Section Generator.
Variable E : Env.

Definition generate_story_and_characters (topic description style : json)
  : M (option json) :=
  let! response_text :=
    chain_invoke E story_chain
      [(lit "topic", topic); (lit "description", description); (lit "style", style)] in
  try_except
    (let start := find "{" response_text in
     let end_ := rfind "}" response_text + 1 in
     let! story_data := lift (json_loads E (slice response_text start end_)) in
     ret (Some story_data))
    is_JSONDecodeError_or_IndexError
    (fun e => ret None).

(** [f"{name.replace(' ', '_').lower()}_{style.replace(' ', '_')}.png"] *)
Definition character_filename (name style : str) : str :=
  lower (replace_space name) ++ lit "_" ++ replace_space style ++ lit ".png".

(** The loop over the parts of the response: a part with text is
    passed over, whatever else it carries; the first part without text
    and with image data is saved. *)
Fixpoint character_image_parts (name style : json) (ps : list Part) : M (option str) :=
  match ps with
  | [] => ret None
  | part :: rest =>
      match text part with
      | Some _ => character_image_parts name style rest
      | None =>
          match inline_data part with
          | Some blob =>
              let! image := open_image E (data blob) in
              let! name_s := lift (as_str name) in
              let! style_s := lift (as_str style) in
              let filename := character_filename name_s style_s in
              let! _ := image_save E image filename in
              ret (Some filename)
          | None => character_image_parts name style rest
          end
      end
  end.

(** The prompt of the character portrait. *)
Definition character_contents (name appearance traits background style : json) : contents :=
  Prompt [Text "Create a "; Fmt style; Text " illustration of a character named ";
          Fmt name; Text ". ";
          Text "Character appearance: "; Fmt appearance; Text ". ";
          Text "Character personality traits: "; Fmt traits; Text ". ";
          Text "Background setting: "; Fmt background; Text ". ";
          Text "The image should be in "; Fmt style;
          Text " style, high quality, detailed, and vibrant. ";
          Text "Make sure the character is the main focus with clear, engaging features suitable for the story context."].

Definition generate_character_image (character style storyline : json) : M (option str) :=
  let! name := lift (dict_item character (lit "name")) in
  let! appearance := lift (dict_item character (lit "appearance")) in
  let! background := lift (dict_item character (lit "background_scene")) in
  let! traits := lift (dict_get character (lit "traits") (JStr [])) in
  let contents := character_contents name appearance traits background style in
  try_except
    (let! response := models_generate_content E contents in
     let! ps := lift (response_parts response) in
     character_image_parts name style ps)
    is_Exception
    (fun e => ret None).

(** The two records of the report. *)
Definition success_record (name : json) (image_file : str) : json :=
  JObj [(lit "character", name); (lit "image_file", JStr image_file);
        (lit "status", JStr (lit "success"))].

Definition failed_record (name : json) : json :=
  JObj [(lit "character", name); (lit "image_file", JNull);
        (lit "status", JStr (lit "failed"))].

(** [for i, character in enumerate(story_data["character_descriptions"])],
    over the characters that are left. *)
Fixpoint character_records (story_data style : json) (characters : list json)
    (generated_images : list json) : M (list json) :=
  match characters with
  | [] => ret generated_images
  | character :: rest =>
      let! storyline := lift (dict_item story_data (lit "storyline")) in
      let! image_file := generate_character_image character style storyline in
      let! name := lift (dict_item character (lit "name")) in
      let record :=
        match image_file with
        | Some f => if truthy_name image_file then success_record name f else failed_record name
        | None => failed_record name
        end in
      character_records story_data style rest (generated_images ++ [record])
  end.

Definition process_complete_story (topic description style : json) : M (option json) :=
  let! _ := lift (as_str topic) in
  let! _ := lift (as_str style) in
  let! story_data := generate_story_and_characters topic description style in
  match story_data with
  | None => ret None
  | Some story_data =>
      if negb (truthy story_data) then ret None
      else
        let! character_descriptions :=
          lift (dict_item story_data (lit "character_descriptions")) in
        let! _ := lift (py_len character_descriptions) in
        let! characters := lift (py_iter character_descriptions) in
        let! generated_images := character_records story_data style characters [] in
        ret (Some (JObj [(lit "story_data", story_data);
                         (lit "generated_images", JArr generated_images);
                         (lit "topic", topic);
                         (lit "style", style)]))
  end.
End Generator.
End ImageGeneration.

(** ** The console

    The generators above are the stages as they run on a console that
    takes every line: what [print] writes is left out of them. [print]
    encodes its line for [sys.stdout] and raises [UnicodeEncodeError]
    when the line holds text the console's encoding does not have (a
    lone surrogate that came in through a JSON escape, a non-ASCII
    letter on an ASCII console). The literals of the program are ASCII
    and numbers print as ASCII digits, so a line can fail only in a
    formatted value or in the text of an exception. *)
Record Console : Type := {
  encodes : json -> bool;
  encodes_exception : exn -> bool
}.

(** The formatted values of a line are all within the console's
    encoding. *)
Definition line_ok (O : Console) (line : fstring) : bool :=
  forallb (fun f => match f with Lit _ => true | Fmt v => encodes O v end) line.

(** [print(f"...")] *)
Definition print {W} (O : Console) (line : fstring) : St W unit :=
  if line_ok O line then ret tt else raise UnicodeEncodeError.

(** [print(f"...{e}")] in a handler: the line and the text of the
    exception. *)
Definition print_exception {W} (O : Console) (line : fstring) (e : exn) : St W unit :=
  if (line_ok O line && encodes_exception O e)%bool then ret tt else raise UnicodeEncodeError.

(** ** [Story-2.py] with its console output

    The character, background and composite stages of [Story-2.py]
    with every [print] of a formatted value or of an exception in its
    place. *)
Module Story2Console.
Section Generator.
Variable E : Env.
Variable O : Console.

Fixpoint character_image_parts (name : json) (ps : list Part) : M (option str) :=
  match ps with
  | [] =>
      let! _ := print O [Text "No image data received for "; Fmt name] in
      ret None
  | part :: rest =>
      match inline_data part with
      | Some blob =>
          let! image := open_image E (data blob) in
          let! name_s := lift (as_str name) in
          let filename := Story2.character_filename name_s in
          let! _ := image_save E image filename in
          let! _ := print O [Text "Image generated successfully for "; Fmt name] in
          ret (Some filename)
      | None => character_image_parts name rest
      end
  end.

Definition generate_character_image (character style : json) : M (option str) :=
  let! name := lift (dict_get character (lit "name") (JStr (lit "Unknown_Character"))) in
  let! appearance :=
    lift (dict_get character (lit "appearance") (JStr (lit "No appearance described"))) in
  let contents := Story2.character_contents name appearance style in
  let! _ := print O [Lit [ascii_of_nat 10]; Text "Generating image for "; Fmt name;
                     Text "..."] in
  try_except
    (let! response := models_generate_content E contents in
     let! ps := lift (response_parts response) in
     character_image_parts name ps)
    is_Exception
    (fun e =>
       let! _ := print_exception O [Text "Error generating image for "; Fmt name; Text ": "] e in
       ret None).

(** [for i, desc in enumerate(background_descriptions)], from index
    [i]: the progress line of an item is printed before its [try]. *)
Fixpoint background_images_from (i : nat) (background_descriptions : list json)
    (style : json) (generated_files : list str) : M (list str) :=
  match background_descriptions with
  | [] => ret generated_files
  | desc :: rest =>
      let! _ := print O [Text "Generating background image "; Lit (str_of_nat (i + 1));
                         Text " for description: '"; Fmt desc; Text "'"] in
      let contents := Story2.background_contents style desc in
      let! generated_files' :=
        try_except
          (let! response := models_generate_content E contents in
           let! ps := lift (response_parts response) in
           Story2.background_image_parts E i generated_files ps)
          is_Exception
          (fun e =>
             let! _ := print_exception O [Text "Error generating background image ";
                                          Lit (str_of_nat (i + 1)); Text ": "] e in
             ret generated_files) in
      background_images_from (S i) rest style generated_files'
  end.

Definition generate_background_images (background_descriptions style : json)
  : M (list str) :=
  let! items := lift (py_iter background_descriptions) in
  background_images_from 0 items style [].

(** The scene index is an [int] here (see [py_index]), so the first
    line of the stage always prints. *)
Definition generate_scene_image_with_references (scene_description style : json)
    (character_images_bytes : list bytes) (background_image_byte : bytes)
    (scene_index : Z) : M (option str) :=
  let! background := open_image E background_image_byte in
  let prompt_parts :=
    [PText [Text "Create a final, composite illustration in a "; Fmt style;
            Text " style. Scene Description: '"; Fmt scene_description; Text "'."];
     PText [Text "Use this image as the definite background:"];
     PImage background;
     PText [Text "Place these characters consistently within the background:"]] in
  let! prompt_parts :=
    Story2.append_character_images E prompt_parts character_images_bytes in
  try_except
    (let! response := models_generate_content E (Parts prompt_parts) in
     let! ps := lift (response_parts response) in
     Story2.scene_image_parts E scene_index ps)
    is_Exception
    (fun e =>
       let! _ := print_exception O [Text "Error generating scene image for Scene ";
                                    Lit (str_of_int (scene_index + 1)); Text ": "] e in
       ret None).
End Generator.
End Story2Console.

(** The background handler of [new_server.py] over the generator with
    its console output (the handler itself prints nothing). *)
Module NewServerConsole.
Section Server.
Variable E : Env.
Variable O : Console.

Definition api_generate_background_images (data : json) : M (json * Z) :=
  let! missing :=
    lift (missing_fields data [lit "background_descriptions"; lit "style"]) in
  if missing
  then ret (NewServer.handle_error
              "Missing required fields: background_descriptions, style" 400)
  else
    let! background_descriptions := lift (dict_item data (lit "background_descriptions")) in
    let! style := lift (dict_item data (lit "style")) in
    let! generated :=
      Story2Console.generate_background_images E O background_descriptions style in
    let filenames := NewServer.filenames_value generated in
    ret (match filenames with
         | Some v => NewServer.jsonify (JObj [(lit "filenames", v)])
         | None =>
             NewServer.handle_error "Background image generation failed on the server." 500
         end).
End Server.
End NewServerConsole.

(** ** [testing.py]: the scene-image step of [main] *)

(** What the client script runs against: the server's answer to the
    n-th POST as [make_post_request] returns it ([None] for a failed
    request), the project directory, and Base64 encoding. *)
Record ClientEnv : Type := {
  post_reply : nat -> str -> json -> option json;
  read_file : str -> option bytes;
  b64encode : bytes -> str
}.

(** The client's world: the POST requests made so far, oldest first. *)
Record Client : Type := { posts : list (str * json) }.

Module Testing.
Section Script.
Variable C : ClientEnv.

Definition make_post_request (endpoint : string) (payload : json) : St Client (option json) :=
  fun w =>
    (Returned (post_reply C (length (posts w)) (lit endpoint) payload),
     {| posts := posts w ++ [(lit endpoint, payload)] |}).

Definition read_image_as_base64 (filename : str) : option str :=
  match read_file C filename with
  | Some content => Some (b64encode C content)
  | None => None
  end.

(** Truthiness of a Base64 string or [None]. *)
Definition truthy_b64 (b : option str) : bool :=
  match b with
  | Some (_ :: _) => true
  | _ => false
  end.

Definition b64_value (b : option str) : json :=
  match b with Some s => JStr s | None => JNull end.

Definition scene_payload (desc style : json) (char_images_b64 : list (option str))
    (bg_image_b64 : option str) (i : nat) : json :=
  JObj [(lit "scene_description", desc);
        (lit "style", style);
        (lit "character_images_base64", JArr (map b64_value char_images_b64));
        (lit "background_image_base64", b64_value bg_image_b64);
        (lit "scene_index", JNum (Z.of_nat i))].

(** [if result and result.get("filename"): scene_image_files.append(result["filename"])] *)
Definition record_scene_file (result : option json) (scene_image_files : list json)
  : Outcome (list json) :=
  match result with
  | None => Returned scene_image_files
  | Some r =>
      if truthy r then
        match dict_get r (lit "filename") JNull with
        | Returned f =>
            if truthy f then Returned (scene_image_files ++ [f])
            else Returned scene_image_files
        | Raised e => Raised e
        end
      else Returned scene_image_files
  end.

(** STEP 5 of [main]:
    [for i, desc in enumerate(scene_descriptions_list)], from index
    [i], over the script's local variables. *)
Fixpoint scene_images_from (i : nat) (scene_descriptions_list : list json) (style : json)
    (background_image_files : list str) (char_images_b64 : list (option str))
    (scene_image_files : list json) : St Client (list json) :=
  match scene_descriptions_list with
  | [] => ret scene_image_files
  | desc :: rest =>
      match background_image_files with
      | [] => ret scene_image_files
      | _ :: _ =>
          match background_image_files !! (i mod length background_image_files)%nat with
          | None => raise IndexError
          | Some name =>
              let bg_image_b64 := read_image_as_base64 name in
              if (Nat.eqb (length char_images_b64) 0 || negb (truthy_b64 bg_image_b64))%bool
              then scene_images_from (S i) rest style background_image_files
                     char_images_b64 scene_image_files
              else
                let payload := scene_payload desc style char_images_b64 bg_image_b64 i in
                let! result := make_post_request "/generate-scene-image" payload in
                let! scene_image_files' := lift (record_scene_file result scene_image_files) in
                scene_images_from (S i) rest style background_image_files
                  char_images_b64 scene_image_files'
          end
      end
  end.

Definition main_step5 (scene_descriptions_list : list json) (style : json)
    (background_image_files : list str) (char_images_b64 : list (option str))
  : St Client (list json) :=
  scene_images_from 0 scene_descriptions_list style background_image_files char_images_b64 [].

(** The request of STEP 1. *)
Definition story_payload : json :=
  JObj [(lit "topic", JStr (lit "The Electric Circuit Adventure"));
        (lit "description",
         JStr (lit "Meet Volt, a curious little electron who lives in a battery. One day, the Switch turns ON, and Volt zooms out to explore the circuit! He races through wires, powers a glowing bulb, and learns how electricity flows. Along the way, he meets Resi the Resistor, who teaches him how some things slow down electricity, and Cap the Capacitor, who stores energy. With fun surprises in every panel, Volt shows how all the parts of a simple circuit work together to light things up!"));
        (lit "style",
         JStr (lit "Simple  comic book style with bold lines, cheerful characters, and clear science visuals. "))].

(** STEP 2 of [main]: [for char in character_descriptions], over the
    characters that are left. *)
Fixpoint character_images_from (characters : list json)
    (character_image_files : list json) : St Client (list json) :=
  match characters with
  | [] => ret character_image_files
  | char :: rest =>
      let! style := lift (dict_item story_payload (lit "style")) in
      let payload := JObj [(lit "character", char); (lit "style", style)] in
      let! result := make_post_request "/generate-character-image" payload in
      let! character_image_files' :=
        lift (record_scene_file result character_image_files) in
      character_images_from rest character_image_files'
  end.

(** [main] up to the end of STEP 2: [None] where [main] returns early,
    otherwise the character files collected ([time.sleep] changes
    nothing that is modelled). *)
Definition main_steps_1_2 : St Client (option (list json)) :=
  let! story_data := make_post_request "/generate-story" story_payload in
  match story_data with
  | None => ret None
  | Some story_data =>
      if negb (truthy story_data) then ret None
      else
        let! storyline := lift (dict_get story_data (lit "storyline") JNull) in
        let! character_descriptions :=
          lift (dict_get story_data (lit "character_descriptions") JNull) in
        let! background_descriptions :=
          lift (dict_get story_data (lit "background_descriptions") JNull) in
        let! characters := lift (py_iter character_descriptions) in
        let! character_image_files := character_images_from characters [] in
        ret (Some character_image_files)
  end.
End Script.
End Testing.

(** ** What a call yields

    Vocabulary for the statements below. *)

(** The first part of a response that carries image data. *)
Fixpoint first_inline (ps : list Part) : option Blob :=
  match ps with
  | [] => None
  | part :: rest =>
      match inline_data part with
      | Some blob => Some blob
      | None => first_inline rest
      end
  end.

(** The picture the [n]-th call yields on [c], if any: the call
    returns, the response has parts, one of them carries image data,
    and the first such data decodes. *)
Definition yielded_image (E : Env) (n : nat) (c : contents) : option Image :=
  match generate_content E n c with
  | Returned response =>
      match response_parts response with
      | Returned ps =>
          match first_inline ps with
          | Some blob =>
              match Image_open E (data blob) with
              | Returned img => Some img
              | Raised _ => None
              end
          | None => None
          end
      | Raised _ => None
      end
  | Raised _ => None
  end.

(** The pictures a list of byte strings decodes to, when all of them
    decode. *)
Fixpoint open_all (E : Env) (l : list bytes) : Outcome (list Image) :=
  match l with
  | [] => Returned []
  | b :: rest =>
      match Image_open E b with
      | Returned img =>
          match open_all E rest with
          | Returned imgs => Returned (img :: imgs)
          | Raised e => Raised e
          end
      | Raised e => Raised e
      end
  end.

(** [enumerate(l)] *)
Definition enumerate {A} (l : list A) : list (nat * A) := combine (seq 0 (length l)) l.

(** A background item succeeds when its call (the [base + i]-th)
    yields a picture and the picture can be written under the item's
    name. *)
Definition Story2_background_ok (E : Env) (style : json) (base : nat) (item : nat * json) : bool :=
  match yielded_image E (base + fst item) (Story2.background_contents style (snd item)) with
  | Some _ => writable E (Story2.background_filename (fst item))
  | None => false
  end.

Definition Story3_background_name (E : Env) (base : nat) (item : nat * json) : str :=
  Story3.background_filename (fst item) (strftime_now E (S (base + fst item))).

Definition Story3_background_ok (E : Env) (style : json) (base : nat) (item : nat * json) : bool :=
  match yielded_image E (base + fst item) (Story3.background_contents style (snd item)) with
  | Some _ => writable E (Story3_background_name E base item)
  | None => false
  end.

(** The plate the step reads for the scene of index [i]: the file at
    index [i mod k] of the [k] plates, as Base64. *)
Definition plate_b64 (C : ClientEnv) (background_image_files : list str) (i : nat)
  : option str :=
  match background_image_files !! (i mod length background_image_files)%nat with
  | Some name => Testing.read_image_as_base64 C name
  | None => None
  end.

(** The composite request of the scene [desc] of index [i]. *)
Definition composite_post (C : ClientEnv) (desc style : json)
    (background_image_files : list str) (char_images_b64 : list (option str)) (i : nat)
  : str * json :=
  (lit "/generate-scene-image",
   Testing.scene_payload desc style char_images_b64
     (plate_b64 C background_image_files i) i).

(** The scene of index [i] has its assets: there is a character image
    and the scene's plate could be read. *)
Definition has_assets (C : ClientEnv) (background_image_files : list str)
    (char_images_b64 : list (option str)) (i : nat) : bool :=
  (negb (Nat.eqb (length char_images_b64) 0)
   && Testing.truthy_b64 (plate_b64 C background_image_files i))%bool.

(** A server whose JSON answers are objects (or falsy). *)
Definition answers_objects (C : ClientEnv) : Prop :=
  forall n endpoint payload r,
    post_reply C n endpoint payload = Some r ->
    truthy r = true -> exists kvs, r = JObj kvs.

(** A request body that fails a handler's field check: a falsy body,
    or an object without one of the required keys. *)
Definition lacks_field (data : json) (required : list str) : Prop :=
  truthy data = false
  \/ exists dkvs k, data = JObj dkvs /\ In k required /\ has_key k dkvs = false.

(** What a stage may do to the files when it returns [r]: nothing when
    [r] is [None], and when [r] is a name, write that file and no
    other. *)
Definition files_frame (before : gmap str Image) (r : option str) (after : gmap str Image)
  : Prop :=
  match r with
  | None => after = before
  | Some f => exists img, after = <[f := img]> before
  end.

(** The saving loop of a stage keeps the call log, and keeps the files
    too unless it returns a name. *)
Definition saves_one (k : list Part -> M (option str)) : Prop :=
  forall ps w0,
    calls (snd (k ps w0)) = calls w0
    /\ match fst (k ps w0) with
       | Returned r => files_frame (files w0) r (files (snd (k ps w0)))
       | Raised _ => files (snd (k ps w0)) = files w0
       end.

(** [[base64.b64decode(img_str) for img_str in images]] on a request
    value: iterating the value, then decoding item by item. *)
Definition decoded (K : Codec) (images : json) : Outcome (list bytes) :=
  match py_iter images with
  | Returned items => b64decode_all K items
  | Raised e => Raised e
  end.

(** What a text stage that catches [Exception] makes of the reply of
    its chain: the value parsed from the text between the first
    opening and the last closing brace, [None] when the chain or the
    parser raises. *)
Definition parsed_reply (E : Env) (reply : Outcome str) : option json :=
  match reply with
  | Returned response_text =>
      match json_loads E (slice response_text (find "{" response_text)
                            (rfind "}" response_text + 1)) with
      | Returned v => Some v
      | Raised _ => None
      end
  | Raised _ => None
  end.

(** The character request the client sends for [char]. *)
Definition character_post (char : json) : str * json :=
  (lit "/generate-character-image",
   JObj [(lit "character", char);
         (lit "style",
          JStr (lit "Simple  comic book style with bold lines, cheerful characters, and clear science visuals. "))]).

(** A character that the stage of [image_generation.py] can read: a
    dict with [name], [appearance] and [background_scene]. *)
Definition drawable (character : json) : Prop :=
  exists kvs name appearance background,
    character = JObj kvs
    /\ assoc (lit "name") kvs = Some name
    /\ assoc (lit "appearance") kvs = Some appearance
    /\ assoc (lit "background_scene") kvs = Some background.

(** The record the report of [image_generation.py] holds for a
    character: its name, with a file and [success] or without a file
    and [failed]. *)
Definition reports (character record : json) : Prop :=
  exists name,
    dict_item character (lit "name") = Returned name
    /\ (record = ImageGeneration.failed_record name
        \/ exists c f, record = ImageGeneration.success_record name (c :: f)).

(** Text made of ASCII characters only. *)
Definition ascii_str (s : str) : bool :=
  forallb (fun c => Nat.ltb (nat_of_ascii c) 128) s.

(** ** Concrete environments

    Instances of [Env] and [ClientEnv] on which the stages run by
    computation: the replies of the capability are given call by call,
    every byte string decodes to a picture, every file name is
    writable, and JSON is read by [RefJSON.loads]. *)
Module Demo.

(** A quoted JSON string literal. *)
Definition q (s : string) : str := dquote :: lit s ++ [dquote].

Definition newline : str := [ascii_of_nat 10].

Definition env (replies : nat -> Outcome str) (images : nat -> Outcome Response)
    (clock : nat -> str) : Env :=
  {| invoke := fun n _ _ => replies n;
     generate_content := fun n _ => images n;
     Image_open := fun b => Returned (Picture b);
     json_loads := RefJSON.loads;
     json_dumps := fun _ _ => lit "null";
     writable := fun _ => true;
     strftime_now := clock |}.

(** A response made of one text part and one image part. *)
Definition image_response (b : bytes) : Response :=
  {| candidates :=
       Some [{| content :=
                  Some {| parts :=
                            Some [{| text := Some (lit "Here is the image."); inline_data := None |};
                                  {| text := None; inline_data := Some {| data := b |} |}] |} |}] |}.

(** A response with text only. *)
Definition text_response : Response :=
  {| candidates :=
       Some [{| content :=
                  Some {| parts :=
                            Some [{| text := Some (lit "I cannot draw this.");
                                     inline_data := None |}] |} |}] |}.

Definition no_images : nat -> Outcome Response := fun _ => Raised (APIError (lit "quota")).

Definition no_clock : nat -> str := fun _ => lit "20250101000000".

(** An environment whose decoder refuses the byte string [bad]. *)
Definition picky_env (bad : bytes) (images : nat -> Outcome Response) : Env :=
  {| invoke := fun _ _ _ => Returned [];
     generate_content := fun n _ => images n;
     Image_open := fun b => if bool_decide (b = bad) then Raised UnidentifiedImageError
                            else Returned (Picture b);
     json_loads := RefJSON.loads;
     json_dumps := fun _ j => RefJSON.dumps j;
     writable := fun _ => true;
     strftime_now := no_clock |}.

(** The n-th image call answers with a picture made of the bytes [payloads n]. *)
Definition pictures (payloads : nat -> bytes) : nat -> Outcome Response :=
  fun n => Returned (image_response (payloads n)).

Definition first_then (a b : bytes) : nat -> bytes :=
  fun n => if Nat.eqb n 0 then a else b.

Definition volt : json :=
  JObj [(lit "name", JStr (lit "Volt the Electron"));
        (lit "traits", JStr (lit "curious"));
        (lit "appearance", JStr (lit "a small blue spark"))].

(** A clock that moves on by five seconds after the first call. *)
Definition ticking : nat -> str :=
  fun n => if Nat.leb n 1 then lit "20250101000000" else lit "20250101000005".

(** A client whose server answers every POST with a file name, whose
    directory holds five background plates, and whose Base64 is the
    identity. *)
Definition plates : list str :=
  [lit "bg_1.png"; lit "bg_2.png"; lit "bg_3.png"; lit "bg_4.png"; lit "bg_5.png"].

Definition client : ClientEnv :=
  {| post_reply := fun n _ _ => Some (JObj [(lit "filename", JStr (lit "scene.png"))]);
     read_file := fun name => if bool_decide (name ∈ plates) then Some (lit "plate:" ++ name)
                              else None;
     b64encode := fun b => b |}.

Definition nine_scenes : list json :=
  map (fun n => JStr (lit "Scene " ++ str_of_nat n)) (seq 1 9).

(** A codec whose Base64 is the identity on strings, and which, like
    [base64.b64decode], refuses a value that is not a string. *)
Definition codec : Codec :=
  {| b64decode := fun v => match v with JStr s => Returned s | _ => Raised TypeError end;
     str_of_exception := fun _ => lit "argument should be a bytes-like object or ASCII string" |}.

(** A story reply with one character that has a background scene. *)
Definition buoyancy_character : list (str * json) :=
  [(lit "name", JStr (lit "Mia")); (lit "appearance", JStr (lit "a curious girl"));
   (lit "background_scene", JStr (lit "a bath tub"))].

Definition buoyancy_story : list (str * json) :=
  [(lit "storyline", JStr (lit "x"));
   (lit "character_descriptions", JArr [JObj buoyancy_character])].

Definition buoyancy_reply : str :=
  lit "Here is the story: {" ++ q "storyline" ++ lit ":" ++ q "x" ++ lit ","
    ++ q "character_descriptions" ++ lit ":[{"
    ++ q "name" ++ lit ":" ++ q "Mia" ++ lit ","
    ++ q "appearance" ++ lit ":" ++ q "a curious girl" ++ lit ","
    ++ q "background_scene" ++ lit ":" ++ q "a bath tub" ++ lit "}]}".

(** A response whose only image part also carries a caption. *)
Definition captioned_response (b : bytes) : Response :=
  {| candidates :=
       Some [{| content :=
                  Some {| parts :=
                            Some [{| text := Some (lit "Here is the image.");
                                     inline_data := Some {| data := b |} |}] |} |}] |}.

(** A console that takes every line. *)
Definition console : Console :=
  {| encodes := fun _ => true; encodes_exception := fun _ => true |}.

(** A console whose encoding has the ASCII characters only: a value
    prints when every string in it is ASCII. *)
Fixpoint ascii_json (v : json) : bool :=
  match v with
  | JStr s => ascii_str s
  | JArr l => forallb ascii_json l
  | JObj kvs => forallb (fun kv => (ascii_str (fst kv) && ascii_json (snd kv))%bool) kvs
  | _ => true
  end.

Definition ascii_console : Console :=
  {| encodes := ascii_json;
     encodes_exception := fun e => match e with APIError cause => ascii_str cause | _ => true end |}.

(** The word café, its last letter in UTF-8. *)
Definition cafe : str := lit "caf" ++ [ascii_of_nat 195; ascii_of_nat 169].

Definition story_request : json :=
  JObj [(lit "topic", JStr (lit "Gravity"));
        (lit "description", JStr (lit "An apple falling from a tree"));
        (lit "style", JStr (lit "comic book"))].

(** The example response of the specification:
    commentary, the contract, commentary. *)
Definition example_contract : str :=
  lit "{" ++ q "storyline" ++ lit ":" ++ q "x" ++ lit ","
    ++ q "character_descriptions" ++ lit ":[]}".

Definition example_response : str :=
  lit "Here you go:" ++ newline ++ example_contract ++ newline ++ lit "Thanks".
End Demo.

(** * Properties *)

(** ** [find], [rfind] and slices *)

Lemma find_absent (c : ascii) (s : str) : ~ In c s -> find c s = -1.
Proof.
  induction s as [|x t IH]; simpl; intros H; [reflexivity|].
  destruct (Ascii.eqb_spec x c) as [->|Hne]; [tauto|].
  rewrite IH by tauto. reflexivity.
Qed.

Lemma rfind_absent (c : ascii) (s : str) : ~ In c s -> rfind c s = -1.
Proof.
  induction s as [|x t IH]; simpl; intros H; [reflexivity|].
  rewrite IH by tauto. simpl.
  destruct (Ascii.eqb_spec x c) as [->|Hne]; [tauto|reflexivity].
Qed.

Lemma find_lower (c : ascii) (s : str) : -1 <= find c s.
Proof.
  induction s as [|x t IH]; simpl; [lia|].
  destruct (Ascii.eqb x c); [lia|].
  destruct (find c t <? 0) eqn:Hlt; lia.
Qed.

Lemma find_first (c : ascii) (p r : str) :
  ~ In c p -> find c (p ++ c :: r) = Z.of_nat (length p).
Proof.
  induction p as [|x t IH]; simpl; intros H.
  - rewrite Ascii.eqb_refl. reflexivity.
  - destruct (Ascii.eqb_spec x c) as [->|Hne]; [tauto|].
    rewrite IH by tauto.
    destruct (Z.of_nat (length t) <? 0) eqn:Hlt; lia.
Qed.

Lemma rfind_last (c : ascii) (s r : str) :
  ~ In c r -> rfind c (s ++ c :: r) = Z.of_nat (length s).
Proof.
  intros Hr. induction s as [|x t IH]; simpl.
  - rewrite (rfind_absent c r Hr). simpl. rewrite Ascii.eqb_refl. reflexivity.
  - rewrite IH. destruct (0 <=? Z.of_nat (length t)) eqn:Hle; lia.
Qed.

(** A found last occurrence splits the string around it. *)
Lemma rfind_split (c : ascii) (s : str) :
  0 <= rfind c s ->
  exists a b, s = a ++ c :: b /\ rfind c s = Z.of_nat (length a) /\ ~ In c b.
Proof.
  induction s as [|x t IH]; simpl; [lia|].
  destruct (0 <=? rfind c t) eqn:Hle.
  - intros _. destruct IH as (a & b & -> & Hr & Hb); [lia|].
    exists (x :: a), b. rewrite Hr. simpl. repeat split; [lia|exact Hb].
  - destruct (Ascii.eqb_spec x c) as [->|Hne]; [|lia].
    intros _. exists [], t. repeat split.
    intros Hin. apply Z.leb_gt in Hle.
    clear IH. induction t as [|y u IHu]; simpl in *; [tauto|].
    destruct (0 <=? rfind c u) eqn:Hu; [lia|].
    destruct (Ascii.eqb_spec y c) as [->|Hy]; [lia|].
    destruct Hin as [->|Hin]; [congruence|]. apply IHu; [lia|exact Hin].
Qed.

Lemma slice_middle (p m s : str) :
  slice (p ++ m ++ s) (Z.of_nat (length p)) (Z.of_nat (length p + length m)) = m.
Proof.
  unfold slice, slice_bound. rewrite !length_app.
  destruct (Z.ltb_spec (Z.of_nat (length p)) 0) as [H1|H1]; [lia|].
  destruct (Z.ltb_spec (Z.of_nat (length p + length m)) 0) as [H2|H2]; [lia|].
  rewrite !Z.min_l by lia.
  replace (Z.to_nat (Z.of_nat (length p + length m) - Z.of_nat (length p))) with (length m) by lia.
  rewrite Nat2Z.id.
  rewrite skipn_app, skipn_all, Nat.sub_diag, skipn_O, app_nil_l.
  rewrite firstn_app, firstn_all, Nat.sub_diag, firstn_O. apply app_nil_r.
Qed.

(** A slice whose upper bound is [0] is empty. *)
Lemma slice_to_zero (s : str) (start : Z) : -1 <= start -> slice s start 0 = [].
Proof.
  intros H. unfold slice, slice_bound. simpl.
  rewrite (Z.min_l 0) by lia.
  destruct (Z.ltb_spec start 0) as [Hs|Hs].
  - replace (Z.to_nat (0 - Z.max 0 (start + Z.of_nat (length s)))) with 0%nat by lia.
    reflexivity.
  - replace (Z.to_nat (0 - Z.min start (Z.of_nat (length s)))) with 0%nat by lia.
    reflexivity.
Qed.

(** The text taken between the first opening and the last closing brace
    when one of the two is missing: nothing, or the lone final closing
    brace. *)
Lemma slice_without_braces (t : str) :
  ~ In "{"%char t \/ ~ In "}"%char t ->
  slice t (find "{" t) (rfind "}" t + 1) = [] \/
  slice t (find "{" t) (rfind "}" t + 1) = ["}"%char].
Proof.
  intros H.
  destruct (Z_lt_le_dec (rfind "}" t) 0) as [Hr|Hr].
  - (* no closing brace *)
    assert (rfind "}" t = -1) as ->.
    { clear H. induction t as [|x u IH]; simpl in *; [reflexivity|].
      destruct (0 <=? rfind "}" u) eqn:Hu; [lia|].
      destruct (Ascii.eqb x "}"); [lia|reflexivity]. }
    left. apply slice_to_zero, find_lower.
  - destruct (rfind_split _ _ Hr) as (a & b & Ht & Hlen & Hb).
    destruct H as [H|H]; [|exfalso; apply H; rewrite Ht; apply in_or_app; right; left; reflexivity].
    rewrite (find_absent _ _ H), Hlen.
    assert (Hl : length t = (length a + S (length b))%nat).
    { rewrite Ht, length_app. reflexivity. }
    unfold slice.
    replace (slice_bound (Z.of_nat (length t)) (-1)) with (Z.of_nat (length t) - 1)
      by (unfold slice_bound; change (-1 <? 0) with true; cbv iota; lia).
    replace (slice_bound (Z.of_nat (length t)) (Z.of_nat (length a) + 1))
      with (Z.of_nat (length a) + 1)
      by (unfold slice_bound;
          destruct (Z.ltb_spec (Z.of_nat (length a) + 1) 0); lia).
    destruct b as [|y b'].
    + right. simpl in Hl.
      replace (Z.to_nat (Z.of_nat (length t) - 1)) with (length a) by lia.
      replace (Z.to_nat (Z.of_nat (length a) + 1 - (Z.of_nat (length t) - 1))) with 1%nat by lia.
      rewrite Ht, skipn_app, skipn_all, Nat.sub_diag, skipn_O. reflexivity.
    + left. simpl in Hl.
      replace (Z.to_nat (Z.of_nat (length a) + 1 - (Z.of_nat (length t) - 1))) with 0%nat by lia.
      apply firstn_O.
Qed.

(** The text between the first opening and the last closing brace of a
    braced text embedded in brace-free commentary is the braced text. *)
Lemma slice_embedded (prefix body suffix : str) :
  ~ In "{"%char prefix -> ~ In "}"%char suffix ->
  let S := "{"%char :: body ++ ["}"%char] in
  let t := prefix ++ S ++ suffix in
  slice t (find "{" t) (rfind "}" t + 1) = S.
Proof.
  intros Hp Hs S t. subst S t.
  assert (Hf : find "{" (prefix ++ ("{"%char :: body ++ ["}"%char]) ++ suffix)
               = Z.of_nat (length prefix)).
  { simpl. apply find_first, Hp. }
  assert (Hr : rfind "}" (prefix ++ ("{"%char :: body ++ ["}"%char]) ++ suffix)
               = Z.of_nat (length (prefix ++ "{"%char :: body))).
  { replace (prefix ++ ("{"%char :: body ++ ["}"%char]) ++ suffix)
      with ((prefix ++ "{"%char :: body) ++ "}"%char :: suffix)
      by (rewrite <- !app_assoc; simpl; rewrite <- app_assoc; reflexivity).
    apply rfind_last, Hs. }
  rewrite Hf, Hr.
  replace (Z.of_nat (length (prefix ++ "{"%char :: body)) + 1)
    with (Z.of_nat (length prefix + length ("{"%char :: body ++ ["}"%char]))).
  - apply slice_middle.
  - rewrite length_app. simpl. rewrite length_app. simpl. lia.
Qed.

Lemma not_In_existsb (c : ascii) (s : str) :
  existsb (Ascii.eqb c) s = false -> ~ In c s.
Proof.
  intros H Hin. assert (existsb (Ascii.eqb c) s = true); [|congruence].
  apply existsb_exists. exists c. split; [exact Hin|apply Ascii.eqb_refl].
Qed.

(** ** The reference parser reads back the reference serialiser *)
Module RefJSONFacts.
Import RefJSON.

Lemma string_body_escape (s : str) :
  forall (acc rest : str),
    plain_b s = true ->
    string_body (escape s ++ dquote :: rest) acc = Some (rev acc ++ s, rest).
Proof.
  induction s as [|c t IH]; intros acc rest Hplain.
  - simpl. rewrite app_nil_r. reflexivity.
  - unfold plain_b in Hplain. simpl in Hplain. apply andb_true_iff in Hplain as [Hc Ht].
    change (escape (c :: t)) with (escape_char c ++ escape t).
    rewrite <- app_assoc.
    specialize (IH (c :: acc) rest Ht). simpl rev in IH. rewrite <- app_assoc in IH.
    simpl app in IH.
    destruct c as [[|] [|] [|] [|] [|] [|] [|] [|]];
      try discriminate Hc; exact IH.
Qed.

Lemma digits_map (ds : list nat) :
  forall (acc : list nat) (rest : str),
    Forall (fun d => (d < 10)%nat) ds ->
    match rest with [] => True | c :: _ => is_digit c = false end ->
    digits (map digit_char ds ++ rest) acc = (rev acc ++ ds, rest).
Proof.
  induction ds as [|d t IH]; intros acc rest Hds Hrest.
  - simpl. rewrite app_nil_r. destruct rest as [|c r]; [reflexivity|].
    simpl. rewrite Hrest. reflexivity.
  - inversion Hds as [|? ? Hd Ht]; subst.
    specialize (IH (d :: acc) rest Ht Hrest). simpl rev in IH. rewrite <- app_assoc in IH.
    simpl app in IH.
    do 10 (destruct d as [|d]; [exact IH|]). lia.
Qed.

Lemma str_of_nat_fuel_step (fuel n : nat) (acc : str) :
  str_of_nat_fuel (S fuel) n acc =
    if Nat.eqb (n / 10) 0 then digit_char (n mod 10) :: acc
    else str_of_nat_fuel fuel (n / 10) (digit_char (n mod 10) :: acc).
Proof. reflexivity. Qed.

Lemma str_of_nat_fuel_digits (fuel : nat) :
  forall (n : nat) (acc : str),
    (n < fuel)%nat ->
    exists ds,
      str_of_nat_fuel fuel n acc = map digit_char ds ++ acc
      /\ Forall (fun d => (d < 10)%nat) ds
      /\ nat_of_digits ds = n
      /\ (exists d t, ds = d :: t /\ (d = 0%nat -> t = [])).
Proof.
  induction fuel as [|fuel IH]; intros n acc Hn; [lia|].
  rewrite str_of_nat_fuel_step. destruct (Nat.eqb_spec (n / 10) 0) as [Hz|Hnz].
  - exists [n]. assert (n < 10)%nat by (apply Nat.div_small_iff in Hz; lia).
    rewrite Nat.mod_small by lia. split; [reflexivity|]. split; [|split].
    + constructor; [lia|constructor].
    + unfold nat_of_digits. simpl. lia.
    + exists n, []. auto.
  - assert (Hlt : (n / 10 < fuel)%nat).
    { assert (0 < n)%nat by (destruct n; [exfalso; apply Hnz; reflexivity|lia]).
      assert (n / 10 < n)%nat by (apply Nat.div_lt; lia). lia. }
    destruct (IH (n / 10)%nat (digit_char (n mod 10) :: acc) Hlt)
      as (ds & Hs & Hall & Hval & (d & t & Hds & Hzero)).
    exists (ds ++ [n mod 10])%nat. split; [|split; [|split]].
    + rewrite Hs, map_app, <- app_assoc. reflexivity.
    + apply Forall_app. split; [exact Hall|].
      constructor; [apply Nat.mod_upper_bound; lia|constructor].
    + assert (Hsnoc : nat_of_digits (ds ++ [n mod 10])%nat
                      = (10 * nat_of_digits ds + n mod 10)%nat).
      { unfold nat_of_digits. rewrite fold_left_app. reflexivity. }
      rewrite Hsnoc, Hval. pose proof (Nat.div_mod_eq n 10). lia.
    + exists d, (t ++ [n mod 10])%nat. split; [rewrite Hds; reflexivity|].
      intros ->. exfalso. rewrite Hzero in Hds by reflexivity. subst ds.
      apply Hnz. rewrite <- Hval. reflexivity.
Qed.

Lemma number_str_of_int (z : Z) (rest : str) :
  separated rest ->
  number (str_of_int z ++ rest) = Some (JNum z, rest).
Proof.
  intros Hsep.
  assert (Hdig : match rest with [] => True | c :: _ => is_digit c = false end).
  { destruct rest; [exact I|apply Hsep]. }
  assert (Hfrac : starts_fraction rest = false).
  { destruct rest; [reflexivity|apply Hsep]. }
  assert (Hnat : forall n, exists ds d t,
             str_of_nat n = map digit_char ds
             /\ Forall (fun d => (d < 10)%nat) ds /\ nat_of_digits ds = n
             /\ ds = d :: t /\ (d = 0%nat -> t = [])).
  { intros n. unfold str_of_nat.
    destruct (str_of_nat_fuel_digits (S n) n [] (Nat.lt_succ_diag_r n))
      as (ds & Hs & Hall & Hval & (d & t & Hds & Hzero)).
    exists ds, d, t. rewrite Hs, app_nil_r. auto. }
  assert (Hpos : forall n s1,
             s1 = str_of_nat n ++ rest ->
             match digits s1 [] with
             | ([], _) => None
             | (d :: ds, r) =>
                 if starts_fraction r then None
                 else Some (JNum (Z.of_nat (nat_of_digits (if Nat.eqb d 0 then [d] else d :: ds))),
                            skipn (length (if Nat.eqb d 0 then [d] else d :: ds)) s1)
             end = Some (JNum (Z.of_nat n), rest)).
  { intros n s1 ->.
    destruct (Hnat n) as (ds & d & t & Hs & Hall & Hval & Hds & Hzero).
    rewrite Hs, (digits_map ds [] rest Hall Hdig). simpl. rewrite Hds, Hfrac.
    assert (Hsame : (if Nat.eqb d 0 then [d] else d :: t) = d :: t).
    { destruct (Nat.eqb_spec d 0) as [Hd|Hd]; [rewrite (Hzero Hd)|]; reflexivity. }
    rewrite Hsame, <- Hds, Hval. f_equal. f_equal.
    rewrite <- (length_map digit_char ds), skipn_app, skipn_all, Nat.sub_diag.
    reflexivity. }
  unfold str_of_int. destruct (Z.ltb_spec z 0) as [Hneg|Hnn].
  - unfold number. simpl app.
    cbv beta iota. rewrite Ascii.eqb_refl. cbv beta iota zeta.
    specialize (Hpos (Z.to_nat (- z)) _ eq_refl).
    destruct (digits (str_of_nat (Z.to_nat (- z)) ++ rest) []) as [[|d ds] r]; [discriminate|].
    destruct (starts_fraction r); [discriminate|].
    injection Hpos as Hn Hr. rewrite Hr, Hn. do 3 f_equal. lia.
  - unfold number.
    destruct (Hnat (Z.to_nat z)) as (ds & d & t & Hs & Hall & Hval & Hds & Hzero).
    assert (Hhead : exists c r, str_of_nat (Z.to_nat z) ++ rest = c :: r
                                /\ Ascii.eqb c "-" = false).
    { rewrite Hs, Hds. simpl. eexists. eexists. split; [reflexivity|].
      rewrite Hds in Hall. apply Forall_cons in Hall as [Hd _].
      do 10 (destruct d as [|d]; [reflexivity|]). lia. }
    destruct Hhead as (c & r & Heq & Hc).
    specialize (Hpos (Z.to_nat z) _ eq_refl).
    rewrite Heq in *. rewrite Hc. cbv beta iota zeta.
    destruct (digits (c :: r) []) as [[|d' ds'] r']; [discriminate|].
    destruct (starts_fraction r'); [discriminate|].
    injection Hpos as Hn Hr. rewrite Hr, Hn. do 3 f_equal. lia.
Qed.

Lemma value_ws (f : nat) (s : str) : value f (" "%char :: s) = value f s.
Proof. destruct f; reflexivity. Qed.

Lemma members_ws (f : nat) (s : str) (acc : list (str * json)) :
  members f (" "%char :: s) acc = members f s acc.
Proof. destruct f; reflexivity. Qed.

Lemma elements_step (f : nat) (s : str) (acc : list json) :
  elements (S f) s acc =
    match value f s with
    | Some (v, r) =>
        match skip_ws r with
        | c :: r' =>
            if Ascii.eqb c ","%char then elements f r' (v :: acc)
            else if Ascii.eqb c "]"%char then Some (JArr (rev (v :: acc)), r')
            else None
        | [] => None
        end
    | None => None
    end.
Proof. reflexivity. Qed.

Lemma elements_ws (f : nat) (s : str) (acc : list json) :
  elements f (" "%char :: s) acc = elements f s acc.
Proof. destruct f; [reflexivity|]. rewrite !elements_step, value_ws. reflexivity. Qed.

Lemma value_number_head (f : nat) (c : ascii) (r : str) :
  (Ascii.eqb c "-" || is_digit c)%bool = true ->
  value (S f) (c :: r) = number (c :: r).
Proof.
  intros Hc.
  destruct c as [[|] [|] [|] [|] [|] [|] [|] [|]]; try discriminate Hc; reflexivity.
Qed.

Lemma value_string (f : nat) (r : str) :
  value (S f) (dquote :: r) =
    match string_body r [] with
    | Some (x, r') => Some (JStr x, r')
    | None => None
    end.
Proof. reflexivity. Qed.

Lemma value_array (f : nat) (c : ascii) (r : str) :
  opens_value c ->
  value (S f) ("["%char :: c :: r) = elements f (c :: r) [].
Proof.
  intros (Hws & Hb & _).
  change (value (S f) ("["%char :: c :: r))
    with (match skip_ws (c :: r) with
          | c' :: r' => if Ascii.eqb c' "]"%char then Some (JArr [], r') else elements f (c :: r) []
          | [] => None
          end).
  simpl skip_ws. rewrite Hws, Hb. reflexivity.
Qed.

Lemma value_object (f : nat) (c : ascii) (r : str) :
  opens_value c ->
  value (S f) ("{"%char :: c :: r) = members f (c :: r) [].
Proof.
  intros (Hws & _ & Hb).
  change (value (S f) ("{"%char :: c :: r))
    with (match skip_ws (c :: r) with
          | c' :: r' => if Ascii.eqb c' "}"%char then Some (JObj [], r') else members f (c :: r) []
          | [] => None
          end).
  simpl skip_ws. rewrite Hws, Hb. reflexivity.
Qed.

Lemma str_of_int_head (z : Z) :
  exists c t, str_of_int z = c :: t /\ (Ascii.eqb c "-" || is_digit c)%bool = true.
Proof.
  unfold str_of_int. destruct (z <? 0); [eexists; eexists; split; reflexivity|].
  unfold str_of_nat.
  destruct (str_of_nat_fuel_digits (S (Z.to_nat z)) (Z.to_nat z) []
              (Nat.lt_succ_diag_r _)) as (ds & Hs & Hall & _ & (d & t & Hds & _)).
  rewrite Hs, Hds. simpl. eexists. eexists. split; [reflexivity|].
  rewrite Hds in Hall. apply Forall_cons in Hall as [Hd _].
  do 10 (destruct d as [|d]; [reflexivity|]). lia.
Qed.

Lemma number_head_opens (c : ascii) :
  (Ascii.eqb c "-" || is_digit c)%bool = true -> opens_value c.
Proof.
  intros Hc.
  destruct c as [[|] [|] [|] [|] [|] [|] [|] [|]]; try discriminate Hc;
    repeat split; reflexivity.
Qed.

Lemma dumps_head (j : json) :
  exists c t, dumps j = c :: t /\ opens_value c.
Proof.
  destruct j as [|b|z|s|l|kvs]; simpl.
  - eexists; eexists; split; [reflexivity|]. repeat split; reflexivity.
  - destruct b; (eexists; eexists; split; [reflexivity|]); repeat split; reflexivity.
  - destruct (str_of_int_head z) as (c & t & -> & Hc).
    exists c, t. split; [reflexivity|]. apply number_head_opens, Hc.
  - eexists; eexists; split; [reflexivity|]. repeat split; reflexivity.
  - eexists; eexists; split; [reflexivity|]. repeat split; reflexivity.
  - eexists; eexists; split; [reflexivity|]. repeat split; reflexivity.
Qed.

Lemma skip_ws_head (c : ascii) (r : str) : is_ws c = false -> skip_ws (c :: r) = c :: r.
Proof. intros H. simpl. rewrite H. reflexivity. Qed.

Lemma join_cons (sep x y : str) (l : list str) :
  join sep (x :: y :: l) = x ++ sep ++ join sep (y :: l).
Proof. reflexivity. Qed.

Lemma elements_join (l : list json) :
  Forall round_trips l ->
  forall (x : json) (acc : list json) (f : nat) (rest : str),
    round_trips x ->
    forallb wellformed (x :: l) = true ->
    (elements_size (x :: l) <= f)%nat ->
    elements f (join (lit ", ") (map dumps (x :: l)) ++ "]"%char :: rest) acc
    = Some (JArr (rev acc ++ x :: l), rest).
Proof.
  induction 1 as [|y l Hy Hl IH]; intros x acc f rest Hx Hwf Hsize.
  - simpl in Hwf. apply andb_true_iff in Hwf as [Hwx _].
    destruct f as [|f]; [simpl in Hsize; lia|]. simpl in Hsize.
    rewrite elements_step.
    change (join (lit ", ") (map dumps [x])) with (dumps x).
    rewrite (Hx Hwx f ("]"%char :: rest)) by (simpl; auto with lia).
    rewrite skip_ws_head by reflexivity. reflexivity.
  - change (forallb wellformed (x :: y :: l))
      with (wellformed x && forallb wellformed (y :: l))%bool in Hwf.
    apply andb_true_iff in Hwf as [Hwx Hwl].
    destruct f as [|f]; [simpl in Hsize; lia|].
    change (elements_size (x :: y :: l)) with (S (size x + elements_size (y :: l))) in Hsize.
    rewrite elements_step.
    change (map dumps (x :: y :: l)) with (dumps x :: dumps y :: map dumps l).
    rewrite join_cons, <- !app_assoc.
    change (dumps y :: map dumps l) with (map dumps (y :: l)).
    remember (join (lit ", ") (map dumps (y :: l)) ++ "]"%char :: rest) as tail eqn:Htail.
    change (lit ", " ++ tail) with (","%char :: " "%char :: tail).
    rewrite (Hx Hwx f) by (simpl; auto with lia).
    rewrite skip_ws_head by reflexivity.
    rewrite Ascii.eqb_refl, elements_ws. subst tail.
    rewrite (IH y (x :: acc) f rest Hy Hwl) by lia.
    simpl rev. rewrite <- app_assoc. reflexivity.
Qed.

Lemma members_step (f : nat) (r0 : str) (acc : list (str * json)) :
  members (S f) (dquote :: r0) acc =
    match string_body r0 [] with
    | Some (k, r1) =>
        match skip_ws r1 with
        | colon :: r2 =>
            if Ascii.eqb colon ":"%char then
              match value f r2 with
              | Some (v, r3) =>
                  match skip_ws r3 with
                  | c :: r4 =>
                      if Ascii.eqb c ","%char then members f r4 (dict_set acc k v)
                      else if Ascii.eqb c "}"%char then Some (JObj (dict_set acc k v), r4)
                      else None
                  | [] => None
                  end
              | None => None
              end
            else None
        | [] => None
        end
    | None => None
    end.
Proof. reflexivity. Qed.

Lemma dict_set_fresh (acc : list (str * json)) (k : str) (v : json) :
  ~ In k (map fst acc) -> dict_set acc k v = acc ++ [(k, v)].
Proof.
  induction acc as [|[k' v'] acc IH]; simpl; intros Hk; [reflexivity|].
  unfold str_eqb. rewrite bool_decide_eq_false_2 by (intros ->; apply Hk; left; reflexivity).
  rewrite IH by (intros Hin; apply Hk; right; exact Hin). reflexivity.
Qed.

Lemma entry_string (k : str) (v : json) (tail : str) :
  entry (k, v) ++ tail
  = dquote :: (escape k ++ dquote :: ":"%char :: " "%char :: (dumps v ++ tail)).
Proof.
  unfold entry, quote.
  change (lit ": ") with [":"%char; " "%char].
  rewrite <- !app_assoc. simpl app. rewrite <- !app_assoc. reflexivity.
Qed.

Lemma members_join (kvs : list (str * json)) :
  Forall (fun kv => round_trips (snd kv)) kvs ->
  forall (kv : str * json) (acc : list (str * json)) (f : nat) (rest : str),
    round_trips (snd kv) ->
    forallb wellformed_entry (kv :: kvs) = true ->
    NoDup (map fst (acc ++ kv :: kvs)) ->
    (members_size (kv :: kvs) <= f)%nat ->
    members f (join (lit ", ") (map entry (kv :: kvs)) ++ "}"%char :: rest) acc
    = Some (JObj (acc ++ kv :: kvs), rest).
Proof.
  induction 1 as [|kv' kvs Hkv' Hkvs IH]; intros [k v] acc f rest Hv Hwf Hnd Hsize;
    simpl snd in Hv.
  - simpl in Hwf. rewrite andb_true_r in Hwf. apply andb_true_iff in Hwf as [Hk Hwv].
    destruct f as [|f]; [simpl in Hsize; lia|]. simpl in Hsize.
    change (join (lit ", ") (map entry [(k, v)])) with (entry (k, v)).
    rewrite entry_string, members_step, (string_body_escape k [] _ Hk).
    rewrite skip_ws_head by reflexivity. rewrite Ascii.eqb_refl, value_ws.
    rewrite (Hv Hwv f ("}"%char :: rest)) by (simpl; auto with lia).
    rewrite skip_ws_head by reflexivity.
    change (rev [] ++ k) with k.
    change (Ascii.eqb "}" ",") with false. cbv iota. rewrite Ascii.eqb_refl.
    rewrite dict_set_fresh; [reflexivity|].
    rewrite map_app in Hnd. apply NoDup_app in Hnd as (_ & Hdisj & _).
    intros Hin. apply (Hdisj k); [apply list_elem_of_In, Hin|left].
  - change (forallb wellformed_entry ((k, v) :: kv' :: kvs))
      with (plain_b k && wellformed v && forallb wellformed_entry (kv' :: kvs))%bool in Hwf.
    apply andb_true_iff in Hwf as [Hwf Hwl]. apply andb_true_iff in Hwf as [Hk Hwv].
    destruct f as [|f]; [simpl in Hsize; lia|].
    change (members_size ((k, v) :: kv' :: kvs))
      with (S (size v + members_size (kv' :: kvs))) in Hsize.
    change (map entry ((k, v) :: kv' :: kvs)) with (entry (k, v) :: entry kv' :: map entry kvs).
    rewrite join_cons, <- !app_assoc.
    change (entry kv' :: map entry kvs) with (map entry (kv' :: kvs)).
    remember (join (lit ", ") (map entry (kv' :: kvs)) ++ "}"%char :: rest) as tail eqn:Htail.
    change (lit ", " ++ tail) with (","%char :: " "%char :: tail).
    rewrite entry_string, members_step, (string_body_escape k [] _ Hk).
    rewrite skip_ws_head by reflexivity. rewrite Ascii.eqb_refl, value_ws.
    rewrite (Hv Hwv f) by (simpl; auto with lia).
    rewrite skip_ws_head by reflexivity.
    rewrite Ascii.eqb_refl, members_ws. subst tail.
    assert (Hfresh : ~ In k (map fst acc)).
    { rewrite map_app in Hnd. apply NoDup_app in Hnd as (_ & Hdisj & _).
      intros Hin. apply (Hdisj k); [apply list_elem_of_In, Hin|left]. }
    change (rev [] ++ k) with k.
    rewrite (dict_set_fresh acc k v Hfresh).
    rewrite (IH kv' (acc ++ [(k, v)]) f rest Hkv' Hwl); [| |lia].
    + rewrite <- app_assoc. reflexivity.
    + rewrite <- app_assoc. exact Hnd.
Qed.

Lemma join_head (sep : str) (c : ascii) (t : str) (l : list str) :
  exists r, join sep ((c :: t) :: l) = c :: r.
Proof. destruct l; simpl; eexists; reflexivity. Qed.

Lemma dumps_array (l : list json) (rest : str) :
  dumps (JArr l) ++ rest = "["%char :: (join (lit ", ") (map dumps l) ++ "]"%char :: rest).
Proof.
  change (dumps (JArr l)) with ("["%char :: join (lit ", ") (map dumps l) ++ ["]"%char]).
  rewrite <- app_comm_cons, <- app_assoc. reflexivity.
Qed.

Lemma dumps_object (kvs : list (str * json)) (rest : str) :
  dumps (JObj kvs) ++ rest = "{"%char :: (join (lit ", ") (map entry kvs) ++ "}"%char :: rest).
Proof.
  change (dumps (JObj kvs)) with ("{"%char :: join (lit ", ") (map entry kvs) ++ ["}"%char]).
  rewrite <- app_comm_cons, <- app_assoc. reflexivity.
Qed.

(** The parser reads back what the serialiser writes, whatever
    follows it. *)
Theorem value_dumps (j : json) : round_trips j.
Proof.
  induction j as [|b|z|s|l IH|kvs IH] using json_nested_ind;
    intros Hwf fuel rest Hsize Hsep;
    (destruct fuel as [|f]; [simpl in Hsize; lia|]).
  - reflexivity.
  - destruct b; reflexivity.
  - change (dumps (JNum z)) with (str_of_int z).
    destruct (str_of_int_head z) as (c & t & Hz & Hc).
    pose proof (number_str_of_int z rest Hsep) as Hnum.
    rewrite Hz in *. rewrite <- app_comm_cons in *.
    rewrite value_number_head by exact Hc. exact Hnum.
  - change (dumps (JStr s)) with (dquote :: escape s ++ [dquote]).
    rewrite <- app_comm_cons, <- app_assoc.
    change ([dquote] ++ rest) with (dquote :: rest).
    rewrite value_string, (string_body_escape s [] rest Hwf). reflexivity.
  - destruct l as [|x l].
    + reflexivity.
    + rewrite dumps_array.
      destruct (dumps_head x) as (c & t & Hx & Hc).
      destruct (join_head (lit ", ") c t (map dumps l)) as (r & Hr).
      assert (Hjoin : join (lit ", ") (map dumps (x :: l)) ++ "]"%char :: rest
                      = c :: (r ++ "]"%char :: rest)).
      { change (map dumps (x :: l)) with (dumps x :: map dumps l).
        rewrite Hx, Hr. reflexivity. }
      rewrite Hjoin, value_array, <- Hjoin by exact Hc.
      apply Forall_cons in IH as [Hx' Hl].
      apply (elements_join l Hl x [] f rest Hx' Hwf).
      change (size (JArr (x :: l))) with (S (elements_size (x :: l))) in Hsize. lia.
  - destruct kvs as [|[k v] kvs].
    + reflexivity.
    + change (wellformed (JObj ((k, v) :: kvs)))
        with (bool_decide (NoDup (map fst ((k, v) :: kvs)))
              && forallb wellformed_entry ((k, v) :: kvs))%bool in Hwf.
      apply andb_true_iff in Hwf as [Hnd Hwf].
      apply bool_decide_eq_true_1 in Hnd.
      rewrite dumps_object.
      assert (Hjoin : exists r,
                 join (lit ", ") (map entry ((k, v) :: kvs)) ++ "}"%char :: rest
                 = dquote :: r).
      { destruct kvs; simpl; eexists; reflexivity. }
      destruct Hjoin as (r & Hjoin).
      rewrite Hjoin, value_object, <- Hjoin by (repeat split; reflexivity).
      apply Forall_cons in IH as [Hv Hl].
      apply (members_join kvs Hl (k, v) [] f rest Hv Hwf Hnd).
      change (size (JObj ((k, v) :: kvs))) with (S (members_size ((k, v) :: kvs))) in Hsize.
      lia.
Qed.

Lemma elements_size_bound (l : list json) :
  Forall (fun x => (size x <= length (dumps x))%nat) l ->
  (elements_size l <= length (join (lit ", ") (map dumps l)) + 1)%nat.
Proof.
  induction 1 as [|x l Hx Hl IH]; [simpl; lia|].
  destruct l as [|y l].
  - simpl. lia.
  - change (map dumps (x :: y :: l)) with (dumps x :: dumps y :: map dumps l).
    rewrite join_cons, !length_app.
    change (dumps y :: map dumps l) with (map dumps (y :: l)).
    change (elements_size (x :: y :: l)) with (S (size x + elements_size (y :: l))).
    change (length (lit ", ")) with 2%nat. lia.
Qed.

Lemma members_size_bound (kvs : list (str * json)) :
  Forall (fun kv => (size (snd kv) <= length (dumps (snd kv)))%nat) kvs ->
  (members_size kvs <= length (join (lit ", ") (map entry kvs)) + 1)%nat.
Proof.
  induction 1 as [|[k v] l Hx Hl IH]; [simpl; lia|].
  simpl snd in Hx.
  assert (He : (size v <= length (entry (k, v)))%nat).
  { unfold entry. rewrite !length_app. lia. }
  destruct l as [|y l].
  - change (join (lit ", ") (map entry [(k, v)])) with (entry (k, v)).
    change (members_size [(k, v)]) with (S (size v + 0)). lia.
  - change (map entry ((k, v) :: y :: l)) with (entry (k, v) :: entry y :: map entry l).
    rewrite join_cons, !length_app.
    change (entry y :: map entry l) with (map entry (y :: l)).
    change (members_size ((k, v) :: y :: l)) with (S (size v + members_size (y :: l))).
    change (length (lit ", ")) with 2%nat. lia.
Qed.

Lemma size_le_length (j : json) : (size j <= length (dumps j))%nat.
Proof.
  induction j as [|b|z|s|l IH|kvs IH] using json_nested_ind.
  - simpl. lia.
  - destruct b; simpl; lia.
  - destruct (str_of_int_head z) as (c & t & Hz & _).
    change (dumps (JNum z)) with (str_of_int z). rewrite Hz. simpl. lia.
  - simpl. lia.
  - pose proof (elements_size_bound l IH) as Hb.
    change (size (JArr l)) with (S (elements_size l)).
    change (dumps (JArr l)) with ("["%char :: join (lit ", ") (map dumps l) ++ ["]"%char]).
    simpl length. rewrite length_app. simpl length. lia.
  - pose proof (members_size_bound kvs IH) as Hb.
    change (size (JObj kvs)) with (S (members_size kvs)).
    change (dumps (JObj kvs)) with ("{"%char :: join (lit ", ") (map entry kvs) ++ ["}"%char]).
    simpl length. rewrite length_app. simpl length. lia.
Qed.

(** Round trip of the reference pair: [loads (dumps j) = j] on every
    well-formed value. *)
Theorem loads_dumps (j : json) :
  wellformed j = true -> loads (dumps j) = Returned j.
Proof.
  intros Hwf. unfold loads.
  pose proof (value_dumps j Hwf (S (length (dumps j))) []) as Hv.
  rewrite app_nil_r in Hv. rewrite Hv; [reflexivity| |exact I].
  pose proof (size_le_length j). lia.
Qed.
End RefJSONFacts.

(** ** The story stage *)

Ltac run :=
  unfold bind, ret, lift, raise, try_except, chain_invoke, models_generate_content,
    open_image, timestamp_now; simpl.

(** The story stage on a reply [text]: the stage returns what the JSON
    library makes of the text between the first opening and the last
    closing brace, and [None] when the library raises a decoding
    error. *)
Lemma generate_story_and_characters_run (E : Env) (topic description style : json)
    (w : World) (text : str) :
  invoke E (length (calls w)) story_chain
    [(lit "topic", topic); (lit "description", description); (lit "style", style)]
    = Returned text ->
  fst (StoryGenerator.generate_story_and_characters E topic description style w) =
    match json_loads E (slice text (find "{" text) (rfind "}" text + 1)) with
    | Returned v => Returned (Some v)
    | Raised e => if is_JSONDecodeError_or_IndexError e then Returned None else Raised e
    end.
Proof.
  intros Hinv. unfold StoryGenerator.generate_story_and_characters. run.
  rewrite Hinv.
  destruct (json_loads E _) as [v|e]; [reflexivity|].
  destruct (is_JSONDecodeError_or_IndexError e); reflexivity.
Qed.

(** C2. Contract extraction round trip: when the story chain replies
    with a JSON object text (an opening brace, a body, a closing brace,
    read by the JSON library as the object [kvs]) set between a prefix
    without opening brace and a suffix without closing brace, the story
    stage returns exactly that object. Prefixes and suffixes free of
    both braces are a special case. *)
Theorem contract_extraction_round_trip (E : Env) (kvs : list (str * json))
    (prefix body suffix : str) (topic description style : json) (w : World) :
  json_loads E ("{"%char :: body ++ ["}"%char]) = Returned (JObj kvs) ->
  ~ In "{"%char prefix ->
  ~ In "}"%char suffix ->
  invoke E (length (calls w)) story_chain
    [(lit "topic", topic); (lit "description", description); (lit "style", style)]
    = Returned (prefix ++ ("{"%char :: body ++ ["}"%char]) ++ suffix) ->
  fst (StoryGenerator.generate_story_and_characters E topic description style w)
    = Returned (Some (JObj kvs)).
Proof.
  intros Hloads Hp Hs Hinv.
  rewrite (generate_story_and_characters_run _ _ _ _ _ _ Hinv).
  rewrite (slice_embedded prefix body suffix Hp Hs), Hloads. reflexivity.
Qed.

Lemma contract_extraction_round_trip_witness :
  fst (StoryGenerator.generate_story_and_characters
         (Demo.env (fun _ => Returned Demo.example_response) Demo.no_images Demo.no_clock)
         (JStr (lit "Gravity")) (JStr (lit "An apple")) (JStr (lit "comic book"))
         empty_world)
  = Returned (Some (JObj [(lit "storyline", JStr (lit "x"));
                          (lit "character_descriptions", JArr [])])).
Proof.
  apply (contract_extraction_round_trip
           (Demo.env (fun _ => Returned Demo.example_response) Demo.no_images Demo.no_clock)
           [(lit "storyline", JStr (lit "x")); (lit "character_descriptions", JArr [])]
           (lit "Here you go:" ++ Demo.newline)
           (Demo.q "storyline" ++ lit ":" ++ Demo.q "x" ++ lit ","
              ++ Demo.q "character_descriptions" ++ lit ":[]")
           (Demo.newline ++ lit "Thanks")).
  - vm_compute. reflexivity.
  - apply not_In_existsb. vm_compute. reflexivity.
  - apply not_In_existsb. vm_compute. reflexivity.
  - vm_compute. reflexivity.
Defined.

(** The same round trip with nothing assumed of the JSON library: the
    reply is built with the reference serialiser and read with the
    reference parser, for every well-formed object. *)
Lemma contract_extraction_round_trip_reference (kvs : list (str * json))
    (prefix suffix : str) (topic description style : json) (w : World)
    (images : nat -> Outcome Response) (clock : nat -> str) :
  RefJSON.wellformed (JObj kvs) = true ->
  ~ In "{"%char prefix ->
  ~ In "}"%char suffix ->
  fst (StoryGenerator.generate_story_and_characters
         (Demo.env (fun _ => Returned (prefix ++ RefJSON.dumps (JObj kvs) ++ suffix))
            images clock)
         topic description style w)
  = Returned (Some (JObj kvs)).
Proof.
  intros Hwf Hp Hs.
  rewrite (generate_story_and_characters_run _ _ _ _ _
             (prefix ++ RefJSON.dumps (JObj kvs) ++ suffix)) by reflexivity.
  change (RefJSON.dumps (JObj kvs))
    with ("{"%char :: RefJSON.join (lit ", ") (map RefJSON.entry kvs) ++ ["}"%char]).
  rewrite (slice_embedded prefix _ suffix Hp Hs).
  change (json_loads (Demo.env _ images clock)) with RefJSON.loads.
  change ("{"%char :: RefJSON.join (lit ", ") (map RefJSON.entry kvs) ++ ["}"%char])
    with (RefJSON.dumps (JObj kvs)).
  rewrite (RefJSONFacts.loads_dumps _ Hwf). reflexivity.
Qed.

(** C3. Missing braces fail closed: on a reply that has no opening
    brace or no closing brace the story stage and the scene-description
    stage of [Story3.py] return [None]. The story stage has no test of
    its own: it relies on the JSON library refusing the empty text and
    the text made of one closing brace, the only two texts the slice
    can then be. *)
Theorem missing_braces_fail_closed (E : Env) (text : str)
    (topic description style : json) (w : World)
    (storyline characters style' background_descriptions : json) (w' : World) :
  json_loads E [] = Raised JSONDecodeError ->
  json_loads E ["}"%char] = Raised JSONDecodeError ->
  ~ In "{"%char text \/ ~ In "}"%char text ->
  invoke E (length (calls w)) story_chain
    [(lit "topic", topic); (lit "description", description); (lit "style", style)]
    = Returned text ->
  invoke E (length (calls w')) scene_chain
    [(lit "storyline", storyline);
     (lit "characters", JStr (json_dumps E (Some 2%nat) characters));
     (lit "style", style');
     (lit "background_descriptions",
      JStr (json_dumps E (Some 2%nat) background_descriptions))]
    = Returned text ->
  fst (StoryGenerator.generate_story_and_characters E topic description style w)
    = Returned None
  /\ fst (Story3.generate_scene_descriptions E storyline characters style'
            background_descriptions w')
    = Returned None.
Proof.
  intros Hempty Hbrace Hmiss Hstory Hscene. split.
  - rewrite (generate_story_and_characters_run _ _ _ _ _ _ Hstory).
    destruct (slice_without_braces text Hmiss) as [-> | ->].
    + rewrite Hempty. reflexivity.
    + rewrite Hbrace. reflexivity.
  - unfold Story3.generate_scene_descriptions. run. rewrite Hscene.
    assert (Hguard : ((find "{" text =? -1) || (rfind "}" text + 1 =? 0))%bool = true).
    { destruct Hmiss as [H|H].
      - rewrite (find_absent _ _ H). reflexivity.
      - rewrite (rfind_absent _ _ H). apply orb_true_r. }
    rewrite Hguard. reflexivity.
Qed.

Lemma missing_braces_fail_closed_witness :
  fst (StoryGenerator.generate_story_and_characters
         (Demo.env (fun _ => Returned (lit "Sorry, I cannot write that story.}"))
            Demo.no_images Demo.no_clock)
         (JStr (lit "Gravity")) (JStr (lit "An apple")) (JStr (lit "comic book"))
         empty_world)
    = Returned None
  /\ fst (Story3.generate_scene_descriptions
            (Demo.env (fun _ => Returned (lit "Sorry, I cannot write that story.}"))
               Demo.no_images Demo.no_clock)
            (JStr (lit "Once")) (JArr []) (JStr (lit "comic book")) (JArr [])
            empty_world)
    = Returned None.
Proof.
  apply (missing_braces_fail_closed
           (Demo.env (fun _ => Returned (lit "Sorry, I cannot write that story.}"))
              Demo.no_images Demo.no_clock)
           (lit "Sorry, I cannot write that story.}")).
  - vm_compute. reflexivity.
  - vm_compute. reflexivity.
  - left. apply not_In_existsb. vm_compute. reflexivity.
  - reflexivity.
  - reflexivity.
Defined.

(** ** Failure policy of the stages *)

(** A [try] whose handler catches [Exception] and returns a value
    always returns. *)
Lemma try_except_Exception_returns {W A : Type} (body : St W A) (d : exn -> A) (w : W) :
  exists r w', try_except body is_Exception (fun e => ret (d e)) w = (Returned r, w').
Proof.
  unfold try_except, is_Exception, ret.
  destruct (body w) as [[a|e] w1]; eauto.
Qed.

(** An exception raised by [story_chain.invoke] leaves the story stage
    as it is: the call stands before the [try]. *)
Lemma generate_story_and_characters_propagates (E : Env) (topic description style : json)
    (w : World) (e : exn) :
  invoke E (length (calls w)) story_chain
    [(lit "topic", topic); (lit "description", description); (lit "style", style)]
    = Raised e ->
  fst (StoryGenerator.generate_story_and_characters E topic description style w) = Raised e
  /\ fst (Story2.generate_story_and_characters E topic description style w) = Raised e.
Proof.
  intros Hinv.
  unfold StoryGenerator.generate_story_and_characters, Story2.generate_story_and_characters.
  run. rewrite Hinv. split; reflexivity.
Qed.

(** The sibling text stages of [Story-2.py] make their call inside the
    [try] and catch [Exception]: they return whatever the capability
    does. *)
Lemma Story2_text_stages_return (E : Env) (w : World) :
  (forall storyline characters style,
      exists r w', Story2.generate_scene_descriptions E storyline characters style w
                   = (Returned r, w'))
  /\ (forall storyline scene_descriptions,
      exists r w', Story2.generate_narration_and_dialogue E storyline scene_descriptions w
                   = (Returned r, w'))
  /\ (forall scene_description scene_index,
      exists r w', Story2.generate_background_audio_description E scene_description
                     scene_index w
                   = (Returned r, w')).
Proof.
  repeat split; intros;
    apply (try_except_Exception_returns _ (fun _ => None)).
Qed.

(** The character-image stage of [Story-2.py] returns for every
    character that is a dict, whatever the capability does. *)
Lemma Story2_generate_character_image_returns (E : Env) (kvs : list (str * json))
    (style : json) (w : World) :
  exists r w', Story2.generate_character_image E (JObj kvs) style w = (Returned r, w').
Proof.
  unfold Story2.generate_character_image.
  unfold bind at 1 2. simpl.
  apply (try_except_Exception_returns _ (fun _ => None)).
Qed.

(** The scene-description stage of [Story3.py] makes its call inside
    the [try] but catches decoding and index errors only: any other
    exception of the capability leaves the stage, and one of the two
    caught classes is replaced by the [UnboundLocalError] of the
    handler's own [print]. *)
Lemma Story3_generate_scene_descriptions_propagates (E : Env)
    (storyline characters style background_descriptions : json) (w : World) (e : exn) :
  invoke E (length (calls w)) scene_chain
    [(lit "storyline", storyline);
     (lit "characters", JStr (json_dumps E (Some 2%nat) characters));
     (lit "style", style);
     (lit "background_descriptions",
      JStr (json_dumps E (Some 2%nat) background_descriptions))]
    = Raised e ->
  fst (Story3.generate_scene_descriptions E storyline characters style
         background_descriptions w)
  = Raised (if is_JSONDecodeError_or_IndexError e then UnboundLocalError else e).
Proof.
  intros Hinv. unfold Story3.generate_scene_descriptions. run. rewrite Hinv.
  destruct (is_JSONDecodeError_or_IndexError e); reflexivity.
Qed.

(** C1 (the code departs from it). Evaluation of the story stage when
    the capability raises: the exception of [story_chain.invoke] comes
    out of [generate_story_and_characters], and no call to the parser
    is made. *)
Theorem story_stage_raises_on_capability_error :
  StoryGenerator.generate_story_and_characters
    (Demo.env (fun _ => Raised (APIError (lit "timeout"))) Demo.no_images Demo.no_clock)
    (JStr (lit "Gravity")) (JStr (lit "An apple")) (JStr (lit "comic book"))
    empty_world
  = (Raised (APIError (lit "timeout")),
     {| files := ∅;
        calls := [Invoke story_chain
                    [(lit "topic", JStr (lit "Gravity"));
                     (lit "description", JStr (lit "An apple"));
                     (lit "style", JStr (lit "comic book"))]] |}).
Proof. reflexivity. Qed.

(** ** Background batches *)

Lemma Story2_background_image_parts_run (E : Env) (i : nat) (acc : list str)
    (ps : list Part) (w : World) :
  Story2.background_image_parts E i acc ps w =
    match first_inline ps with
    | None => (Returned acc, w)
    | Some blob =>
        match Image_open E (data blob) with
        | Raised e => (Raised e, w)
        | Returned img =>
            if writable E (Story2.background_filename i)
            then (Returned (acc ++ [Story2.background_filename i]),
                  {| files := <[Story2.background_filename i := img]> (files w);
                     calls := calls w |})
            else (Raised OSError, w)
        end
    end.
Proof.
  induction ps as [|p rest IH]; simpl; [reflexivity|].
  destruct (inline_data p) as [blob|]; [|exact IH].
  unfold bind, open_image, lift, image_save.
  destruct (Image_open E (data blob)); [|reflexivity].
  destruct (writable E _); reflexivity.
Qed.

Lemma Story3_background_image_parts_run (E : Env) (i : nat) (acc : list str)
    (ps : list Part) (w : World) :
  Story3.background_image_parts E i acc ps w =
    match first_inline ps with
    | None => (Returned acc, w)
    | Some blob =>
        match Image_open E (data blob) with
        | Raised e => (Raised e, w)
        | Returned img =>
            let name := Story3.background_filename i (strftime_now E (length (calls w))) in
            if writable E name
            then (Returned (acc ++ [name]),
                  {| files := <[name := img]> (files w); calls := calls w |})
            else (Raised OSError, w)
        end
    end.
Proof.
  induction ps as [|p rest IH]; simpl; [reflexivity|].
  destruct (inline_data p) as [blob|]; [|exact IH].
  unfold bind, open_image, lift, image_save, timestamp_now.
  destruct (Image_open E (data blob)); [|reflexivity].
  destruct (writable E _); reflexivity.
Qed.

(** One item of the batch of [Story-2.py]: a call is made, the item's
    name is appended exactly when the item succeeds, and nothing is
    raised. *)
Lemma Story2_background_item (E : Env) (style desc : json) (i base : nat)
    (acc : list str) (w : World) :
  length (calls w) = (base + i)%nat ->
  exists w',
    try_except
      (let! response := models_generate_content E (Story2.background_contents style desc) in
       let! ps := lift (response_parts response) in
       Story2.background_image_parts E i acc ps)
      is_Exception (fun e => ret acc) w
    = (Returned (if Story2_background_ok E style base (i, desc)
                 then acc ++ [Story2.background_filename i] else acc), w')
    /\ calls w' = calls w ++ [GenerateContent (Story2.background_contents style desc)].
Proof.
  intros Hn.
  unfold try_except, bind, models_generate_content, lift, is_Exception, ret,
    Story2_background_ok, yielded_image. simpl fst. simpl snd.
  rewrite Hn.
  destruct (generate_content E (base + i) _) as [response|e]; [|eauto].
  destruct (response_parts response) as [ps|e]; [|eauto].
  rewrite Story2_background_image_parts_run.
  destruct (first_inline ps) as [blob|]; [|eauto].
  destruct (Image_open E (data blob)) as [img|e]; [|eauto].
  destruct (writable E _); eauto.
Qed.

Lemma Story3_background_item (E : Env) (style desc : json) (i base : nat)
    (acc : list str) (w : World) :
  length (calls w) = (base + i)%nat ->
  exists w',
    try_except
      (let! response := models_generate_content E (Story3.background_contents style desc) in
       let! ps := lift (response_parts response) in
       Story3.background_image_parts E i acc ps)
      is_Exception (fun e => ret acc) w
    = (Returned (if Story3_background_ok E style base (i, desc)
                 then acc ++ [Story3_background_name E base (i, desc)] else acc), w')
    /\ calls w' = calls w ++ [GenerateContent (Story3.background_contents style desc)].
Proof.
  intros Hn.
  unfold try_except, bind, models_generate_content, lift, is_Exception, ret,
    Story3_background_ok, Story3_background_name, yielded_image. simpl fst. simpl snd.
  rewrite Hn.
  destruct (generate_content E (base + i) _) as [response|e]; [|eauto].
  destruct (response_parts response) as [ps|e]; [|eauto].
  rewrite Story3_background_image_parts_run. simpl calls.
  rewrite length_app, Hn. simpl length.
  replace (base + i + 1)%nat with (S (base + i)) by lia.
  destruct (first_inline ps) as [blob|]; [|eauto].
  destruct (Image_open E (data blob)) as [img|e]; [|eauto].
  cbv zeta.
  destruct (writable E _); eauto.
Qed.

(** The loop from index [i]: the names of the items that succeed, in
    the order of the items, after what was there; one call per item. *)
Lemma Story2_background_images_from_run (E : Env) (style : json) (base : nat)
    (descs : list json) :
  forall (i : nat) (acc : list str) (w : World),
    length (calls w) = (base + i)%nat ->
    exists w',
      Story2.background_images_from E i descs style acc w
      = (Returned (acc ++ map (fun item => Story2.background_filename (fst item))
                            (filter (fun item => Story2_background_ok E style base item = true)
                               (combine (seq i (length descs)) descs))), w')
      /\ length (calls w') = (length (calls w) + length descs)%nat.
Proof.
  induction descs as [|desc rest IH]; intros i acc w Hn.
  - exists w. simpl. rewrite app_nil_r. split; [reflexivity|lia].
  - simpl Story2.background_images_from. unfold bind at 1.
    destruct (Story2_background_item E style desc i base acc w Hn) as (w1 & -> & Hc).
    assert (Hn1 : length (calls w1) = (base + S i)%nat).
    { rewrite Hc, length_app. simpl. lia. }
    destruct (IH (S i) (if Story2_background_ok E style base (i, desc)
                        then acc ++ [Story2.background_filename i] else acc) w1 Hn1)
      as (w2 & -> & Hlen).
    exists w2. split.
    + f_equal. simpl. rewrite filter_cons.
      destruct (decide (Story2_background_ok E style base (i, desc) = true)) as [Hok|Hok].
      * rewrite Hok. simpl. rewrite <- app_assoc. reflexivity.
      * apply not_true_is_false in Hok. rewrite Hok. reflexivity.
    + rewrite Hlen, Hc, length_app. simpl. lia.
Qed.

Lemma Story3_background_images_from_run (E : Env) (style : json) (base : nat)
    (descs : list json) :
  forall (i : nat) (acc : list str) (w : World),
    length (calls w) = (base + i)%nat ->
    exists w',
      Story3.background_images_from E i descs style acc w
      = (Returned (acc ++ map (Story3_background_name E base)
                            (filter (fun item => Story3_background_ok E style base item = true)
                               (combine (seq i (length descs)) descs))), w')
      /\ length (calls w') = (length (calls w) + length descs)%nat.
Proof.
  induction descs as [|desc rest IH]; intros i acc w Hn.
  - exists w. simpl. rewrite app_nil_r. split; [reflexivity|lia].
  - simpl Story3.background_images_from. unfold bind at 1.
    destruct (Story3_background_item E style desc i base acc w Hn) as (w1 & -> & Hc).
    assert (Hn1 : length (calls w1) = (base + S i)%nat).
    { rewrite Hc, length_app. simpl. lia. }
    destruct (IH (S i) (if Story3_background_ok E style base (i, desc)
                        then acc ++ [Story3_background_name E base (i, desc)] else acc) w1 Hn1)
      as (w2 & -> & Hlen).
    exists w2. split.
    + f_equal. simpl. rewrite filter_cons.
      destruct (decide (Story3_background_ok E style base (i, desc) = true)) as [Hok|Hok].
      * rewrite Hok. simpl. rewrite <- app_assoc. reflexivity.
      * apply not_true_is_false in Hok. rewrite Hok. reflexivity.
    + rewrite Hlen, Hc, length_app. simpl. lia.
Qed.

Lemma filter_none {A} (P : A -> Prop) `{forall x, Decision (P x)} (l : list A) :
  (forall x, In x l -> ~ P x) -> filter P l = [].
Proof.
  induction l as [|x t IH]; intros Hall; [reflexivity|].
  rewrite filter_cons_False by (apply Hall; left; reflexivity).
  apply IH. intros y Hy. apply Hall. right. exact Hy.
Qed.

(** An item whose call raises, or whose response carries no image
    data, does not succeed. *)
Lemma Story2_background_failed (E : Env) (style : json) (base : nat) (item : nat * json) :
  (forall e, generate_content E (base + fst item)
               (Story2.background_contents style (snd item)) = Raised e ->
             Story2_background_ok E style base item = false)
  /\ (forall response ps,
        generate_content E (base + fst item)
          (Story2.background_contents style (snd item)) = Returned response ->
        response_parts response = Returned ps ->
        first_inline ps = None ->
        Story2_background_ok E style base item = false).
Proof.
  unfold Story2_background_ok, yielded_image. split.
  - intros e ->. reflexivity.
  - intros response ps -> -> ->. reflexivity.
Qed.

Lemma Story3_background_failed (E : Env) (style : json) (base : nat) (item : nat * json) :
  (forall e, generate_content E (base + fst item)
               (Story3.background_contents style (snd item)) = Raised e ->
             Story3_background_ok E style base item = false)
  /\ (forall response ps,
        generate_content E (base + fst item)
          (Story3.background_contents style (snd item)) = Returned response ->
        response_parts response = Returned ps ->
        first_inline ps = None ->
        Story3_background_ok E style base item = false).
Proof.
  unfold Story3_background_ok, yielded_image. split.
  - intros e ->. reflexivity.
  - intros response ps -> -> ->. reflexivity.
Qed.

(** The batch stage of [Story-2.py] on a list: the names of the items
    that succeed, in the order of the descriptions, with one call per
    description. *)
Lemma Story2_generate_background_images_run (E : Env) (descs : list json) (style : json)
    (w : World) :
  exists w',
    Story2.generate_background_images E (JArr descs) style w
    = (Returned (map (fun item => Story2.background_filename (fst item))
                   (filter (fun item =>
                              Story2_background_ok E style (length (calls w)) item = true)
                      (enumerate descs))), w')
    /\ length (calls w') = (length (calls w) + length descs)%nat.
Proof.
  unfold Story2.generate_background_images, enumerate. unfold bind at 1. simpl.
  destruct (Story2_background_images_from_run E style (length (calls w)) descs 0 [] w)
    as (w' & Hrun & Hlen); [lia|].
  exists w'. split; [exact Hrun|exact Hlen].
Qed.

(** C8. Batch isolation: on every list of background descriptions
    and whatever the capability does call by call, the batch stage of
    [Story-2.py] and of [Story3.py] makes one call per description and
    returns the file names of exactly the items that succeed, in the
    order of the descriptions; an item whose call raises or carries no
    image data adds no name and stops nothing. *)
Theorem background_batch_isolation (E : Env) (descs : list json) (style : json) (w : World) :
  (exists w',
      Story2.generate_background_images E (JArr descs) style w
      = (Returned (map (fun item => Story2.background_filename (fst item))
                     (filter (fun item =>
                                Story2_background_ok E style (length (calls w)) item = true)
                        (enumerate descs))), w')
      /\ length (calls w') = (length (calls w) + length descs)%nat)
  /\ (exists w',
      Story3.generate_background_images E (JArr descs) style w
      = (Returned (map (Story3_background_name E (length (calls w)))
                     (filter (fun item =>
                                Story3_background_ok E style (length (calls w)) item = true)
                        (enumerate descs))), w')
      /\ length (calls w') = (length (calls w) + length descs)%nat).
Proof.
  split.
  - apply Story2_generate_background_images_run.
  - unfold Story3.generate_background_images, enumerate. unfold bind at 1. simpl.
    destruct (Story3_background_images_from_run E style (length (calls w)) descs 0 [] w)
      as (w' & Hrun & Hlen); [lia|].
    exists w'. split; [exact Hrun|exact Hlen].
Qed.

(** The batch of the specification: five descriptions, the call of
    the third raises, the others carry a picture. *)
Example background_batch_of_five :
  fst (Story2.generate_background_images
         (Demo.env (fun _ => Returned [])
            (fun n => if Nat.eqb n 2 then Raised (APIError (lit "quota"))
                      else Returned (Demo.image_response (lit "PNG")))
            Demo.no_clock)
         (JArr [JStr (lit "forest"); JStr (lit "river"); JStr (lit "cave");
                JStr (lit "meadow"); JStr (lit "hill")])
         (JStr (lit "comic book")) empty_world)
  = Returned [lit "background_1.png"; lit "background_2.png";
              lit "background_4.png"; lit "background_5.png"].
Proof. vm_compute. reflexivity. Qed.

(** A batch of three in which the second call answers with text
    only. *)
Example background_batch_without_image_data :
  fst (Story3.generate_background_images
         (Demo.env (fun _ => Returned [])
            (fun n => if Nat.eqb n 1 then Returned Demo.text_response
                      else Returned (Demo.image_response (lit "PNG")))
            Demo.ticking)
         (JArr [JStr (lit "forest"); JStr (lit "river"); JStr (lit "cave")])
         (JStr (lit "comic book")) empty_world)
  = Returned [lit "bg_1_20250101000000.png"; lit "bg_3_20250101000005.png"].
Proof. vm_compute. reflexivity. Qed.

(** ** The HTTP handlers *)

(** A JSON object request that carries the required fields passes the
    handler's field check. *)
Lemma missing_fields_present (dkvs : list (str * json)) (required : list str) :
  required <> [] ->
  (forall k, In k required -> has_key k dkvs = true) ->
  missing_fields (JObj dkvs) required = Returned false.
Proof.
  intros Hne Hall. unfold missing_fields.
  assert (Htruthy : truthy (JObj dkvs) = true).
  { destruct required as [|k ?]; [congruence|].
    specialize (Hall k (or_introl eq_refl)).
    destruct dkvs; [discriminate Hall|reflexivity]. }
  rewrite Htruthy. simpl.
  assert (Hin : all_in required (JObj dkvs) = Returned true).
  { clear Hne. induction required as [|k rest IH]; [reflexivity|].
    simpl. rewrite (Hall k) by (left; reflexivity).
    apply IH. intros k' Hk'. apply Hall. right. exact Hk'. }
  rewrite Hin. reflexivity.
Qed.

Lemma has_key_assoc (k : str) (dkvs : list (str * json)) (v : json) :
  assoc k dkvs = Some v -> has_key k dkvs = true.
Proof. unfold has_key. intros ->. reflexivity. Qed.

(** The story handler on a request with its three fields: the stage
    runs on them, and the answer depends on the truthiness of the
    stage's result alone. *)
Lemma api_generate_story_run (E : Env) (dkvs : list (str * json))
    (topic description style : json) (w : World) :
  assoc (lit "topic") dkvs = Some topic ->
  assoc (lit "description") dkvs = Some description ->
  assoc (lit "style") dkvs = Some style ->
  fst (NewServer.api_generate_story E (JObj dkvs) w) =
    match fst (Story2.generate_story_and_characters E topic description style w) with
    | Returned (Some v) =>
        Returned (if truthy v then (v, 200)
                  else NewServer.handle_error "Story generation failed on the server." 500)
    | Returned None =>
        Returned (NewServer.handle_error "Story generation failed on the server." 500)
    | Raised e => Raised e
    end.
Proof.
  intros Ht Hd Hs. unfold NewServer.api_generate_story.
  unfold bind at 1. unfold lift at 1.
  rewrite missing_fields_present.
  - unfold bind, lift, dict_item. rewrite Ht, Hd, Hs.
    destruct (Story2.generate_story_and_characters E topic description style w)
      as [[[v|]|e] w']; reflexivity.
  - discriminate.
  - intros k [<-|[<-|[<-|[]]]]; eapply has_key_assoc; eassumption.
Qed.

Lemma Story2_generate_story_and_characters_run (E : Env) (topic description style : json)
    (w : World) (text : str) :
  invoke E (length (calls w)) story_chain
    [(lit "topic", topic); (lit "description", description); (lit "style", style)]
    = Returned text ->
  fst (Story2.generate_story_and_characters E topic description style w) =
    match json_loads E (slice text (find "{" text) (rfind "}" text + 1)) with
    | Returned v => Returned (Some v)
    | Raised e => if is_JSONDecodeError_or_IndexError e then Returned None else Raised e
    end.
Proof.
  intros Hinv. unfold Story2.generate_story_and_characters. run.
  rewrite Hinv.
  destruct (json_loads E _) as [v|e]; [reflexivity|].
  destruct (is_JSONDecodeError_or_IndexError e); reflexivity.
Qed.

(** C5 (as stated it fails). The story operation answers 200 on a
    parsed contract that has neither a [storyline] nor a
    [character_descriptions] key. *)
Lemma story_success_without_storyline :
  fst (NewServer.api_generate_story
         (Demo.env
            (fun _ => Returned (lit "Sure! {" ++ Demo.q "title" ++ lit ": " ++ Demo.q "x" ++ lit "}"))
            Demo.no_images Demo.no_clock)
         Demo.story_request empty_world)
  = Returned (JObj [(lit "title", JStr (lit "x"))], 200)
  /\ has_key (lit "storyline") [(lit "title", JStr (lit "x"))] = false
  /\ has_key (lit "character_descriptions") [(lit "title", JStr (lit "x"))] = false.
Proof. vm_compute. repeat split; reflexivity. Qed.

(** C5 (amended). On a request with its three fields, the story
    operation succeeds exactly when the stage returned a truthy
    contract; it then answers with that contract, whatever its keys.
    When the stage returned [None] or an empty contract, it reports the
    stage failure with status 500. *)
Theorem story_success_iff_truthy_contract (E : Env) (dkvs : list (str * json))
    (topic description style : json) (w : World) (result : option json) :
  assoc (lit "topic") dkvs = Some topic ->
  assoc (lit "description") dkvs = Some description ->
  assoc (lit "style") dkvs = Some style ->
  fst (Story2.generate_story_and_characters E topic description style w) = Returned result ->
  exists response,
    fst (NewServer.api_generate_story E (JObj dkvs) w) = Returned response
    /\ (snd response = 200 <-> truthy_opt result = true)
    /\ (truthy_opt result = true -> result = Some (fst response))
    /\ (truthy_opt result = false ->
        response = NewServer.handle_error "Story generation failed on the server." 500).
Proof.
  intros Ht Hd Hs Hstage.
  rewrite (api_generate_story_run E dkvs topic description style w Ht Hd Hs), Hstage.
  destruct result as [v|]; simpl.
  - destruct (truthy v) eqn:Hv; eexists; (split; [reflexivity|]); simpl.
    + repeat split; auto; discriminate.
    + repeat split; auto; discriminate.
  - eexists. split; [reflexivity|]. simpl. repeat split; auto; discriminate.
Qed.

Lemma story_success_iff_truthy_contract_witness :
  exists response,
    fst (NewServer.api_generate_story
           (Demo.env (fun _ => Returned Demo.example_response) Demo.no_images Demo.no_clock)
           Demo.story_request empty_world) = Returned response
    /\ (snd response = 200 <->
        truthy_opt (Some (JObj [(lit "storyline", JStr (lit "x"));
                                (lit "character_descriptions", JArr [])])) = true)
    /\ (truthy_opt (Some (JObj [(lit "storyline", JStr (lit "x"));
                                (lit "character_descriptions", JArr [])])) = true ->
        Some (JObj [(lit "storyline", JStr (lit "x"));
                    (lit "character_descriptions", JArr [])]) = Some (fst response))
    /\ (truthy_opt (Some (JObj [(lit "storyline", JStr (lit "x"));
                                (lit "character_descriptions", JArr [])])) = false ->
        response = NewServer.handle_error "Story generation failed on the server." 500).
Proof.
  apply (story_success_iff_truthy_contract
           (Demo.env (fun _ => Returned Demo.example_response) Demo.no_images Demo.no_clock)
           [(lit "topic", JStr (lit "Gravity"));
            (lit "description", JStr (lit "An apple falling from a tree"));
            (lit "style", JStr (lit "comic book"))]
           (JStr (lit "Gravity")) (JStr (lit "An apple falling from a tree"))
           (JStr (lit "comic book")) empty_world).
  - vm_compute. reflexivity.
  - vm_compute. reflexivity.
  - vm_compute. reflexivity.
  - vm_compute. reflexivity.
Defined.

(** C10. The story operation tests the truthiness of the parsed
    contract and nothing else: when the text between the braces parses
    to the empty object the answer is the 500 failure, although
    extraction and parsing succeeded; when it parses to a non-empty
    object the answer is that object with status 200, whatever its
    keys. *)
Theorem story_decision_is_truthiness (E : Env) (dkvs : list (str * json))
    (topic description style : json) (w : World) (text : str) :
  assoc (lit "topic") dkvs = Some topic ->
  assoc (lit "description") dkvs = Some description ->
  assoc (lit "style") dkvs = Some style ->
  invoke E (length (calls w)) story_chain
    [(lit "topic", topic); (lit "description", description); (lit "style", style)]
    = Returned text ->
  (json_loads E (slice text (find "{" text) (rfind "}" text + 1)) = Returned (JObj []) ->
   fst (Story2.generate_story_and_characters E topic description style w)
     = Returned (Some (JObj []))
   /\ fst (NewServer.api_generate_story E (JObj dkvs) w)
     = Returned (JObj [(lit "error", JStr (lit "Story generation failed on the server."))], 500))
  /\ (forall kv kvs,
        json_loads E (slice text (find "{" text) (rfind "}" text + 1))
          = Returned (JObj (kv :: kvs)) ->
        fst (NewServer.api_generate_story E (JObj dkvs) w) = Returned (JObj (kv :: kvs), 200)).
Proof.
  intros Ht Hd Hs Hinv.
  pose proof (Story2_generate_story_and_characters_run E topic description style w text Hinv)
    as Hstage.
  pose proof (api_generate_story_run E dkvs topic description style w Ht Hd Hs) as Hapi.
  split.
  - intros Hloads. rewrite Hloads in Hstage. split; [exact Hstage|].
    rewrite Hapi, Hstage. reflexivity.
  - intros kv kvs Hloads. rewrite Hloads in Hstage.
    rewrite Hapi, Hstage. reflexivity.
Qed.

Lemma story_decision_is_truthiness_witness :
  fst (NewServer.api_generate_story
         (Demo.env (fun _ => Returned (lit "Here it is: {}")) Demo.no_images Demo.no_clock)
         Demo.story_request empty_world)
    = Returned (JObj [(lit "error", JStr (lit "Story generation failed on the server."))], 500)
  /\ fst (NewServer.api_generate_story
            (Demo.env (fun _ => Returned (lit "{" ++ Demo.q "scenes" ++ lit ": [1, 2]}"))
               Demo.no_images Demo.no_clock)
            Demo.story_request empty_world)
    = Returned (JObj [(lit "scenes", JArr [JNum 1; JNum 2])], 200).
Proof.
  split.
  - apply (story_decision_is_truthiness
             (Demo.env (fun _ => Returned (lit "Here it is: {}")) Demo.no_images Demo.no_clock)
             [(lit "topic", JStr (lit "Gravity"));
              (lit "description", JStr (lit "An apple falling from a tree"));
              (lit "style", JStr (lit "comic book"))]
             (JStr (lit "Gravity")) (JStr (lit "An apple falling from a tree"))
             (JStr (lit "comic book")) empty_world (lit "Here it is: {}"));
      vm_compute; reflexivity.
  - apply (story_decision_is_truthiness
             (Demo.env (fun _ => Returned (lit "{" ++ Demo.q "scenes" ++ lit ": [1, 2]}"))
                Demo.no_images Demo.no_clock)
             [(lit "topic", JStr (lit "Gravity"));
              (lit "description", JStr (lit "An apple falling from a tree"));
              (lit "style", JStr (lit "comic book"))]
             (JStr (lit "Gravity")) (JStr (lit "An apple falling from a tree"))
             (JStr (lit "comic book")) empty_world
             (lit "{" ++ Demo.q "scenes" ++ lit ": [1, 2]}"));
      vm_compute; reflexivity.
Defined.

(** On a console that has the values of a line, [print] writes the
    line and goes on. *)
Lemma print_encoded {W} (O : Console) (line : fstring) (w : W) :
  line_ok O line = true -> print O line w = (Returned tt, w).
Proof. intros H. unfold print. rewrite H. reflexivity. Qed.

Lemma print_exception_encoded {W} (O : Console) (line : fstring) (e : exn) (w : W) :
  line_ok O line = true -> encodes_exception O e = true ->
  print_exception O line e w = (Returned tt, w).
Proof. intros H He. unfold print_exception. rewrite H, He. reflexivity. Qed.

Lemma bind_agrees {W A B} (m m' : St W A) (k k' : A -> St W B) (w : W) :
  m w = m' w -> (forall a w', k a w' = k' a w') -> bind m k w = bind m' k' w.
Proof.
  intros Hm Hk. unfold bind. rewrite Hm.
  destruct (m' w) as [[a|e] w']; [apply Hk|reflexivity].
Qed.

(** When the console has every description and the text of every
    exception, the batch runs as it does without its output. *)
Lemma Story2Console_background_images_from_agrees (E : Env) (O : Console) (style : json)
    (descs : list json) :
  Forall (fun desc => encodes O desc = true) descs ->
  (forall e, encodes_exception O e = true) ->
  forall (i : nat) (acc : list str) (w : World),
    Story2Console.background_images_from E O i descs style acc w
    = Story2.background_images_from E i descs style acc w.
Proof.
  intros Hdescs Hexn. induction Hdescs as [|desc rest Hdesc Hrest IH]; intros i acc w.
  - reflexivity.
  - simpl Story2Console.background_images_from. simpl Story2.background_images_from.
    unfold bind at 1. rewrite print_encoded.
    2:{ unfold line_ok, Text. simpl forallb. rewrite Hdesc. reflexivity. }
    cbv iota beta.
    assert (Htry : forall w0,
               try_except
                 (let! response :=
                    models_generate_content E (Story2.background_contents style desc) in
                  let! ps := lift (response_parts response) in
                  Story2.background_image_parts E i acc ps)
                 is_Exception
                 (fun e =>
                    let! _ := print_exception O [Text "Error generating background image ";
                                                 Lit (str_of_nat (i + 1)); Text ": "] e in
                    ret acc) w0
               = try_except
                   (let! response :=
                      models_generate_content E (Story2.background_contents style desc) in
                    let! ps := lift (response_parts response) in
                    Story2.background_image_parts E i acc ps)
                   is_Exception (fun e => ret acc) w0).
    { intros w0. unfold try_except.
      destruct (bind _ _ w0) as [[r|e] w1]; [reflexivity|].
      unfold is_Exception. unfold bind. rewrite print_exception_encoded;
        [reflexivity|reflexivity|apply Hexn]. }
    apply bind_agrees; [apply Htry|]. intros acc' w1. apply IH.
Qed.

Lemma Story2Console_generate_background_images_agrees (E : Env) (O : Console)
    (descs : list json) (style : json) (w : World) :
  Forall (fun desc => encodes O desc = true) descs ->
  (forall e, encodes_exception O e = true) ->
  Story2Console.generate_background_images E O (JArr descs) style w
  = Story2.generate_background_images E (JArr descs) style w.
Proof.
  intros Hdescs Hexn.
  unfold Story2Console.generate_background_images, Story2.generate_background_images.
  unfold bind, lift, py_iter.
  apply Story2Console_background_images_from_agrees; assumption.
Qed.

(** The background handler never answers with its failure response:
    whatever the request, the capability and the console, a returned
    answer has status 400 (fields missing) or 200. *)
Lemma api_generate_background_images_never_500 (E : Env) (O : Console) (data : json)
    (w : World) (response : json * Z) :
  fst (NewServerConsole.api_generate_background_images E O data w) = Returned response ->
  snd response = 400 \/ snd response = 200.
Proof.
  unfold NewServerConsole.api_generate_background_images.
  unfold bind at 1. unfold lift at 1.
  destruct (missing_fields data _) as [[|]|e]; simpl.
  - intros [= <-]. left. reflexivity.
  - unfold bind, lift.
    destruct (dict_item data (lit "background_descriptions")) as [bd|e]; [|discriminate].
    destruct (dict_item data (lit "style")) as [style|e]; [|discriminate].
    destruct (Story2Console.generate_background_images E O bd style w) as [[names|e] w1];
      [|discriminate].
    simpl. intros [= <-]. right. reflexivity.
  - discriminate.
Qed.

(** C9 (as stated it fails). The progress line of an item is printed
    before the item's [try]. On a console whose encoding has ASCII
    only, a batch whose second description is the word café raises
    [UnicodeEncodeError] out of [generate_background_images] and out
    of the handler, after the first item was drawn. *)
Lemma background_batch_raises_on_unprintable_description :
  let E := Demo.env (fun _ => Returned []) (Demo.pictures (fun _ => lit "PNG"))
             Demo.no_clock in
  let descs := [JStr (lit "forest"); JStr Demo.cafe] in
  fst (Story2Console.generate_background_images E Demo.ascii_console (JArr descs)
         (JStr (lit "comic book")) empty_world)
  = Raised UnicodeEncodeError
  /\ length (calls (snd (Story2Console.generate_background_images E Demo.ascii_console
                           (JArr descs) (JStr (lit "comic book")) empty_world))) = 1%nat
  /\ fst (NewServerConsole.api_generate_background_images E Demo.ascii_console
            (JObj [(lit "background_descriptions", JArr descs);
                   (lit "style", JStr (lit "comic book"))])
            empty_world)
     = Raised UnicodeEncodeError.
Proof.
  split; [vm_compute; reflexivity|]. split; vm_compute; reflexivity.
Qed.

(** C9 (amended). On a console that has every description of the
    batch and the text of every exception, and for every behaviour of
    the capability, [generate_background_images] returns a list and
    raises nothing; the handler built on it answers 200 with that
    list, and when every item fails it answers 200 with the empty
    list. Whatever the console and the request, the handler never
    answers with its 500 failure. *)
Theorem background_batch_never_reports_failure (E : Env) (O : Console)
    (dkvs : list (str * json)) (descs : list json) (style : json) (w : World) :
  assoc (lit "background_descriptions") dkvs = Some (JArr descs) ->
  assoc (lit "style") dkvs = Some style ->
  Forall (fun desc => encodes O desc = true) descs ->
  (forall e, encodes_exception O e = true) ->
  (exists names w',
      Story2Console.generate_background_images E O (JArr descs) style w = (Returned names, w')
      /\ fst (NewServerConsole.api_generate_background_images E O (JObj dkvs) w)
         = Returned (JObj [(lit "filenames", JArr (map JStr names))], 200)
      /\ ((forall item, In item (enumerate descs) ->
                        Story2_background_ok E style (length (calls w)) item = false) ->
          names = []))
  /\ (forall O' data w0 response,
        fst (NewServerConsole.api_generate_background_images E O' data w0)
          = Returned response ->
        snd response <> 500).
Proof.
  intros Hbd Hstyle Hdescs Hexn. split.
  - destruct (Story2_generate_background_images_run E descs style w) as (w' & Hrun & _).
    rewrite <- (Story2Console_generate_background_images_agrees E O descs style w Hdescs Hexn)
      in Hrun.
    eexists. exists w'. split; [exact Hrun|]. split.
    + unfold NewServerConsole.api_generate_background_images.
      unfold bind at 1. unfold lift at 1.
      rewrite missing_fields_present.
      * unfold bind at 1. unfold lift at 1. unfold dict_item at 1. rewrite Hbd. cbv iota.
        unfold bind at 1. unfold lift at 1. unfold dict_item at 1. rewrite Hstyle. cbv iota.
        unfold bind at 1. rewrite Hrun. reflexivity.
      * discriminate.
      * intros k [<-|[<-|[]]]; eapply has_key_assoc; eassumption.
    + intros Hfail. rewrite filter_none; [reflexivity|].
      intros item Hin. rewrite (Hfail item Hin). discriminate.
  - intros O' data w0 response Hresp.
    destruct (api_generate_background_images_never_500 E O' data w0 response Hresp)
      as [-> | ->]; discriminate.
Qed.

Lemma background_batch_never_reports_failure_witness :
  let E := Demo.env (fun _ => Returned []) Demo.no_images Demo.no_clock in
  let descs := [JStr (lit "forest"); JStr (lit "river")] in
  let dkvs := [(lit "background_descriptions", JArr descs);
               (lit "style", JStr (lit "comic book"))] in
  (exists names w',
      Story2Console.generate_background_images E Demo.console (JArr descs)
        (JStr (lit "comic book")) empty_world = (Returned names, w')
      /\ fst (NewServerConsole.api_generate_background_images E Demo.console
                (JObj dkvs) empty_world)
         = Returned (JObj [(lit "filenames", JArr (map JStr names))], 200)
      /\ ((forall item, In item (enumerate descs) ->
                        Story2_background_ok E (JStr (lit "comic book"))
                          (length (calls empty_world)) item = false) ->
          names = []))
  /\ (forall O' data w0 response,
        fst (NewServerConsole.api_generate_background_images E O' data w0)
          = Returned response ->
        snd response <> 500).
Proof.
  intros E descs dkvs.
  apply (background_batch_never_reports_failure E Demo.console dkvs descs
           (JStr (lit "comic book")) empty_world).
  - reflexivity.
  - reflexivity.
  - repeat constructor.
  - reflexivity.
Defined.

(** A batch in which every call raises, run through the handler. *)
Example background_batch_all_failed :
  NewServer.api_generate_background_images
    (Demo.env (fun _ => Returned []) Demo.no_images Demo.no_clock)
    (JObj [(lit "background_descriptions", JArr [JStr (lit "forest"); JStr (lit "river")]);
           (lit "style", JStr (lit "comic book"))])
    empty_world
  = (Returned (JObj [(lit "filenames", JArr [])], 200),
     {| files := ∅;
        calls := [GenerateContent
                    (Story2.background_contents (JStr (lit "comic book")) (JStr (lit "forest")));
                  GenerateContent
                    (Story2.background_contents (JStr (lit "comic book")) (JStr (lit "river")))] |}).
Proof. vm_compute. reflexivity. Qed.

(** ** Scene composites *)

Lemma Story2_append_character_images_run (E : Env) (imgs : list bytes) :
  forall (prompt_parts : list prompt_part) (w : World),
    Story2.append_character_images E prompt_parts imgs w =
      match open_all E imgs with
      | Returned pictures => (Returned (prompt_parts ++ map PImage pictures), w)
      | Raised e => (Raised e, w)
      end.
Proof.
  induction imgs as [|b rest IH]; intros prompt_parts w; simpl.
  - rewrite app_nil_r. reflexivity.
  - unfold bind, open_image, lift.
    destruct (Image_open E b) as [img|e]; [|reflexivity].
    rewrite IH. destruct (open_all E rest); [|reflexivity].
    rewrite <- app_assoc. reflexivity.
Qed.

Lemma Story3_append_character_images_run (E : Env) (imgs : list bytes) :
  forall (prompt_parts : list prompt_part) (w : World),
    Story3.append_character_images E prompt_parts imgs w =
      match open_all E imgs with
      | Returned pictures => (Returned (prompt_parts ++ map PImage pictures), w)
      | Raised e => (Raised e, w)
      end.
Proof.
  induction imgs as [|b rest IH]; intros prompt_parts w; simpl.
  - rewrite app_nil_r. reflexivity.
  - unfold bind, open_image, lift.
    destruct (Image_open E b) as [img|e]; [|reflexivity].
    rewrite IH. destruct (open_all E rest); [|reflexivity].
    rewrite <- app_assoc. reflexivity.
Qed.

Lemma open_all_length (E : Env) (imgs : list bytes) (pictures : list Image) :
  open_all E imgs = Returned pictures -> length pictures = length imgs.
Proof.
  revert pictures. induction imgs as [|b rest IH]; simpl; intros pictures.
  - intros [= <-]. reflexivity.
  - destruct (Image_open E b); [|discriminate].
    destruct (open_all E rest) as [l|]; [|discriminate].
    intros [= <-]. simpl. f_equal. apply IH. reflexivity.
Qed.

(** Saving the picture of a response makes no call. *)
Lemma Story2_scene_image_parts_calls (E : Env) (scene_index : Z) (ps : list Part) (w : World) :
  calls (snd (Story2.scene_image_parts E scene_index ps w)) = calls w.
Proof.
  induction ps as [|p rest IH]; simpl; [reflexivity|].
  destruct (inline_data p) as [blob|]; [|exact IH].
  unfold bind, open_image, lift, image_save.
  destruct (Image_open E (data blob)); [|reflexivity].
  destruct (writable E _); reflexivity.
Qed.

Lemma Story3_scene_image_parts_calls (E : Env) (scene_index : Z) (ps : list Part) (w : World) :
  calls (snd (Story3.scene_image_parts E scene_index ps w)) = calls w.
Proof.
  induction ps as [|p rest IH]; simpl; [reflexivity|].
  destruct (inline_data p) as [blob|]; [|exact IH].
  unfold bind, open_image, lift, image_save, timestamp_now.
  destruct (Image_open E (data blob)); [|reflexivity].
  destruct (writable E _); reflexivity.
Qed.

(** The calls logged by a guarded call followed by the saving loop:
    the one call, whatever it answers. *)
Lemma guarded_call_logged (E : Env) (c : contents) (k : list Part -> M (option str))
    (w : World) :
  (forall ps w0, calls (snd (k ps w0)) = calls w0) ->
  calls (snd (try_except
                (let! response := models_generate_content E c in
                 let! ps := lift (response_parts response) in
                 k ps)
                is_Exception (fun e => ret None) w))
  = calls w ++ [GenerateContent c].
Proof.
  intros Hk. unfold try_except, bind, models_generate_content, lift, is_Exception, ret.
  destruct (generate_content E (length (calls w)) c) as [response|e]; [|reflexivity].
  destruct (response_parts response) as [ps|e]; [|reflexivity].
  specialize (Hk ps {| files := files w; calls := calls w ++ [GenerateContent c] |}).
  destruct (k ps _) as [[r|e] w1]; exact Hk.
Qed.

(** C4 (as stated it fails). The composite call of [Story3.py] with a
    background and no character image passes seventeen parts, not
    four. *)
Lemma Story3_composite_has_seventeen_fixed_parts :
  exists l,
    calls (snd (Story3.generate_scene_image_with_references
                  (Demo.env (fun _ => Returned []) Demo.no_images Demo.no_clock)
                  (JStr (lit "Volt leaves the battery")) (JStr (lit "comic book"))
                  [] (lit "BG") 0 empty_world))
    = [GenerateContent (Parts l)]
    /\ length l = 17%nat
    /\ length l <> (4 + 0)%nat.
Proof.
  eexists. split; [vm_compute; reflexivity|].
  split; [reflexivity|discriminate].
Qed.

(** C4 (amended). When the background and the character images
    decode, the composite call passes, in this order: the scene
    instruction text (one part in [Story-2.py], fourteen in
    [Story3.py]), the background-usage instruction, the background
    picture, the character-placement instruction, and the character
    pictures in the order given; 4 + N parts in [Story-2.py] and
    17 + N in [Story3.py], the background before every character. *)
Theorem composite_parts_order (E : Env) (scene_description style : json)
    (character_images_bytes : list bytes) (background_image_byte : bytes)
    (scene_index : Z) (w : World) (background : Image) (characters : list Image) :
  Image_open E background_image_byte = Returned background ->
  open_all E character_images_bytes = Returned characters ->
  (exists scene_text,
      calls (snd (Story2.generate_scene_image_with_references E scene_description style
                    character_images_bytes background_image_byte scene_index w))
      = calls w ++
        [GenerateContent
           (Parts ([PText scene_text;
                    PText [Text "Use this image as the definite background:"];
                    PImage background;
                    PText [Text "Place these characters consistently within the background:"]]
                   ++ map PImage characters))]
      /\ length ([PText scene_text;
                  PText [Text "Use this image as the definite background:"];
                  PImage background;
                  PText [Text "Place these characters consistently within the background:"]]
                 ++ map PImage characters)
         = (4 + length character_images_bytes)%nat)
  /\ (exists scene_texts,
      length scene_texts = 14%nat
      /\ calls (snd (Story3.generate_scene_image_with_references E scene_description style
                       character_images_bytes background_image_byte scene_index w))
         = calls w ++
           [GenerateContent
              (Parts (map PText scene_texts
                      ++ [PText [Lit [ascii_of_nat 10]; Text "Use this image as the background:"];
                          PImage background;
                          PText [Text "Place these characters consistently within the scene:"]]
                      ++ map PImage characters))]
      /\ length (map PText scene_texts
                 ++ [PText [Lit [ascii_of_nat 10]; Text "Use this image as the background:"];
                     PImage background;
                     PText [Text "Place these characters consistently within the scene:"]]
                 ++ map PImage characters)
         = (17 + length character_images_bytes)%nat).
Proof.
  intros Hbg Hchars. split.
  - eexists. split.
    + unfold Story2.generate_scene_image_with_references.
      unfold bind at 1. unfold open_image at 1. unfold lift at 1. rewrite Hbg.
      unfold bind at 1. rewrite Story2_append_character_images_run, Hchars.
      rewrite guarded_call_logged by (intros; apply Story2_scene_image_parts_calls).
      reflexivity.
    + rewrite length_app, length_map, (open_all_length _ _ _ Hchars). reflexivity.
  - eexists (_ :: _ :: _ :: _ :: _ :: _ :: _ :: _ :: _ :: _ :: _ :: _ :: _ :: _ :: []).
    split; [reflexivity|]. split.
    + unfold Story3.generate_scene_image_with_references.
      unfold bind at 1. unfold open_image at 1. unfold lift at 1. rewrite Hbg.
      unfold bind at 1. rewrite Story3_append_character_images_run, Hchars.
      rewrite guarded_call_logged by (intros; apply Story3_scene_image_parts_calls).
      reflexivity.
    + rewrite !length_app, !length_map, (open_all_length _ _ _ Hchars). reflexivity.
Qed.

Lemma composite_parts_order_witness :
  (exists scene_text,
      calls (snd (Story2.generate_scene_image_with_references
                    (Demo.env (fun _ => Returned []) Demo.no_images Demo.no_clock)
                    (JStr (lit "Volt leaves the battery")) (JStr (lit "comic book"))
                    [lit "VOLT"; lit "RESI"] (lit "BG") 0 empty_world))
      = calls empty_world ++
        [GenerateContent
           (Parts ([PText scene_text;
                    PText [Text "Use this image as the definite background:"];
                    PImage (Picture (lit "BG"));
                    PText [Text "Place these characters consistently within the background:"]]
                   ++ map PImage [Picture (lit "VOLT"); Picture (lit "RESI")]))]
      /\ length ([PText scene_text;
                  PText [Text "Use this image as the definite background:"];
                  PImage (Picture (lit "BG"));
                  PText [Text "Place these characters consistently within the background:"]]
                 ++ map PImage [Picture (lit "VOLT"); Picture (lit "RESI")])
         = (4 + length [lit "VOLT"; lit "RESI"])%nat)
  /\ (exists scene_texts,
      length scene_texts = 14%nat
      /\ calls (snd (Story3.generate_scene_image_with_references
                       (Demo.env (fun _ => Returned []) Demo.no_images Demo.no_clock)
                       (JStr (lit "Volt leaves the battery")) (JStr (lit "comic book"))
                       [lit "VOLT"; lit "RESI"] (lit "BG") 0 empty_world))
         = calls empty_world ++
           [GenerateContent
              (Parts (map PText scene_texts
                      ++ [PText [Lit [ascii_of_nat 10]; Text "Use this image as the background:"];
                          PImage (Picture (lit "BG"));
                          PText [Text "Place these characters consistently within the scene:"]]
                      ++ map PImage [Picture (lit "VOLT"); Picture (lit "RESI")]))]
      /\ length (map PText scene_texts
                 ++ [PText [Lit [ascii_of_nat 10]; Text "Use this image as the background:"];
                     PImage (Picture (lit "BG"));
                     PText [Text "Place these characters consistently within the scene:"]]
                 ++ map PImage [Picture (lit "VOLT"); Picture (lit "RESI")])
         = (17 + length [lit "VOLT"; lit "RESI"])%nat).
Proof.
  apply (composite_parts_order
           (Demo.env (fun _ => Returned []) Demo.no_images Demo.no_clock)
           (JStr (lit "Volt leaves the battery")) (JStr (lit "comic book"))
           [lit "VOLT"; lit "RESI"] (lit "BG") 0 empty_world
           (Picture (lit "BG")) [Picture (lit "VOLT"); Picture (lit "RESI")]).
  - reflexivity.
  - reflexivity.
Defined.

(** ** Character assets *)

Lemma StoryGenerator_character_image_parts_run (E : Env) (name style : str)
    (ps : list Part) (w : World) :
  StoryGenerator.character_image_parts E (JStr name) (JStr style) ps w =
    match first_inline ps with
    | None => (Returned None, w)
    | Some blob =>
        match Image_open E (data blob) with
        | Raised e => (Raised e, w)
        | Returned img =>
            if writable E (StoryGenerator.character_filename name style)
            then (Returned (Some (StoryGenerator.character_filename name style)),
                  {| files := <[StoryGenerator.character_filename name style := img]> (files w);
                     calls := calls w |})
            else (Raised OSError, w)
        end
    end.
Proof.
  induction ps as [|p rest IH]; simpl; [reflexivity|].
  destruct (inline_data p) as [blob|]; [|exact IH].
  unfold bind, open_image, lift, image_save. simpl.
  destruct (Image_open E (data blob)); [|reflexivity].
  destruct (writable E _); reflexivity.
Qed.

Lemma Story2_character_image_parts_run (E : Env) (name : str) (ps : list Part) (w : World) :
  Story2.character_image_parts E (JStr name) ps w =
    match first_inline ps with
    | None => (Returned None, w)
    | Some blob =>
        match Image_open E (data blob) with
        | Raised e => (Raised e, w)
        | Returned img =>
            if writable E (Story2.character_filename name)
            then (Returned (Some (Story2.character_filename name)),
                  {| files := <[Story2.character_filename name := img]> (files w);
                     calls := calls w |})
            else (Raised OSError, w)
        end
    end.
Proof.
  induction ps as [|p rest IH]; simpl; [reflexivity|].
  destruct (inline_data p) as [blob|]; [|exact IH].
  unfold bind, open_image, lift, image_save. simpl.
  destruct (Image_open E (data blob)); [|reflexivity].
  destruct (writable E _); reflexivity.
Qed.

Lemma Story3_character_image_parts_run (E : Env) (name : str) (ps : list Part) (w : World) :
  Story3.character_image_parts E (JStr name) ps w =
    match first_inline ps with
    | None => (Returned None, w)
    | Some blob =>
        match Image_open E (data blob) with
        | Raised e => (Raised e, w)
        | Returned img =>
            let id := Story3.character_filename (lower (replace_space name))
                        (strftime_now E (length (calls w))) in
            if writable E id
            then (Returned (Some id),
                  {| files := <[id := img]> (files w); calls := calls w |})
            else (Raised OSError, w)
        end
    end.
Proof.
  induction ps as [|p rest IH]; simpl; [reflexivity|].
  destruct (inline_data p) as [blob|]; [|exact IH].
  unfold bind, open_image, lift, image_save, timestamp_now. simpl.
  destruct (Image_open E (data blob)); [|reflexivity].
  destruct (writable E _); reflexivity.
Qed.

(** A successful invocation of the character stage of
    [story_generator.py]: the picture the call yields is stored under
    the name made of the normalised character name and the style. *)
Lemma StoryGenerator_generate_character_image_success (E : Env) (kvs : list (str * json))
    (name style : str) (appearance storyline : json) (w : World) (img : Image) :
  assoc (lit "name") kvs = Some (JStr name) ->
  assoc (lit "appearance") kvs = Some appearance ->
  yielded_image E (length (calls w))
    (StoryGenerator.character_contents (JStr name) appearance
       (match assoc (lit "traits") kvs with Some v => v | None => JStr [] end) (JStr style))
    = Some img ->
  writable E (StoryGenerator.character_filename name style) = true ->
  StoryGenerator.generate_character_image E (JObj kvs) (JStr style) storyline w
  = (Returned (Some (StoryGenerator.character_filename name style)),
     {| files := <[StoryGenerator.character_filename name style := img]> (files w);
        calls := calls w ++
                 [GenerateContent
                    (StoryGenerator.character_contents (JStr name) appearance
                       (match assoc (lit "traits") kvs with Some v => v | None => JStr [] end)
                       (JStr style))] |}).
Proof.
  intros Hname Happ Hyield Hw.
  unfold StoryGenerator.generate_character_image, yielded_image in *.
  unfold bind, lift, dict_item, dict_get, try_except, models_generate_content.
  rewrite Hname, Happ.
  destruct (generate_content E _ _) as [response|]; [|discriminate].
  destruct (response_parts response) as [ps|]; [|discriminate].
  rewrite StoryGenerator_character_image_parts_run.
  destruct (first_inline ps) as [blob|]; [|discriminate].
  destruct (Image_open E (data blob)) as [i|]; [|discriminate].
  injection Hyield as ->. simpl. rewrite Hw. reflexivity.
Qed.

Lemma Story2_generate_character_image_success (E : Env) (kvs : list (str * json))
    (name : str) (style : json) (w : World) (img : Image) :
  assoc (lit "name") kvs = Some (JStr name) ->
  yielded_image E (length (calls w))
    (Story2.character_contents (JStr name)
       (match assoc (lit "appearance") kvs with
        | Some v => v | None => JStr (lit "No appearance described") end) style)
    = Some img ->
  writable E (Story2.character_filename name) = true ->
  Story2.generate_character_image E (JObj kvs) style w
  = (Returned (Some (Story2.character_filename name)),
     {| files := <[Story2.character_filename name := img]> (files w);
        calls := calls w ++
                 [GenerateContent
                    (Story2.character_contents (JStr name)
                       (match assoc (lit "appearance") kvs with
                        | Some v => v | None => JStr (lit "No appearance described") end)
                       style)] |}).
Proof.
  intros Hname Hyield Hw.
  unfold Story2.generate_character_image, yielded_image in *.
  unfold bind, lift, dict_get, try_except, models_generate_content.
  rewrite Hname.
  destruct (generate_content E _ _) as [response|]; [|discriminate].
  destruct (response_parts response) as [ps|]; [|discriminate].
  rewrite Story2_character_image_parts_run.
  destruct (first_inline ps) as [blob|]; [|discriminate].
  destruct (Image_open E (data blob)) as [i|]; [|discriminate].
  injection Hyield as ->. simpl. rewrite Hw. reflexivity.
Qed.

Lemma Story3_generate_character_image_success (E : Env) (kvs : list (str * json))
    (name : str) (style : json) (w : World) (img : Image) :
  assoc (lit "name") kvs = Some (JStr name) ->
  yielded_image E (length (calls w))
    (Story3.character_contents (JStr name)
       (match assoc (lit "appearance") kvs with
        | Some v => v | None => JStr (lit "No appearance described") end) style)
    = Some img ->
  writable E (Story3.character_filename (lower (replace_space name))
                (strftime_now E (S (length (calls w))))) = true ->
  Story3.generate_character_image E (JObj kvs) style w
  = (Returned (Some (Story3.character_filename (lower (replace_space name))
                       (strftime_now E (S (length (calls w)))))),
     {| files := <[Story3.character_filename (lower (replace_space name))
                     (strftime_now E (S (length (calls w)))) := img]> (files w);
        calls := calls w ++
                 [GenerateContent
                    (Story3.character_contents (JStr name)
                       (match assoc (lit "appearance") kvs with
                        | Some v => v | None => JStr (lit "No appearance described") end)
                       style)] |}).
Proof.
  intros Hname Hyield Hw.
  unfold Story3.generate_character_image, yielded_image in *.
  unfold bind, lift, dict_get, try_except, models_generate_content.
  rewrite Hname.
  destruct (generate_content E _ _) as [response|]; [|discriminate].
  destruct (response_parts response) as [ps|]; [|discriminate].
  rewrite Story3_character_image_parts_run.
  destruct (first_inline ps) as [blob|]; [|discriminate].
  destruct (Image_open E (data blob)) as [i|]; [|discriminate].
  injection Hyield as ->. simpl.
  rewrite length_app. simpl. rewrite Nat.add_1_r, Hw. reflexivity.
Qed.

(** C6 (as stated it fails). Two successful invocations of the
    character stage for the same character: in [story_generator.py]
    with two styles, in [Story3.py] with the same style while the clock
    moves on. The names differ, and the first picture stays stored
    beside the second. *)
Lemma same_name_two_assets :
  (exists w1 w2,
      StoryGenerator.generate_character_image
        (Demo.env (fun _ => Returned []) (Demo.pictures (Demo.first_then (lit "A") (lit "B")))
           Demo.no_clock)
        Demo.volt (JStr (lit "ink")) (JStr []) empty_world
      = (Returned (Some (lit "volt_the_electron_ink.png")), w1)
      /\ StoryGenerator.generate_character_image
           (Demo.env (fun _ => Returned []) (Demo.pictures (Demo.first_then (lit "A") (lit "B")))
              Demo.no_clock)
           Demo.volt (JStr (lit "oil")) (JStr []) w1
         = (Returned (Some (lit "volt_the_electron_oil.png")), w2)
      /\ files w2 !! lit "volt_the_electron_ink.png" = Some (Picture (lit "A"))
      /\ files w2 !! lit "volt_the_electron_oil.png" = Some (Picture (lit "B")))
  /\ (exists w1 w2,
      Story3.generate_character_image
        (Demo.env (fun _ => Returned []) (Demo.pictures (Demo.first_then (lit "A") (lit "B")))
           Demo.ticking)
        Demo.volt (JStr (lit "ink")) empty_world
      = (Returned (Some (lit "char_volt_the_electron_20250101000000.png")), w1)
      /\ Story3.generate_character_image
           (Demo.env (fun _ => Returned []) (Demo.pictures (Demo.first_then (lit "A") (lit "B")))
              Demo.ticking)
           Demo.volt (JStr (lit "ink")) w1
         = (Returned (Some (lit "char_volt_the_electron_20250101000005.png")), w2)
      /\ files w2 !! lit "char_volt_the_electron_20250101000000.png" = Some (Picture (lit "A"))
      /\ files w2 !! lit "char_volt_the_electron_20250101000005.png" = Some (Picture (lit "B"))).
Proof.
  split.
  - eexists. eexists. split; [vm_compute; reflexivity|].
    split; [vm_compute; reflexivity|]. split; vm_compute; reflexivity.
  - eexists. eexists. split; [vm_compute; reflexivity|].
    split; [vm_compute; reflexivity|]. split; vm_compute; reflexivity.
Qed.

(** C6 (amended). Two successful invocations of the character stage
    for the same character name overwrite one asset when the rest of
    the file name agrees as well: in [story_generator.py] the name is
    the character name lower-cased with spaces replaced, followed by
    the style with spaces replaced, so the style must be the same; in
    [Story3.py] it is that normalised name between [char_] and the
    time stamp, so the two time stamps must be the same. Both
    invocations then return the same name, and the store differs from
    the initial one by a single entry under that name, holding the
    second picture. *)
Theorem character_asset_overwrite (E : Env) (kvs : list (str * json))
    (name style : str) (appearance storyline : json) (w : World) (img1 img2 : Image) :
  let n := length (calls w) in
  let traits := match assoc (lit "traits") kvs with Some v => v | None => JStr [] end in
  let id := StoryGenerator.character_filename name style in
  let id3 := Story3.character_filename (lower (replace_space name)) (strftime_now E (S n)) in
  assoc (lit "name") kvs = Some (JStr name) ->
  assoc (lit "appearance") kvs = Some appearance ->
  yielded_image E n
    (StoryGenerator.character_contents (JStr name) appearance traits (JStr style)) = Some img1 ->
  yielded_image E (S n)
    (StoryGenerator.character_contents (JStr name) appearance traits (JStr style)) = Some img2 ->
  writable E id = true ->
  yielded_image E n (Story3.character_contents (JStr name) appearance (JStr style)) = Some img1 ->
  yielded_image E (S n) (Story3.character_contents (JStr name) appearance (JStr style)) = Some img2 ->
  strftime_now E (S (S n)) = strftime_now E (S n) ->
  writable E id3 = true ->
  (exists w1 w2,
      StoryGenerator.generate_character_image E (JObj kvs) (JStr style) storyline w
        = (Returned (Some id), w1)
      /\ StoryGenerator.generate_character_image E (JObj kvs) (JStr style) storyline w1
        = (Returned (Some id), w2)
      /\ files w2 = <[id := img2]> (files w)
      /\ files w2 !! id = Some img2)
  /\ (exists w1 w2,
      Story3.generate_character_image E (JObj kvs) (JStr style) w = (Returned (Some id3), w1)
      /\ Story3.generate_character_image E (JObj kvs) (JStr style) w1 = (Returned (Some id3), w2)
      /\ files w2 = <[id3 := img2]> (files w)
      /\ files w2 !! id3 = Some img2).
Proof.
  intros n traits id id3 Hname Happ Hy1 Hy2 Hw Hy1' Hy2' Hts Hw3. split.
  - pose proof (StoryGenerator_generate_character_image_success E kvs name style
                  appearance storyline w img1 Hname Happ Hy1 Hw) as Hrun1.
    eexists. eexists. split; [exact Hrun1|].
    pose proof (StoryGenerator_generate_character_image_success E kvs name style
                  appearance storyline
                  {| files := <[id := img1]> (files w);
                     calls := calls w ++
                              [GenerateContent
                                 (StoryGenerator.character_contents (JStr name) appearance
                                    traits (JStr style))] |}
                  img2 Hname Happ) as Hrun2.
    simpl calls in Hrun2.
    rewrite length_app in Hrun2. simpl length in Hrun2. rewrite Nat.add_1_r in Hrun2.
    specialize (Hrun2 Hy2 Hw).
    split; [exact Hrun2|].
    simpl files. split; [apply insert_insert_eq|apply lookup_insert_eq].
  - assert (Happ' : match assoc (lit "appearance") kvs with
                    | Some v => v | None => JStr (lit "No appearance described") end
                    = appearance) by (rewrite Happ; reflexivity).
    pose proof (Story3_generate_character_image_success E kvs name (JStr style) w img1 Hname)
      as Hrun1.
    rewrite Happ' in Hrun1. specialize (Hrun1 Hy1' Hw3).
    eexists. eexists. split; [exact Hrun1|].
    pose proof (Story3_generate_character_image_success E kvs name (JStr style)
                  {| files := <[id3 := img1]> (files w);
                     calls := calls w ++
                              [GenerateContent
                                 (Story3.character_contents (JStr name) appearance (JStr style))] |}
                  img2 Hname) as Hrun2.
    rewrite Happ' in Hrun2. simpl calls in Hrun2.
    rewrite length_app in Hrun2. simpl length in Hrun2. rewrite Nat.add_1_r in Hrun2.
    fold n in Hrun2. rewrite Hts in Hrun2. fold id3 in Hrun2.
    specialize (Hrun2 Hy2' Hw3).
    split; [exact Hrun2|].
    simpl files. split; [apply insert_insert_eq|apply lookup_insert_eq].
Qed.

Lemma character_asset_overwrite_witness :
  (exists w1 w2,
      StoryGenerator.generate_character_image
        (Demo.env (fun _ => Returned []) (Demo.pictures (Demo.first_then (lit "A") (lit "B")))
           Demo.no_clock)
        Demo.volt (JStr (lit "comic book")) (JStr []) empty_world
      = (Returned (Some (lit "volt_the_electron_comic_book.png")), w1)
      /\ StoryGenerator.generate_character_image
           (Demo.env (fun _ => Returned []) (Demo.pictures (Demo.first_then (lit "A") (lit "B")))
              Demo.no_clock)
           Demo.volt (JStr (lit "comic book")) (JStr []) w1
         = (Returned (Some (lit "volt_the_electron_comic_book.png")), w2)
      /\ files w2 = <[lit "volt_the_electron_comic_book.png" := Picture (lit "B")]> ∅
      /\ files w2 !! lit "volt_the_electron_comic_book.png" = Some (Picture (lit "B")))
  /\ (exists w1 w2,
      Story3.generate_character_image
        (Demo.env (fun _ => Returned []) (Demo.pictures (Demo.first_then (lit "A") (lit "B")))
           Demo.no_clock)
        Demo.volt (JStr (lit "comic book")) empty_world
      = (Returned (Some (lit "char_volt_the_electron_20250101000000.png")), w1)
      /\ Story3.generate_character_image
           (Demo.env (fun _ => Returned []) (Demo.pictures (Demo.first_then (lit "A") (lit "B")))
              Demo.no_clock)
           Demo.volt (JStr (lit "comic book")) w1
         = (Returned (Some (lit "char_volt_the_electron_20250101000000.png")), w2)
      /\ files w2 = <[lit "char_volt_the_electron_20250101000000.png" := Picture (lit "B")]> ∅
      /\ files w2 !! lit "char_volt_the_electron_20250101000000.png" = Some (Picture (lit "B"))).
Proof.
  apply (character_asset_overwrite
           (Demo.env (fun _ => Returned []) (Demo.pictures (Demo.first_then (lit "A") (lit "B")))
              Demo.no_clock)
           [(lit "name", JStr (lit "Volt the Electron"));
            (lit "traits", JStr (lit "curious"));
            (lit "appearance", JStr (lit "a small blue spark"))]
           (lit "Volt the Electron") (lit "comic book") (JStr (lit "a small blue spark"))
           (JStr []) empty_world (Picture (lit "A")) (Picture (lit "B")));
    reflexivity.
Defined.

(** In [Story-2.py] the file name is made of the character name alone:
    two successful invocations for the same name overwrite one asset,
    whatever the styles. *)
Lemma Story2_character_asset_overwrite (E : Env) (kvs : list (str * json))
    (name : str) (style style' : json) (w : World) (img1 img2 : Image) :
  let n := length (calls w) in
  let appearance := match assoc (lit "appearance") kvs with
                    | Some v => v | None => JStr (lit "No appearance described") end in
  let id := Story2.character_filename name in
  assoc (lit "name") kvs = Some (JStr name) ->
  yielded_image E n (Story2.character_contents (JStr name) appearance style) = Some img1 ->
  yielded_image E (S n) (Story2.character_contents (JStr name) appearance style') = Some img2 ->
  writable E id = true ->
  exists w1 w2,
    Story2.generate_character_image E (JObj kvs) style w = (Returned (Some id), w1)
    /\ Story2.generate_character_image E (JObj kvs) style' w1 = (Returned (Some id), w2)
    /\ files w2 = <[id := img2]> (files w)
    /\ files w2 !! id = Some img2.
Proof.
  intros n appearance id Hname Hy1 Hy2 Hw.
  pose proof (Story2_generate_character_image_success E kvs name style w img1 Hname Hy1 Hw)
    as Hrun1.
  eexists. eexists. split; [exact Hrun1|].
  pose proof (Story2_generate_character_image_success E kvs name style'
                {| files := <[id := img1]> (files w);
                   calls := calls w ++
                            [GenerateContent
                               (Story2.character_contents (JStr name) appearance style)] |}
                img2 Hname) as Hrun2.
  simpl calls in Hrun2.
  rewrite length_app in Hrun2. simpl length in Hrun2. rewrite Nat.add_1_r in Hrun2.
  specialize (Hrun2 Hy2 Hw).
  split; [exact Hrun2|].
  simpl files. split; [apply insert_insert_eq|apply lookup_insert_eq].
Qed.

(** ** The client's scene-image step *)

(** What the step makes of one answer, when the server answers with
    objects: it never raises. *)
Lemma record_scene_file_returns (C : ClientEnv) (n : nat) (endpoint : str) (payload : json)
    (acc : list json) :
  answers_objects C ->
  exists acc', Testing.record_scene_file (post_reply C n endpoint payload) acc = Returned acc'.
Proof.
  intros Hobj. unfold Testing.record_scene_file.
  destruct (post_reply C n endpoint payload) as [r|] eqn:Hr; [|eexists; reflexivity].
  destruct (truthy r) eqn:Ht; [|eexists; reflexivity].
  destruct (Hobj _ _ _ _ Hr Ht) as [kvs ->]. unfold dict_get.
  destruct (truthy (match assoc (lit "filename") kvs with Some v => v | None => JNull end));
    eexists; reflexivity.
Qed.

Lemma In_enumerate_from {A} (l : list A) :
  forall (n i : nat) (x : A),
    l !! i = Some x -> In ((n + i)%nat, x) (combine (seq n (length l)) l).
Proof.
  induction l as [|a t IH]; intros n i x Hi; [destruct i; discriminate Hi|].
  destruct i as [|i]; simpl in *.
  - injection Hi as ->. left. rewrite Nat.add_0_r. reflexivity.
  - right. replace (n + S i)%nat with (S n + i)%nat by lia. apply IH. exact Hi.
Qed.

(** The loop of the step from index [i], with at least one plate and a
    server that answers with objects: the scenes that have their
    assets are posted, in order, each with its own plate; the others
    are passed over. *)
Lemma scene_images_from_run (C : ClientEnv) (style : json)
    (background_image_files : list str) (char_images_b64 : list (option str))
    (scenes : list json) :
  answers_objects C ->
  background_image_files <> [] ->
  forall (i : nat) (acc : list json) (w : Client),
  exists scene_image_files,
    Testing.scene_images_from C i scenes style background_image_files char_images_b64 acc w
    = (Returned scene_image_files,
       {| posts :=
            posts w ++
            map (fun item => composite_post C (snd item) style background_image_files
                               char_images_b64 (fst item))
              (filter (fun item => has_assets C background_image_files char_images_b64
                                     (fst item) = true)
                 (combine (seq i (length scenes)) scenes)) |}).
Proof.
  intros Hobj Hne. induction scenes as [|desc rest IH]; intros i acc w.
  - exists acc. simpl. rewrite app_nil_r. destruct w. reflexivity.
  - simpl Testing.scene_images_from.
    destruct background_image_files as [|b0 bs] eqn:Hbfs; [congruence|].
    rewrite <- Hbfs in *.
    assert (Hlt : (i mod length background_image_files < length background_image_files)%nat).
    { apply Nat.mod_upper_bound. rewrite Hbfs. simpl. lia. }
    destruct (lookup_lt_is_Some_2 _ _ Hlt) as [name Hname].
    rewrite Hname.
    assert (Hplate : plate_b64 C background_image_files i
                     = Testing.read_image_as_base64 C name).
    { unfold plate_b64. rewrite Hname. reflexivity. }
    assert (Hskip : (Nat.eqb (length char_images_b64) 0
                     || negb (Testing.truthy_b64 (Testing.read_image_as_base64 C name)))%bool
                    = negb (has_assets C background_image_files char_images_b64 i)).
    { unfold has_assets. rewrite Hplate.
      destruct (Nat.eqb (length char_images_b64) 0);
        destruct (Testing.truthy_b64 _); reflexivity. }
    rewrite Hskip. rewrite <- Hplate.
    change (combine (seq i (length (desc :: rest))) (desc :: rest))
      with ((i, desc) :: combine (seq (S i) (length rest)) rest).
    rewrite filter_cons. simpl fst.
    destruct (has_assets C background_image_files char_images_b64 i) eqn:Hassets.
    2:{ change (negb false) with true. cbv iota.
        rewrite decide_False by discriminate. apply IH. }
    change (negb true) with false. cbv iota.
    rewrite decide_True by reflexivity.
    unfold bind at 1. unfold Testing.make_post_request at 1. cbv iota beta.
    unfold bind at 1. unfold lift at 1.
    match goal with
    | |- context [Testing.record_scene_file (post_reply C ?n ?e ?p) acc] =>
        destruct (record_scene_file_returns C n e p acc Hobj) as [acc' Hrec]
    end.
    rewrite Hrec. cbv iota.
    match goal with
    | |- context [Testing.scene_images_from C (S i) rest style _ _ acc' ?w1] =>
        destruct (IH (S i) acc' w1) as (fs & Hloop)
    end.
    exists fs. rewrite Hloop. simpl posts. rewrite <- app_assoc. reflexivity.
Qed.

(** C7. Background selection. With [k] plates, [k > 0], and a server
    that answers with JSON objects, the step posts the composite
    request of every scene that has its assets, in scene order, and the
    request of the scene of index [i] carries the plate at index
    [i mod k]; scenes without assets are passed over and nothing else
    is posted. Without any plate the step posts nothing and produces no
    scene image. *)
Theorem background_selection_wraps (C : ClientEnv) (scenes : list json) (style : json)
    (background_image_files : list str) (char_images_b64 : list (option str)) (w : Client) :
  answers_objects C ->
  background_image_files <> [] ->
  (exists scene_image_files,
      Testing.main_step5 C scenes style background_image_files char_images_b64 w
      = (Returned scene_image_files,
         {| posts :=
              posts w ++
              map (fun item => composite_post C (snd item) style background_image_files
                                 char_images_b64 (fst item))
                (filter (fun item => has_assets C background_image_files char_images_b64
                                       (fst item) = true)
                   (enumerate scenes)) |}))
  /\ (forall i desc,
        scenes !! i = Some desc ->
        has_assets C background_image_files char_images_b64 i = true ->
        In (lit "/generate-scene-image",
            Testing.scene_payload desc style char_images_b64
              (match background_image_files !! (i mod length background_image_files)%nat with
               | Some name => Testing.read_image_as_base64 C name
               | None => None
               end) i)
          (posts (snd (Testing.main_step5 C scenes style background_image_files
                         char_images_b64 w))))
  /\ Testing.main_step5 C scenes style [] char_images_b64 w = (Returned [], w).
Proof.
  intros Hobj Hne.
  destruct (scene_images_from_run C style background_image_files char_images_b64 scenes
              Hobj Hne 0 [] w) as (fs & Hrun).
  split; [|split].
  - exists fs. exact Hrun.
  - intros i desc Hi Hassets. unfold Testing.main_step5. rewrite Hrun. simpl snd. simpl posts.
    apply in_or_app. right.
    change (lit "/generate-scene-image",
            Testing.scene_payload desc style char_images_b64
              (match background_image_files !! (i mod length background_image_files)%nat with
               | Some name => Testing.read_image_as_base64 C name
               | None => None
               end) i)
      with ((fun item => composite_post C (snd item) style background_image_files
                           char_images_b64 (fst item)) (i, desc)).
    apply in_map. apply list_elem_of_In. apply list_elem_of_filter.
    split; [exact Hassets|]. apply list_elem_of_In.
    apply (In_enumerate_from scenes 0 i desc Hi).
  - unfold Testing.main_step5. destruct scenes; reflexivity.
Qed.

Lemma background_selection_wraps_witness :
  let C := Demo.client in
  let scenes := Demo.nine_scenes in
  let style := JStr (lit "comic book") in
  let chars := [Some (lit "VOLT")] in
  let w := {| posts := [] |} in
  (exists scene_image_files,
      Testing.main_step5 C scenes style Demo.plates chars w
      = (Returned scene_image_files,
         {| posts :=
              posts w ++
              map (fun item => composite_post C (snd item) style Demo.plates chars (fst item))
                (filter (fun item => has_assets C Demo.plates chars (fst item) = true)
                   (enumerate scenes)) |}))
  /\ (forall i desc,
        scenes !! i = Some desc ->
        has_assets C Demo.plates chars i = true ->
        In (lit "/generate-scene-image",
            Testing.scene_payload desc style chars
              (match Demo.plates !! (i mod length Demo.plates)%nat with
               | Some name => Testing.read_image_as_base64 C name
               | None => None
               end) i)
          (posts (snd (Testing.main_step5 C scenes style Demo.plates chars w))))
  /\ Testing.main_step5 C scenes style [] chars w = (Returned [], w).
Proof.
  intros C scenes style chars w.
  apply (background_selection_wraps C scenes style Demo.plates chars w).
  - intros n endpoint payload r Hr _. vm_compute in Hr. injection Hr as <-.
    eexists. reflexivity.
  - discriminate.
Defined.

(** The batch of the specification: nine scenes over five plates. The
    request of scene index 6 carries the plate at index 1. *)
Example scene_six_uses_plate_one :
  exists w',
    Testing.main_step5 Demo.client Demo.nine_scenes (JStr (lit "comic book"))
      Demo.plates [Some (lit "VOLT")] {| posts := [] |}
    = (Returned (repeat (JStr (lit "scene.png")) 9), w')
    /\ length (posts w') = 9%nat
    /\ posts w' !! 6%nat
       = Some (lit "/generate-scene-image",
               Testing.scene_payload (JStr (lit "Scene 7")) (JStr (lit "comic book"))
                 [Some (lit "VOLT")] (Some (lit "plate:bg_2.png")) 6).
Proof.
  eexists. split; [vm_compute; reflexivity|]. split; vm_compute; reflexivity.
Qed.

(** * Further properties of the code *)

(** ** Extraction *)

Lemma slice_infix (s : str) (a b : Z) : exists p q, s = p ++ slice s a b ++ q.
Proof.
  unfold slice.
  set (m := Z.to_nat (slice_bound (Z.of_nat (length s)) a)).
  set (n := Z.to_nat (slice_bound (Z.of_nat (length s)) b
                      - slice_bound (Z.of_nat (length s)) a)).
  exists (firstn m s), (skipn n (skipn m s)).
  rewrite (firstn_skipn n (skipn m s)), (firstn_skipn m s). reflexivity.
Qed.

(** X1. Whatever the story chain replies, the text the story stage
    hands to the JSON library is a contiguous part of the reply: the
    stage never parses text the capability did not write. *)
Theorem story_stage_parses_part_of_reply (E : Env) (topic description style : json)
    (w : World) (text : str) :
  invoke E (length (calls w)) story_chain
    [(lit "topic", topic); (lit "description", description); (lit "style", style)]
    = Returned text ->
  exists before contract after,
    text = before ++ contract ++ after
    /\ fst (StoryGenerator.generate_story_and_characters E topic description style w) =
         match json_loads E contract with
         | Returned v => Returned (Some v)
         | Raised e => if is_JSONDecodeError_or_IndexError e then Returned None else Raised e
         end.
Proof.
  intros Hinv.
  destruct (slice_infix text (find "{" text) (rfind "}" text + 1)) as (p & q & Hsplit).
  exists p, (slice text (find "{" text) (rfind "}" text + 1)), q.
  split; [exact Hsplit|].
  apply generate_story_and_characters_run, Hinv.
Qed.

Lemma story_stage_parses_part_of_reply_witness :
  exists before contract after,
    Demo.example_response = before ++ contract ++ after
    /\ fst (StoryGenerator.generate_story_and_characters
              (Demo.env (fun _ => Returned Demo.example_response) Demo.no_images Demo.no_clock)
              (JStr (lit "Gravity")) (JStr (lit "An apple")) (JStr (lit "comic book"))
              empty_world) =
         match RefJSON.loads contract with
         | Returned v => Returned (Some v)
         | Raised e => if is_JSONDecodeError_or_IndexError e then Returned None else Raised e
         end.
Proof.
  apply (story_stage_parses_part_of_reply
           (Demo.env (fun _ => Returned Demo.example_response) Demo.no_images Demo.no_clock)
           (JStr (lit "Gravity")) (JStr (lit "An apple")) (JStr (lit "comic book"))
           empty_world Demo.example_response).
  reflexivity.
Defined.

Lemma rfind_app_absent (c : ascii) (s r : str) :
  ~ In c r -> rfind c (s ++ r) = rfind c s.
Proof.
  intros Hr. induction s as [|x t IH]; simpl.
  - apply rfind_absent, Hr.
  - rewrite IH. reflexivity.
Qed.

Lemma rfind_upper (c : ascii) (s : str) : rfind c s < Z.of_nat (length s).
Proof.
  induction s as [|x t IH]; simpl length; [simpl; lia|].
  change (rfind c (x :: t))
    with (if 0 <=? rfind c t then rfind c t + 1 else if Ascii.eqb x c then 0 else -1).
  destruct (Z.leb_spec 0 (rfind c t)); [lia|].
  destruct (Ascii.eqb x c); lia.
Qed.

(** When every closing brace stands before the first opening brace,
    nothing lies between the first opening and the last closing
    brace. *)
Lemma slice_braces_reversed (a b : str) :
  ~ In "{"%char a -> ~ In "}"%char b ->
  slice (a ++ "{"%char :: b) (find "{" (a ++ "{"%char :: b))
    (rfind "}" (a ++ "{"%char :: b) + 1) = [].
Proof.
  intros Ha Hb.
  rewrite (find_first _ a b Ha).
  assert (Hr : rfind "}" (a ++ "{"%char :: b) = rfind "}" a).
  { apply rfind_app_absent. intros [H|H]; [discriminate H|exact (Hb H)]. }
  rewrite Hr.
  pose proof (rfind_upper "}" a) as Hup.
  assert (Hlow : -1 <= rfind "}" a).
  { clear. induction a as [|x t IH]; simpl; [lia|].
    destruct (Z.leb_spec 0 (rfind "}" t)); [lia|]. destruct (Ascii.eqb x "}"); lia. }
  unfold slice, slice_bound. rewrite length_app. simpl length.
  destruct (Z.ltb_spec (Z.of_nat (length a)) 0); [lia|].
  destruct (Z.ltb_spec (rfind "}" a + 1) 0); [lia|].
  rewrite !Z.min_l by lia.
  replace (Z.to_nat (rfind "}" a + 1 - Z.of_nat (length a))) with 0%nat by lia.
  apply firstn_O.
Qed.

(** X2. A reply whose closing braces all stand before its first
    opening brace fails closed: the story stage returns [None]. (The
    slice is empty, which the JSON library refuses.) *)
Theorem reversed_braces_fail_closed (E : Env) (a b : str) (topic description style : json)
    (w : World) :
  json_loads E [] = Raised JSONDecodeError ->
  ~ In "{"%char a ->
  ~ In "}"%char b ->
  invoke E (length (calls w)) story_chain
    [(lit "topic", topic); (lit "description", description); (lit "style", style)]
    = Returned (a ++ "{"%char :: b) ->
  fst (StoryGenerator.generate_story_and_characters E topic description style w)
  = Returned None.
Proof.
  intros Hempty Ha Hb Hinv.
  rewrite (generate_story_and_characters_run _ _ _ _ _ _ Hinv).
  rewrite (slice_braces_reversed a b Ha Hb), Hempty. reflexivity.
Qed.

Lemma reversed_braces_fail_closed_witness :
  fst (StoryGenerator.generate_story_and_characters
         (Demo.env (fun _ => Returned (lit "done } and then { nothing"))
            Demo.no_images Demo.no_clock)
         (JStr (lit "Gravity")) (JStr (lit "An apple")) (JStr (lit "comic book"))
         empty_world)
  = Returned None.
Proof.
  apply (reversed_braces_fail_closed
           (Demo.env (fun _ => Returned (lit "done } and then { nothing"))
              Demo.no_images Demo.no_clock)
           (lit "done } and then ") (lit " nothing")).
  - vm_compute. reflexivity.
  - apply not_In_existsb. vm_compute. reflexivity.
  - apply not_In_existsb. vm_compute. reflexivity.
  - reflexivity.
Defined.

(** ** File names *)

Lemma lower_char_idempotent (c : ascii) : lower_char (lower_char c) = lower_char c.
Proof. destruct c as [[|] [|] [|] [|] [|] [|] [|] [|]]; reflexivity. Qed.

Lemma lower_idempotent (s : str) : lower (lower s) = lower s.
Proof.
  unfold lower. rewrite map_map. apply map_ext. intros c. apply lower_char_idempotent.
Qed.

Lemma replace_space_idempotent (s : str) : replace_space (replace_space s) = replace_space s.
Proof.
  unfold replace_space. rewrite map_map. apply map_ext. intros c.
  destruct c as [[|] [|] [|] [|] [|] [|] [|] [|]]; reflexivity.
Qed.

Lemma replace_space_lower (s : str) : replace_space (lower s) = lower (replace_space s).
Proof.
  unfold replace_space, lower. rewrite !map_map. apply map_ext. intros c.
  destruct c as [[|] [|] [|] [|] [|] [|] [|] [|]]; reflexivity.
Qed.

Lemma ascii_str_normalised (name : str) :
  ascii_str name = true -> ascii_str (lower (replace_space name)) = true.
Proof.
  unfold ascii_str, lower, replace_space. rewrite !forallb_forall.
  intros H c Hc. apply in_map_iff in Hc as (c1 & <- & Hc1).
  apply in_map_iff in Hc1 as (c0 & <- & Hc0). specialize (H c0 Hc0). revert H. clear.
  destruct c0 as [[|] [|] [|] [|] [|] [|] [|] [|]]; vm_compute; congruence.
Qed.

(** X3. For a name made of ASCII characters (where [lower] is
    [str.lower()]), the file name of a character does not change when
    the name is lower-cased or has its spaces replaced beforehand, in
    the three generators; in [story_generator.py] the same holds for
    spaces in the style. Names that differ only by letter case or by a
    space against an underscore therefore share one file, and the
    normalised name is ASCII again. *)
Theorem character_filename_normalises (name style timestamp : str) :
  ascii_str name = true ->
  Story2.character_filename (lower name) = Story2.character_filename name
  /\ Story2.character_filename (replace_space name) = Story2.character_filename name
  /\ StoryGenerator.character_filename (lower name) style
     = StoryGenerator.character_filename name style
  /\ StoryGenerator.character_filename (replace_space name) (replace_space style)
     = StoryGenerator.character_filename name style
  /\ Story3.character_filename (lower (replace_space (lower name))) timestamp
     = Story3.character_filename (lower (replace_space name)) timestamp
  /\ Story3.character_filename (lower (replace_space (replace_space name))) timestamp
     = Story3.character_filename (lower (replace_space name)) timestamp
  /\ ascii_str (lower (replace_space name)) = true.
Proof.
  intros Hascii.
  unfold Story2.character_filename, StoryGenerator.character_filename,
    Story3.character_filename.
  rewrite !replace_space_lower, !lower_idempotent, !replace_space_idempotent.
  split; [reflexivity|]. split; [reflexivity|]. split; [reflexivity|].
  split; [reflexivity|]. split; [reflexivity|]. split; [reflexivity|].
  apply ascii_str_normalised. exact Hascii.
Qed.

Lemma character_filename_normalises_witness :
  let name := lit "Volt The Electron" in
  let style := lit "comic book" in
  let timestamp := lit "20250101000000" in
  Story2.character_filename (lower name) = Story2.character_filename name
  /\ Story2.character_filename (replace_space name) = Story2.character_filename name
  /\ StoryGenerator.character_filename (lower name) style
     = StoryGenerator.character_filename name style
  /\ StoryGenerator.character_filename (replace_space name) (replace_space style)
     = StoryGenerator.character_filename name style
  /\ Story3.character_filename (lower (replace_space (lower name))) timestamp
     = Story3.character_filename (lower (replace_space name)) timestamp
  /\ Story3.character_filename (lower (replace_space (replace_space name))) timestamp
     = Story3.character_filename (lower (replace_space name)) timestamp
  /\ ascii_str (lower (replace_space name)) = true.
Proof.
  intros name style timestamp.
  apply (character_filename_normalises name style timestamp).
  reflexivity.
Defined.

(** ** Request validation of [new_server.py] *)

Lemma missing_fields_lacking (data : json) (required : list str) :
  lacks_field data required -> missing_fields data required = Returned true.
Proof.
  unfold missing_fields. intros [Hfalsy|(dkvs & k & -> & Hin & Hkey)].
  - rewrite Hfalsy. reflexivity.
  - destruct (truthy (JObj dkvs)); [|reflexivity]. simpl.
    assert (Hall : all_in required (JObj dkvs) = Returned false).
    { induction required as [|k' rest IH]; [destruct Hin|].
      simpl. destruct (has_key k' dkvs) eqn:Hk'; [|reflexivity].
      apply IH. destruct Hin as [->|Hin]; [congruence|exact Hin]. }
    rewrite Hall. reflexivity.
Qed.

Ltac reject_request :=
  let H := fresh in
  intros H; unfold bind at 1; unfold lift at 1;
  rewrite (missing_fields_lacking _ _ H); reflexivity.

(** X4. Request validation: each of the seven handlers of
    [new_server.py] answers a body that is falsy ([null], [{}], ...)
    or an object without one of its required keys with status 400 and
    its own message, and leaves the world as it is: no call reaches
    the capability and no file is written. *)
Theorem invalid_request_rejected (E : Env) (K : Codec) (data : json) (w : World) :
  (lacks_field data [lit "topic"; lit "description"; lit "style"] ->
   NewServer.api_generate_story E data w
   = (Returned (NewServer.handle_error
                  "Missing required fields: topic, description, style" 400), w))
  /\ (lacks_field data [lit "character"; lit "style"] ->
      NewServer.api_generate_character_image E data w
      = (Returned (NewServer.handle_error "Missing required fields: character, style" 400), w))
  /\ (lacks_field data [lit "background_descriptions"; lit "style"] ->
      NewServer.api_generate_background_images E data w
      = (Returned (NewServer.handle_error
                     "Missing required fields: background_descriptions, style" 400), w))
  /\ (lacks_field data [lit "storyline"; lit "characters"; lit "style"] ->
      NewServer.api_generate_scene_descriptions E data w
      = (Returned (NewServer.handle_error
                     "Missing required fields: storyline, characters, style" 400), w))
  /\ (lacks_field data [lit "scene_description"; lit "style"; lit "character_images_base64";
                        lit "background_image_base64"] ->
      NewServer.api_generate_scene_image E K data w
      = (Returned (NewServer.handle_error
                     "Missing required fields. Required: ['scene_description', 'style', 'character_images_base64', 'background_image_base64']"
                     400), w))
  /\ (lacks_field data [lit "storyline"; lit "scene_descriptions"] ->
      NewServer.api_generate_script E data w
      = (Returned (NewServer.handle_error
                     "Missing required fields: storyline, scene_descriptions" 400), w))
  /\ (lacks_field data [lit "scene_description"] ->
      NewServer.api_generate_audio_description E data w
      = (Returned (NewServer.handle_error "Missing required field: scene_description" 400), w)).
Proof.
  repeat split.
  - unfold NewServer.api_generate_story. reject_request.
  - unfold NewServer.api_generate_character_image. reject_request.
  - unfold NewServer.api_generate_background_images. reject_request.
  - unfold NewServer.api_generate_scene_descriptions. reject_request.
  - unfold NewServer.api_generate_scene_image. reject_request.
  - unfold NewServer.api_generate_script. reject_request.
  - unfold NewServer.api_generate_audio_description. reject_request.
Qed.

(** A request without style, through two handlers. *)
Example request_without_style :
  NewServer.api_generate_character_image
    (Demo.env (fun _ => Returned []) Demo.no_images Demo.no_clock)
    (JObj [(lit "character", Demo.volt)]) empty_world
  = (Returned (JObj [(lit "error", JStr (lit "Missing required fields: character, style"))],
               400), empty_world)
  /\ NewServer.api_generate_story
       (Demo.env (fun _ => Returned []) Demo.no_images Demo.no_clock)
       (JObj []) empty_world
     = (Returned (JObj [(lit "error",
                         JStr (lit "Missing required fields: topic, description, style"))],
                  400), empty_world).
Proof. split; vm_compute; reflexivity. Qed.

(** X5. The field check is Python's [in]: it is membership for a list
    and raises for a number. A body that is a non-zero number or
    [true] makes the story handler raise [TypeError]; so does a list
    that holds the three field names, which passes the check and fails
    at [data['topic']]. In both cases nothing is called. *)
Theorem non_object_request_raises (E : Env) (data : json) (w : World) :
  (exists z, data = JNum z /\ z <> 0)
  \/ data = JBool true
  \/ (exists l, data = JArr l
                /\ In (JStr (lit "topic")) l /\ In (JStr (lit "description")) l
                /\ In (JStr (lit "style")) l) ->
  NewServer.api_generate_story E data w = (Raised TypeError, w).
Proof.
  intros [(z & -> & Hz)|[->|(l & -> & Ht & Hd & Hs)]];
    unfold NewServer.api_generate_story; unfold bind at 1; unfold lift at 1.
  - unfold missing_fields. simpl. destruct (Z.eqb_spec z 0); [contradiction|reflexivity].
  - reflexivity.
  - assert (Hmem : forall k, In (JStr k) l ->
               existsb (fun v => match v with JStr s => str_eqb s k | _ => false end) l = true).
    { intros k Hk. apply existsb_exists. exists (JStr k). split; [exact Hk|].
      unfold str_eqb. apply bool_decide_eq_true_2. reflexivity. }
    assert (Hne : truthy (JArr l) = true) by (destruct l; [destruct Ht|reflexivity]).
    unfold missing_fields. rewrite Hne. simpl.
    rewrite (Hmem _ Ht), (Hmem _ Hd), (Hmem _ Hs). reflexivity.
Qed.

Lemma non_object_request_raises_witness :
  NewServer.api_generate_story
    (Demo.env (fun _ => Returned []) Demo.no_images Demo.no_clock)
    (JArr [JStr (lit "style"); JStr (lit "topic"); JStr (lit "description")]) empty_world
  = (Raised TypeError, empty_world).
Proof.
  apply (non_object_request_raises
           (Demo.env (fun _ => Returned []) Demo.no_images Demo.no_clock)).
  right. right. eexists. split; [reflexivity|].
  simpl. repeat split; auto.
Defined.

(** ** What a stage writes *)

(** A guarded call followed by a saving loop: it returns, it logs the
    one call, and it writes at most the file it names. *)
Lemma guarded_call_frame (E : Env) (c : contents) (k : list Part -> M (option str))
    (w : World) :
  saves_one k ->
  exists r w',
    try_except
      (let! response := models_generate_content E c in
       let! ps := lift (response_parts response) in
       k ps)
      is_Exception (fun e => ret None) w = (Returned r, w')
    /\ calls w' = calls w ++ [GenerateContent c]
    /\ files_frame (files w) r (files w').
Proof.
  intros Hk. unfold try_except, bind, models_generate_content, lift, is_Exception, ret.
  destruct (generate_content E (length (calls w)) c) as [response|e];
    [|eexists; eexists; repeat split; reflexivity].
  destruct (response_parts response) as [ps|e];
    [|eexists; eexists; repeat split; reflexivity].
  specialize (Hk ps {| files := files w; calls := calls w ++ [GenerateContent c] |}).
  destruct (k ps _) as [[r|e] w1]; simpl in Hk; destruct Hk as [Hc Hf].
  - exists r, w1. auto.
  - exists None, w1. auto.
Qed.

Lemma Story2_character_image_parts_saves_one (E : Env) (name : json) :
  saves_one (Story2.character_image_parts E name).
Proof.
  intros ps w0. induction ps as [|p rest IH]; simpl; [split; reflexivity|].
  destruct (inline_data p) as [blob|]; [|exact IH].
  unfold bind, open_image, lift, image_save.
  destruct (Image_open E (data blob)) as [img|]; [|split; reflexivity].
  destruct (as_str name) as [n|]; [|split; reflexivity].
  destruct (writable E _); simpl; [|split; reflexivity].
  split; [reflexivity|]. exists img. reflexivity.
Qed.

Lemma Story2_scene_image_parts_saves_one (E : Env) (scene_index : Z) :
  saves_one (Story2.scene_image_parts E scene_index).
Proof.
  intros ps w0. induction ps as [|p rest IH]; simpl; [split; reflexivity|].
  destruct (inline_data p) as [blob|]; [|exact IH].
  unfold bind, open_image, lift, image_save.
  destruct (Image_open E (data blob)) as [img|]; [|split; reflexivity].
  destruct (writable E _); simpl; [|split; reflexivity].
  split; [reflexivity|]. exists img. reflexivity.
Qed.

(** A handler that prints the exception and returns [a], on a console
    that has the line and the text of every exception, is the handler
    that returns [a]. *)
Lemma try_except_printing_handler {A} (O : Console) (body : M A) (line : fstring) (a : A)
    (w : World) :
  line_ok O line = true ->
  (forall e, encodes_exception O e = true) ->
  try_except body is_Exception (fun e => let! _ := print_exception O line e in ret a) w
  = try_except body is_Exception (fun e => ret a) w.
Proof.
  intros Hline Hexn. unfold try_except.
  destruct (body w) as [[r|e] w1]; [reflexivity|].
  unfold is_Exception, bind. rewrite print_exception_encoded; [reflexivity|exact Hline|apply Hexn].
Qed.

Lemma try_except_agrees {W A} (body body' : St W A) (classes : exn -> bool)
    (handler : exn -> St W A) (w : W) :
  body w = body' w ->
  try_except body classes handler w = try_except body' classes handler w.
Proof. intros H. unfold try_except. rewrite H. reflexivity. Qed.

Lemma Story2Console_character_image_parts_agrees (E : Env) (O : Console) (name : json)
    (ps : list Part) (w : World) :
  encodes O name = true ->
  Story2Console.character_image_parts E O name ps w
  = Story2.character_image_parts E name ps w.
Proof.
  intros Hname.
  assert (Hline : forall t, line_ok O [Text t; Fmt name] = true).
  { intros t. unfold line_ok, Text. simpl forallb. rewrite Hname. reflexivity. }
  induction ps as [|p rest IH]; simpl.
  - unfold bind. rewrite print_encoded by apply Hline. reflexivity.
  - destruct (inline_data p) as [blob|]; [|exact IH].
    unfold bind, open_image, lift, image_save.
    destruct (Image_open E (data blob)) as [img|]; [|reflexivity].
    destruct (as_str name) as [n|]; [|reflexivity].
    destruct (writable E _); [|reflexivity].
    rewrite print_encoded by apply Hline. reflexivity.
Qed.

(** The character stage with its output, on a console that has the
    character's name and the text of every exception, runs as the
    stage without its output. *)
Lemma Story2Console_generate_character_image_agrees (E : Env) (O : Console)
    (kvs : list (str * json)) (style : json) (w : World) :
  encodes O (match assoc (lit "name") kvs with
             | Some v => v
             | None => JStr (lit "Unknown_Character")
             end) = true ->
  (forall e, encodes_exception O e = true) ->
  Story2Console.generate_character_image E O (JObj kvs) style w
  = Story2.generate_character_image E (JObj kvs) style w.
Proof.
  intros Hname Hexn.
  unfold Story2Console.generate_character_image, Story2.generate_character_image.
  unfold bind at 1. unfold lift at 1. unfold dict_get at 1. cbv iota beta.
  unfold bind at 1. unfold lift at 1. unfold dict_get at 1. cbv iota beta.
  unfold bind at 1. rewrite print_encoded.
  2:{ unfold line_ok, Text. simpl forallb. rewrite Hname. reflexivity. }
  cbv iota beta.
  rewrite try_except_printing_handler.
  2:{ unfold line_ok, Text. simpl forallb. rewrite Hname. reflexivity. }
  2:{ exact Hexn. }
  unfold bind at 3. unfold lift at 2. unfold dict_get at 1. cbv iota beta.
  unfold bind at 3. unfold lift at 2. unfold dict_get at 1. cbv iota beta.
  apply try_except_agrees.
  apply bind_agrees; [reflexivity|]. intros response w1.
  apply bind_agrees; [reflexivity|]. intros ps w2.
  apply Story2Console_character_image_parts_agrees. exact Hname.
Qed.

Lemma Story2Console_generate_scene_image_agrees (E : Env) (O : Console)
    (scene_description style : json) (character_images_bytes : list bytes)
    (background_image_byte : bytes) (scene_index : Z) (w : World) :
  (forall e, encodes_exception O e = true) ->
  Story2Console.generate_scene_image_with_references E O scene_description style
    character_images_bytes background_image_byte scene_index w
  = Story2.generate_scene_image_with_references E scene_description style
      character_images_bytes background_image_byte scene_index w.
Proof.
  intros Hexn.
  unfold Story2Console.generate_scene_image_with_references,
    Story2.generate_scene_image_with_references.
  apply bind_agrees; [reflexivity|]. intros background w1.
  apply bind_agrees; [reflexivity|]. intros prompt_parts w2.
  apply try_except_printing_handler; [reflexivity|exact Hexn].
Qed.

(** X6. The image stages of [Story-2.py] leave no partial effect, on
    a console that has the character's name and the text of every
    exception and a file system that takes the stage's writes. On a
    character that is a dict, [generate_character_image] returns
    whatever the capability does, makes exactly one call, writes
    nothing when it returns [None], and when it returns a name has
    written that file and no other. The same holds for
    [generate_scene_image_with_references] once its reference images
    decode. *)
Theorem image_stage_writes_what_it_returns (E : Env) (O : Console) (kvs : list (str * json))
    (style scene_description : json) (character_images_bytes : list bytes)
    (background_image_byte : bytes) (scene_index : Z) (w : World)
    (background : Image) (characters : list Image) :
  encodes O (match assoc (lit "name") kvs with
             | Some v => v
             | None => JStr (lit "Unknown_Character")
             end) = true ->
  (forall e, encodes_exception O e = true) ->
  (forall f, writable E f = true) ->
  Image_open E background_image_byte = Returned background ->
  open_all E character_images_bytes = Returned characters ->
  (exists r c w',
      Story2Console.generate_character_image E O (JObj kvs) style w = (Returned r, w')
      /\ calls w' = calls w ++ [GenerateContent c]
      /\ files_frame (files w) r (files w'))
  /\ (exists r c w',
      Story2Console.generate_scene_image_with_references E O scene_description style
        character_images_bytes background_image_byte scene_index w = (Returned r, w')
      /\ calls w' = calls w ++ [GenerateContent c]
      /\ files_frame (files w) r (files w')).
Proof.
  intros Hname Hexn Hw Hbg Hchars. split.
  - rewrite (Story2Console_generate_character_image_agrees E O kvs style w Hname Hexn).
    unfold Story2.generate_character_image. unfold bind at 1 2. simpl.
    edestruct (guarded_call_frame E) as (r & w' & Hrun & Hc & Hf);
      [apply (Story2_character_image_parts_saves_one E)|].
    exists r. eexists. exists w'. split; [exact Hrun|]. split; [exact Hc|exact Hf].
  - rewrite (Story2Console_generate_scene_image_agrees E O _ _ _ _ _ w Hexn).
    unfold Story2.generate_scene_image_with_references.
    unfold bind at 1. unfold open_image at 1. unfold lift at 1. rewrite Hbg.
    unfold bind at 1. rewrite Story2_append_character_images_run, Hchars.
    edestruct (guarded_call_frame E) as (r & w' & Hrun & Hc & Hf);
      [apply (Story2_scene_image_parts_saves_one E scene_index)|].
    exists r. eexists. exists w'. split; [exact Hrun|]. split; [exact Hc|exact Hf].
Qed.

Lemma image_stage_writes_what_it_returns_witness :
  let E := Demo.env (fun _ => Returned []) Demo.no_images Demo.no_clock in
  let kvs := [(lit "name", JStr (lit "Volt the Electron"));
              (lit "traits", JStr (lit "curious"));
              (lit "appearance", JStr (lit "a small blue spark"))] in
  (exists r c w',
      Story2Console.generate_character_image E Demo.console (JObj kvs)
        (JStr (lit "comic book")) empty_world = (Returned r, w')
      /\ calls w' = calls empty_world ++ [GenerateContent c]
      /\ files_frame (files empty_world) r (files w'))
  /\ (exists r c w',
      Story2Console.generate_scene_image_with_references E Demo.console
        (JStr (lit "Volt leaves the battery")) (JStr (lit "comic book"))
        [lit "VOLT"] (lit "BG") 0 empty_world = (Returned r, w')
      /\ calls w' = calls empty_world ++ [GenerateContent c]
      /\ files_frame (files empty_world) r (files w')).
Proof.
  intros E kvs.
  apply (image_stage_writes_what_it_returns E Demo.console kvs
           (JStr (lit "comic book")) (JStr (lit "Volt leaves the battery"))
           [lit "VOLT"] (lit "BG") 0 empty_world
           (Picture (lit "BG")) [Picture (lit "VOLT")]);
    reflexivity.
Defined.

(** A name the console cannot write: the stage raises before it calls
    the capability. *)
Example character_with_unprintable_name :
  Story2Console.generate_character_image
    (Demo.env (fun _ => Returned []) (Demo.pictures (fun _ => lit "PNG")) Demo.no_clock)
    Demo.ascii_console
    (JObj [(lit "name", JStr Demo.cafe); (lit "appearance", JStr (lit "a cup"))])
    (JStr (lit "comic book")) empty_world
  = (Raised UnicodeEncodeError, empty_world).
Proof. vm_compute. reflexivity. Qed.

(** ** Characters with missing or ill-typed data *)

(** Assigning one key of a dict leaves the other keys as they were. *)
Lemma assoc_dict_set_other (k k0 : str) (v : json) (l : list (str * json)) :
  k <> k0 -> assoc k (RefJSON.dict_set l k0 v) = assoc k l.
Proof.
  intros Hk. unfold str_eqb. induction l as [|[k' v'] l IH]; simpl; unfold str_eqb.
  - rewrite bool_decide_eq_false_2 by congruence. reflexivity.
  - destruct (bool_decide (k' = k0)) eqn:Hb; simpl; unfold str_eqb.
    + apply bool_decide_eq_true_1 in Hb. subst k'.
      rewrite bool_decide_eq_false_2 by congruence. reflexivity.
    + destruct (bool_decide (k' = k)); [reflexivity|exact IH].
Qed.

(** X7. A character without the data the stage reads. In
    [story_generator.py] the keys are indexed before the [try]: a dict
    without [name], or with [name] but without [appearance], raises
    [KeyError] out of the stage and out of the handler of
    [flask_server.py], and nothing is called. A character that is not
    a dict raises too, in every generator: [TypeError] from indexing in
    [story_generator.py], [AttributeError] from [get] in [Story-2.py]
    and [Story3.py]. *)
Theorem character_without_data_raises (E : Env) (character style storyline : json)
    (w : World) :
  (forall kvs, character = JObj kvs ->
               assoc (lit "name") kvs = None
               \/ assoc (lit "appearance") kvs = None ->
               StoryGenerator.generate_character_image E character style storyline w
               = (Raised KeyError, w)
               /\ FlaskServer.handle_generate_character_image E
                    (JObj [(lit "character", character); (lit "style", style)]) w
                  = (Raised KeyError, w))
  /\ ((forall kvs, character <> JObj kvs) ->
      StoryGenerator.generate_character_image E character style storyline w
      = (Raised TypeError, w)
      /\ Story2.generate_character_image E character style w = (Raised AttributeError, w)
      /\ Story3.generate_character_image E character style w = (Raised AttributeError, w)).
Proof.
  split.
  - intros kvs -> Hmiss.
    assert (Hstage : forall kvs' sl,
               assoc (lit "name") kvs' = None \/ assoc (lit "appearance") kvs' = None ->
               StoryGenerator.generate_character_image E (JObj kvs') style sl w
               = (Raised KeyError, w)).
    { intros kvs' sl H. unfold StoryGenerator.generate_character_image.
      unfold bind, lift, dict_item.
      destruct (assoc (lit "name") kvs') as [nm|]; [|reflexivity].
      destruct H as [H|H]; [discriminate H|]. rewrite H. reflexivity. }
    split; [apply Hstage, Hmiss|].
    unfold FlaskServer.handle_generate_character_image.
    unfold bind at 1. unfold lift at 1.
    change (missing_fields _ _) with (Returned (A := bool) false).
    cbv iota. unfold bind at 1. unfold lift at 1.
    change (dict_item _ (lit "character")) with (Returned (JObj kvs)). cbv iota.
    unfold bind at 1. unfold lift at 1.
    change (dict_item _ (lit "style")) with (Returned style). cbv iota.
    unfold bind at 1. unfold lift at 1. unfold py_setitem. cbv iota.
    unfold bind at 1.
    rewrite Hstage; [reflexivity|].
    rewrite !assoc_dict_set_other by discriminate. exact Hmiss.
  - intros Hnot. destruct character; try (repeat split; reflexivity).
    exfalso. eapply Hnot. reflexivity.
Qed.

(** A character missing its appearance, through the stage and the
    handler of [flask_server.py], and a character sent as a string. *)
Example character_without_appearance :
  FlaskServer.handle_generate_character_image
    (Demo.env (fun _ => Returned []) (Demo.pictures (fun _ => lit "PNG")) Demo.no_clock)
    (JObj [(lit "character", JObj [(lit "name", JStr (lit "Volt"))]);
           (lit "style", JStr (lit "comic book"))])
    empty_world
  = (Raised KeyError, empty_world)
  /\ Story2.generate_character_image
       (Demo.env (fun _ => Returned []) (Demo.pictures (fun _ => lit "PNG")) Demo.no_clock)
       (JStr (lit "Volt")) (JStr (lit "comic book")) empty_world
     = (Raised AttributeError, empty_world).
Proof. split; vm_compute; reflexivity. Qed.

(** The character stage of [Story-2.py] on a dict, when the call
    yields a picture and the name in use is a string. *)
Lemma Story2_generate_character_image_named (E : Env) (kvs : list (str * json))
    (n : str) (style : json) (w : World) (img : Image) :
  let name := match assoc (lit "name") kvs with
              | Some v => v | None => JStr (lit "Unknown_Character") end in
  let appearance := match assoc (lit "appearance") kvs with
                    | Some v => v | None => JStr (lit "No appearance described") end in
  name = JStr n ->
  yielded_image E (length (calls w)) (Story2.character_contents name appearance style)
    = Some img ->
  writable E (Story2.character_filename n) = true ->
  Story2.generate_character_image E (JObj kvs) style w
  = (Returned (Some (Story2.character_filename n)),
     {| files := <[Story2.character_filename n := img]> (files w);
        calls := calls w ++
                 [GenerateContent (Story2.character_contents name appearance style)] |}).
Proof.
  intros name appearance Hname Hyield Hw.
  unfold Story2.generate_character_image, yielded_image in *.
  unfold bind, lift, dict_get, try_except, models_generate_content.
  fold name. fold appearance.
  destruct (generate_content E _ _) as [response|]; [|discriminate].
  destruct (response_parts response) as [ps|]; [|discriminate].
  rewrite Hname in *. rewrite Story2_character_image_parts_run.
  destruct (first_inline ps) as [blob|]; [|discriminate].
  destruct (Image_open E (data blob)) as [i|]; [|discriminate].
  injection Hyield as ->. simpl. rewrite Hw. reflexivity.
Qed.

(** X8. In [Story-2.py] a character dict without [name] is drawn
    under the default name: when its call yields a picture, the picture
    is stored as [unknown_character.png], the file every nameless
    character shares. *)
Theorem nameless_character_uses_default (E : Env) (kvs : list (str * json))
    (style : json) (w : World) (img : Image) :
  assoc (lit "name") kvs = None ->
  yielded_image E (length (calls w))
    (Story2.character_contents (JStr (lit "Unknown_Character"))
       (match assoc (lit "appearance") kvs with
        | Some v => v | None => JStr (lit "No appearance described") end) style)
    = Some img ->
  writable E (lit "unknown_character.png") = true ->
  exists w',
    Story2.generate_character_image E (JObj kvs) style w
    = (Returned (Some (lit "unknown_character.png")), w')
    /\ files w' = <[lit "unknown_character.png" := img]> (files w).
Proof.
  intros Hname Hyield Hw.
  pose proof (Story2_generate_character_image_named E kvs (lit "Unknown_Character")
                style w img) as Hrun.
  cbv zeta in Hrun. rewrite Hname in Hrun.
  specialize (Hrun eq_refl Hyield Hw).
  eexists. split; [exact Hrun|reflexivity].
Qed.

Lemma nameless_character_uses_default_witness :
  exists w',
    Story2.generate_character_image
      (Demo.env (fun _ => Returned []) (Demo.pictures (fun _ => lit "PNG")) Demo.no_clock)
      (JObj [(lit "appearance", JStr (lit "a grey cloud"))]) (JStr (lit "comic book"))
      empty_world
    = (Returned (Some (lit "unknown_character.png")), w')
    /\ files w' = <[lit "unknown_character.png" := Picture (lit "PNG")]> (files empty_world).
Proof.
  apply (nameless_character_uses_default
           (Demo.env (fun _ => Returned []) (Demo.pictures (fun _ => lit "PNG")) Demo.no_clock)
           [(lit "appearance", JStr (lit "a grey cloud"))]);
    reflexivity.
Defined.

Lemma Story2_character_image_parts_unnamed (E : Env) (name : json) (ps : list Part)
    (w : World) :
  as_str name = Raised AttributeError ->
  snd (Story2.character_image_parts E name ps w) = w
  /\ forall f, fst (Story2.character_image_parts E name ps w) <> Returned (Some f).
Proof.
  intros Hname. induction ps as [|p rest IH]; simpl; [split; [reflexivity|discriminate]|].
  destruct (inline_data p) as [blob|]; [|exact IH].
  unfold bind, open_image, lift.
  destruct (Image_open E (data blob)); [|split; [reflexivity|discriminate]].
  rewrite Hname. split; [reflexivity|discriminate].
Qed.

(** X9. In [Story-2.py] a character whose [name] is not a string is
    sent to the capability all the same, and then lost: the file name
    cannot be built, so the stage returns [None] and writes no file
    whatever the call answers. *)
Theorem character_with_ill_typed_name_is_lost (E : Env) (kvs : list (str * json))
    (name style : json) (w : World) :
  assoc (lit "name") kvs = Some name ->
  (forall n, name <> JStr n) ->
  Story2.generate_character_image E (JObj kvs) style w
  = (Returned None,
     {| files := files w;
        calls := calls w ++
                 [GenerateContent
                    (Story2.character_contents name
                       (match assoc (lit "appearance") kvs with
                        | Some v => v | None => JStr (lit "No appearance described") end)
                       style)] |}).
Proof.
  intros Hname Hnot.
  assert (Hstr : as_str name = Raised AttributeError).
  { destruct name; try reflexivity. exfalso. eapply Hnot. reflexivity. }
  unfold Story2.generate_character_image.
  unfold bind, lift, dict_get, try_except, models_generate_content, is_Exception, ret.
  rewrite Hname.
  destruct (generate_content E _ _) as [response|]; [|reflexivity].
  destruct (response_parts response) as [ps|]; [|reflexivity].
  match goal with
  | |- context [Story2.character_image_parts E name ps ?w0] =>
      destruct (Story2_character_image_parts_unnamed E name ps w0 Hstr) as [Hw Hr];
      destruct (Story2.character_image_parts E name ps w0) as [[[f|]|e] w1];
      simpl in Hw; subst w1
  end.
  - exfalso. eapply Hr. reflexivity.
  - reflexivity.
  - reflexivity.
Qed.

Lemma character_with_ill_typed_name_is_lost_witness :
  Story2.generate_character_image
    (Demo.env (fun _ => Returned []) (Demo.pictures (fun _ => lit "PNG")) Demo.no_clock)
    (JObj [(lit "name", JNum 7)]) (JStr (lit "ink")) empty_world
  = (Returned None,
     {| files := files empty_world;
        calls := calls empty_world ++
                 [GenerateContent
                    (Story2.character_contents (JNum 7)
                       (match assoc (lit "appearance") [(lit "name", JNum 7)] with
                        | Some v => v | None => JStr (lit "No appearance described") end)
                       (JStr (lit "ink")))] |}).
Proof.
  apply (character_with_ill_typed_name_is_lost
           (Demo.env (fun _ => Returned []) (Demo.pictures (fun _ => lit "PNG")) Demo.no_clock)
           [(lit "name", JNum 7)] (JNum 7) (JStr (lit "ink")) empty_world).
  - reflexivity.
  - discriminate.
Defined.

(** ** Reference images and scene indices *)

Lemma StoryGenerator_append_character_images_run (E : Env) (imgs : list bytes) :
  forall (prompt_parts : list prompt_part) (w : World),
    StoryGenerator.append_character_images E prompt_parts imgs w =
      match open_all E imgs with
      | Returned pictures => (Returned (prompt_parts ++ map PImage pictures), w)
      | Raised e => (Raised e, w)
      end.
Proof.
  induction imgs as [|b rest IH]; intros prompt_parts w; simpl.
  - rewrite app_nil_r. reflexivity.
  - unfold bind, open_image, lift.
    destruct (Image_open E b) as [img|e]; [|reflexivity].
    rewrite IH. destruct (open_all E rest); [|reflexivity].
    rewrite <- app_assoc. reflexivity.
Qed.

(** X10. A reference image that does not decode stops the composite
    stage before the capability is called: the decoder's exception
    comes out of the stage (the images are opened before the [try])
    and the world is unchanged. This holds for the background and for
    the first character image that fails, in [Story-2.py] and
    [Story3.py], and for the character images in
    [story_generator.py]. *)
Theorem undecodable_reference_raises (E : Env) (scene_description style scene_index' : json)
    (character_images_bytes : list bytes) (background_image_byte : bytes)
    (scene_index : Z) (w : World) (e : exn) :
  Image_open E background_image_byte = Raised e
  \/ (exists background, Image_open E background_image_byte = Returned background)
     /\ open_all E character_images_bytes = Raised e ->
  Story2.generate_scene_image_with_references E scene_description style
    character_images_bytes background_image_byte scene_index w = (Raised e, w)
  /\ Story3.generate_scene_image_with_references E scene_description style
       character_images_bytes background_image_byte scene_index w = (Raised e, w)
  /\ (open_all E character_images_bytes = Raised e ->
      StoryGenerator.generate_scene_image_with_references E scene_description style
        character_images_bytes scene_index' w = (Raised e, w)).
Proof.
  intros H. repeat split.
  - unfold Story2.generate_scene_image_with_references.
    unfold bind at 1. unfold open_image at 1. unfold lift at 1.
    destruct H as [->|[(bg & ->) Hc]]; [reflexivity|].
    unfold bind at 1. rewrite Story2_append_character_images_run, Hc. reflexivity.
  - unfold Story3.generate_scene_image_with_references.
    unfold bind at 1. unfold open_image at 1. unfold lift at 1.
    destruct H as [->|[(bg & ->) Hc]]; [reflexivity|].
    unfold bind at 1. rewrite Story3_append_character_images_run, Hc. reflexivity.
  - intros Hc. unfold StoryGenerator.generate_scene_image_with_references.
    unfold bind at 1. rewrite StoryGenerator_append_character_images_run, Hc. reflexivity.
Qed.

Lemma undecodable_reference_raises_witness :
  Story2.generate_scene_image_with_references
    (Demo.picky_env (lit "??") (Demo.pictures (fun _ => lit "PNG")))
    (JStr (lit "Volt leaves the battery")) (JStr (lit "comic book"))
    [lit "VOLT"; lit "??"; lit "RESI"] (lit "BG") 0 empty_world
  = (Raised UnidentifiedImageError, empty_world)
  /\ Story3.generate_scene_image_with_references
       (Demo.picky_env (lit "??") (Demo.pictures (fun _ => lit "PNG")))
       (JStr (lit "Volt leaves the battery")) (JStr (lit "comic book"))
       [lit "VOLT"; lit "??"; lit "RESI"] (lit "BG") 0 empty_world
     = (Raised UnidentifiedImageError, empty_world)
  /\ (open_all (Demo.picky_env (lit "??") (Demo.pictures (fun _ => lit "PNG")))
        [lit "VOLT"; lit "??"; lit "RESI"] = Raised UnidentifiedImageError ->
      StoryGenerator.generate_scene_image_with_references
        (Demo.picky_env (lit "??") (Demo.pictures (fun _ => lit "PNG")))
        (JStr (lit "Volt leaves the battery")) (JStr (lit "comic book"))
        [lit "VOLT"; lit "??"; lit "RESI"] (JNum 0) empty_world
      = (Raised UnidentifiedImageError, empty_world)).
Proof.
  apply (undecodable_reference_raises
           (Demo.picky_env (lit "??") (Demo.pictures (fun _ => lit "PNG")))).
  right. split; [eexists; reflexivity|reflexivity].
Defined.

Lemma StoryGenerator_scene_image_parts_run (E : Env) (scene_index : json) (ps : list Part)
    (w : World) :
  StoryGenerator.scene_image_parts E scene_index ps w =
    match first_inline ps with
    | None => (Returned None, w)
    | Some blob =>
        match Image_open E (data blob) with
        | Raised e => (Raised e, w)
        | Returned img =>
            match py_add_one scene_index with
            | Raised e => (Raised e, w)
            | Returned next =>
                if writable E (StoryGenerator.scene_filename next)
                then (Returned (Some (StoryGenerator.scene_filename next)),
                      {| files := <[StoryGenerator.scene_filename next := img]> (files w);
                         calls := calls w |})
                else (Raised OSError, w)
            end
        end
    end.
Proof.
  induction ps as [|p rest IH]; simpl; [reflexivity|].
  destruct (inline_data p) as [blob|]; [|exact IH].
  unfold bind, open_image, lift, image_save.
  destruct (Image_open E (data blob)); [|reflexivity].
  destruct (py_add_one scene_index); [|reflexivity].
  destruct (writable E _); reflexivity.
Qed.

(** X11. The composite call of [story_generator.py] has no
    background: when the character images decode, the stage passes
    three instruction texts followed by the character pictures in the
    order given, 3 + N parts, whatever the scene index and whatever the
    capability answers. *)
Theorem composite_without_background (E : Env) (scene_description style scene_index : json)
    (character_images_bytes : list bytes) (w : World) (characters : list Image) :
  open_all E character_images_bytes = Returned characters ->
  exists t1 t2 t3,
    calls (snd (StoryGenerator.generate_scene_image_with_references E scene_description
                  style character_images_bytes scene_index w))
    = calls w ++
      [GenerateContent (Parts ([PText t1; PText t2; PText t3] ++ map PImage characters))]
    /\ length ([PText t1; PText t2; PText t3] ++ map PImage characters)
       = (3 + length character_images_bytes)%nat.
Proof.
  intros Hchars. eexists. eexists. eexists. split.
  - unfold StoryGenerator.generate_scene_image_with_references.
    unfold bind at 1. rewrite StoryGenerator_append_character_images_run, Hchars.
    unfold try_except, bind, models_generate_content, lift, is_Exception, ret.
    unfold StoryGenerator.scene_prompt_texts.
    destruct (generate_content E _ _) as [response|e];
      [|destruct (py_add_one scene_index); reflexivity].
    destruct (response_parts response) as [ps|e];
      [|destruct (py_add_one scene_index); reflexivity].
    rewrite StoryGenerator_scene_image_parts_run.
    destruct (first_inline ps) as [blob|]; [|reflexivity].
    destruct (Image_open E (data blob));
      [|destruct (py_add_one scene_index); reflexivity].
    destruct (py_add_one scene_index) as [next|]; [|reflexivity].
    destruct (writable E _); reflexivity.
  - rewrite length_app, length_map, (open_all_length _ _ _ Hchars). reflexivity.
Qed.

Lemma composite_without_background_witness :
  exists t1 t2 t3,
    calls (snd (StoryGenerator.generate_scene_image_with_references
                  (Demo.env (fun _ => Returned []) Demo.no_images Demo.no_clock)
                  (JStr (lit "Volt leaves the battery")) (JStr (lit "comic book"))
                  [lit "VOLT"; lit "RESI"] (JNum 0) empty_world))
    = calls empty_world ++
      [GenerateContent
         (Parts ([PText t1; PText t2; PText t3]
                 ++ map PImage [Picture (lit "VOLT"); Picture (lit "RESI")]))]
    /\ length ([PText t1; PText t2; PText t3]
               ++ map PImage [Picture (lit "VOLT"); Picture (lit "RESI")])
       = (3 + length [lit "VOLT"; lit "RESI"])%nat.
Proof.
  apply (composite_without_background
           (Demo.env (fun _ => Returned []) Demo.no_images Demo.no_clock)
           (JStr (lit "Volt leaves the battery")) (JStr (lit "comic book")) (JNum 0)
           [lit "VOLT"; lit "RESI"] empty_world
           [Picture (lit "VOLT"); Picture (lit "RESI")]).
  reflexivity.
Defined.

(** X12. In [story_generator.py] the scene index is first used inside
    the [try], and again in the handler's message. With an index that
    cannot be added to (a string, [null], a list, ...) the stage writes
    no file; it returns [None] only when the response carries no image
    data, and in every other case, a capability error included, it
    raises [TypeError] out of its own handler. *)
Theorem scene_index_not_a_number (E : Env) (scene_description style scene_index : json)
    (character_images_bytes : list bytes) (w : World) (characters : list Image) :
  (forall z, scene_index <> JNum z) ->
  (forall b, scene_index <> JBool b) ->
  open_all E character_images_bytes = Returned characters ->
  StoryGenerator.generate_scene_image_with_references E scene_description style
    character_images_bytes scene_index w
  = (match generate_content E (length (calls w))
             (Parts (StoryGenerator.scene_prompt_texts scene_description style
                     ++ map PImage characters)) with
     | Returned response =>
         match response_parts response with
         | Returned ps =>
             match first_inline ps with
             | None => Returned None
             | Some _ => Raised TypeError
             end
         | Raised _ => Raised TypeError
         end
     | Raised _ => Raised TypeError
     end,
     {| files := files w;
        calls := calls w ++
                 [GenerateContent
                    (Parts (StoryGenerator.scene_prompt_texts scene_description style
                            ++ map PImage characters))] |}).
Proof.
  intros Hnum Hbool Hchars.
  assert (Hadd : py_add_one scene_index = Raised TypeError).
  { destruct scene_index; try reflexivity; exfalso;
      [eapply Hbool|eapply Hnum]; reflexivity. }
  unfold StoryGenerator.generate_scene_image_with_references.
  unfold bind at 1. rewrite StoryGenerator_append_character_images_run, Hchars.
  unfold try_except, bind, models_generate_content, lift, is_Exception, ret.
  rewrite Hadd.
  destruct (generate_content E _ _) as [response|e]; [|reflexivity].
  destruct (response_parts response) as [ps|e]; [|reflexivity].
  rewrite StoryGenerator_scene_image_parts_run, Hadd.
  destruct (first_inline ps) as [blob|]; [|reflexivity].
  destruct (Image_open E (data blob)); reflexivity.
Qed.

Lemma scene_index_not_a_number_witness :
  StoryGenerator.generate_scene_image_with_references
    (Demo.env (fun _ => Returned []) Demo.no_images Demo.no_clock)
    (JStr (lit "Volt leaves the battery")) (JStr (lit "comic book"))
    [lit "VOLT"] (JStr (lit "3")) empty_world
  = (Raised TypeError,
     {| files := ∅;
        calls := [GenerateContent
                    (Parts (StoryGenerator.scene_prompt_texts
                              (JStr (lit "Volt leaves the battery")) (JStr (lit "comic book"))
                            ++ map PImage [Picture (lit "VOLT")]))] |}).
Proof.
  apply (scene_index_not_a_number
           (Demo.env (fun _ => Returned []) Demo.no_images Demo.no_clock)
           (JStr (lit "Volt leaves the battery")) (JStr (lit "comic book"))
           (JStr (lit "3")) [lit "VOLT"] empty_world [Picture (lit "VOLT")]).
  - discriminate.
  - discriminate.
  - reflexivity.
Defined.

(** ** The handlers of [flask_server.py] *)

(** The character stage of [story_generator.py] reads [name],
    [appearance] and [traits] only. *)
Lemma StoryGenerator_character_image_reads (E : Env) (kvs kvs' : list (str * json))
    (style storyline storyline' : json) (w : World) :
  assoc (lit "name") kvs' = assoc (lit "name") kvs ->
  assoc (lit "appearance") kvs' = assoc (lit "appearance") kvs ->
  assoc (lit "traits") kvs' = assoc (lit "traits") kvs ->
  StoryGenerator.generate_character_image E (JObj kvs') style storyline w
  = StoryGenerator.generate_character_image E (JObj kvs) style storyline' w.
Proof.
  intros Hn Ha Ht. unfold StoryGenerator.generate_character_image.
  unfold bind, lift, dict_item, dict_get. rewrite Hn, Ha, Ht. reflexivity.
Qed.

(** X13. The character endpoint of [flask_server.py] overwrites the
    character's [background_scene] before it calls the stage, but the
    stage of [story_generator.py] never reads that key: for a request
    whose character is a dict, the world after the handler and its
    answer are those of the stage on the character as it was sent, 200
    with the file name for a non-empty name and 500 otherwise. *)
Theorem forced_background_is_not_read (E : Env) (dkvs ckvs : list (str * json))
    (style : json) (w : World) :
  assoc (lit "character") dkvs = Some (JObj ckvs) ->
  assoc (lit "style") dkvs = Some style ->
  let stage := StoryGenerator.generate_character_image E (JObj ckvs) style (JStr []) w in
  snd (FlaskServer.handle_generate_character_image E (JObj dkvs) w) = snd stage
  /\ fst (FlaskServer.handle_generate_character_image E (JObj dkvs) w)
     = match fst stage with
       | Returned (Some (c :: f)) =>
           Returned (JObj [(lit "message", JStr (lit "Image generated successfully"));
                           (lit "filename", JStr (c :: f))], 200)
       | Returned _ => Returned (FlaskServer.error "Image generation failed" 500)
       | Raised e => Raised e
       end.
Proof.
  intros Hc Hs stage. subst stage.
  assert (Hrun : FlaskServer.handle_generate_character_image E (JObj dkvs) w
                 = (let! image_filename :=
                      StoryGenerator.generate_character_image E (JObj ckvs) style (JStr []) in
                    ret (match image_filename with
                         | Some (c :: f) =>
                             (JObj [(lit "message", JStr (lit "Image generated successfully"));
                                    (lit "filename", JStr (c :: f))], 200)
                         | _ => FlaskServer.error "Image generation failed" 500
                         end)) w).
  { unfold FlaskServer.handle_generate_character_image.
    unfold bind at 1. unfold lift at 1.
    rewrite missing_fields_present;
      [|discriminate
       |intros k [<-|[<-|[]]]; eapply has_key_assoc; eassumption].
    cbv iota. unfold bind at 1. unfold lift at 1. unfold dict_item at 1. rewrite Hc.
    cbv iota. unfold bind at 1. unfold lift at 1. unfold dict_item at 1. rewrite Hs.
    cbv iota. unfold bind at 1. unfold lift at 1. unfold py_setitem. cbv iota.
    unfold bind.
    rewrite (StoryGenerator_character_image_reads E ckvs _ style (JStr []) (JStr []) w)
      by (apply assoc_dict_set_other; discriminate).
    destruct (StoryGenerator.generate_character_image E (JObj ckvs) style (JStr []) w)
      as [[[[|c f]|]|e] w']; reflexivity. }
  rewrite Hrun. unfold bind.
  destruct (StoryGenerator.generate_character_image E (JObj ckvs) style (JStr []) w)
    as [[[[|c f]|]|e] w']; split; reflexivity.
Qed.

Lemma forced_background_is_not_read_witness :
  let E := Demo.env (fun _ => Returned []) (Demo.pictures (fun _ => lit "PNG")) Demo.no_clock in
  let ckvs := [(lit "name", JStr (lit "Volt")); (lit "appearance", JStr (lit "a spark"));
               (lit "background_scene", JStr (lit "a circuit board"))] in
  let dkvs := [(lit "character", JObj ckvs); (lit "style", JStr (lit "comic book"))] in
  let stage :=
    StoryGenerator.generate_character_image E (JObj ckvs) (JStr (lit "comic book")) (JStr [])
      empty_world in
  snd (FlaskServer.handle_generate_character_image E (JObj dkvs) empty_world) = snd stage
  /\ fst (FlaskServer.handle_generate_character_image E (JObj dkvs) empty_world)
     = match fst stage with
       | Returned (Some (c :: f)) =>
           Returned (JObj [(lit "message", JStr (lit "Image generated successfully"));
                           (lit "filename", JStr (c :: f))], 200)
       | Returned _ => Returned (FlaskServer.error "Image generation failed" 500)
       | Raised e => Raised e
       end.
Proof.
  intros E ckvs dkvs.
  apply (forced_background_is_not_read E dkvs ckvs (JStr (lit "comic book")) empty_world);
    reflexivity.
Defined.

(** ** Reference images sent to the scene-image endpoints *)

(** X14. The scene-image endpoint of [new_server.py] decodes every
    reference before it calls the generator: when a character image or
    the background is not valid Base64 (or the character images are
    not a sequence), the answer is 400 with the text of the exception,
    nothing is called and no file is written. *)
Theorem undecodable_reference_is_400 (E : Env) (K : Codec) (dkvs : list (str * json))
    (scene_description style images background : json) (e : exn) (w : World) :
  assoc (lit "scene_description") dkvs = Some scene_description ->
  assoc (lit "style") dkvs = Some style ->
  assoc (lit "character_images_base64") dkvs = Some images ->
  assoc (lit "background_image_base64") dkvs = Some background ->
  decoded K images = Raised e
  \/ ((exists char_bytes, decoded K images = Returned char_bytes)
      /\ b64decode K background = Raised e) ->
  NewServer.api_generate_scene_image E K (JObj dkvs) w
  = (Returned (NewServer.error_response
                 (lit "Invalid Base64 image data provided: " ++ str_of_exception K e) 400),
     w).
Proof.
  intros Hd Hs Hi Hb Hfail.
  unfold NewServer.api_generate_scene_image.
  unfold bind at 1. unfold lift at 1.
  rewrite missing_fields_present;
    [|discriminate
     |intros k [<-|[<-|[<-|[<-|[]]]]]; eapply has_key_assoc; eassumption].
  cbv iota. unfold bind at 1.
  assert (Hdec : NewServer.decode_references K (JObj dkvs) w
                 = (Returned (inl (NewServer.error_response
                                     (lit "Invalid Base64 image data provided: "
                                      ++ str_of_exception K e) 400)), w)).
  { unfold NewServer.decode_references, try_except, bind, lift, dict_item, is_Exception, ret.
    rewrite Hi, Hb. unfold decoded in Hfail.
    destruct Hfail as [Hfail|[[char_bytes Hok] Hfail]].
    - destruct (py_iter images) as [items|e']; [rewrite Hfail|injection Hfail as ->];
        reflexivity.
    - destruct (py_iter images) as [items|e']; [|discriminate Hok].
      rewrite Hok, Hfail. reflexivity. }
  rewrite Hdec. reflexivity.
Qed.

Lemma undecodable_reference_is_400_witness :
  NewServer.api_generate_scene_image
    (Demo.env (fun _ => Returned []) (Demo.pictures (fun _ => lit "PNG")) Demo.no_clock)
    Demo.codec
    (JObj [(lit "scene_description", JStr (lit "Volt leaves the battery"));
           (lit "style", JStr (lit "comic book"));
           (lit "character_images_base64", JArr [JStr (lit "VOLT"); JNull]);
           (lit "background_image_base64", JStr (lit "BG"))])
    empty_world
  = (Returned (NewServer.error_response
                 (lit "Invalid Base64 image data provided: "
                  ++ str_of_exception Demo.codec TypeError) 400),
     empty_world).
Proof.
  apply (undecodable_reference_is_400
           (Demo.env (fun _ => Returned []) (Demo.pictures (fun _ => lit "PNG")) Demo.no_clock)
           Demo.codec _
           (JStr (lit "Volt leaves the battery")) (JStr (lit "comic book"))
           (JArr [JStr (lit "VOLT"); JNull]) (JStr (lit "BG")) TypeError empty_world);
    try reflexivity.
  left. reflexivity.
Defined.

(** The scene-image handler of [new_server.py] once the request has
    its four fields and the references decode: the index is read, then
    the stage runs on the decoded bytes. *)
Lemma api_generate_scene_image_run (E : Env) (K : Codec) (dkvs : list (str * json))
    (scene_description style images background : json)
    (char_bytes : list bytes) (bg_bytes : bytes) (w : World) :
  assoc (lit "scene_description") dkvs = Some scene_description ->
  assoc (lit "style") dkvs = Some style ->
  assoc (lit "character_images_base64") dkvs = Some images ->
  assoc (lit "background_image_base64") dkvs = Some background ->
  decoded K images = Returned char_bytes ->
  b64decode K background = Returned bg_bytes ->
  NewServer.api_generate_scene_image E K (JObj dkvs) w
  = (let! index :=
       lift (py_index (match assoc (lit "scene_index") dkvs with
                       | Some v => v
                       | None => JNum 0
                       end)) in
     let! filename :=
       Story2.generate_scene_image_with_references E scene_description style
         char_bytes bg_bytes index in
     ret (NewServer.answer_filename filename
            "Failed to generate scene image on the server.")) w.
Proof.
  intros Hd Hs Hi Hb Hchars Hbg.
  unfold NewServer.api_generate_scene_image.
  unfold bind at 1. unfold lift at 1.
  rewrite missing_fields_present;
    [|discriminate
     |intros k [<-|[<-|[<-|[<-|[]]]]]; eapply has_key_assoc; eassumption].
  cbv iota. unfold bind at 1.
  assert (Hdec : NewServer.decode_references K (JObj dkvs) w
                 = (Returned (inr (char_bytes, bg_bytes)), w)).
  { unfold NewServer.decode_references, try_except, bind, lift, dict_item, is_Exception, ret.
    rewrite Hi, Hb. unfold decoded in Hchars.
    destruct (py_iter images) as [items|e']; [|discriminate Hchars].
    rewrite Hchars, Hbg. reflexivity. }
  rewrite Hdec. cbv iota beta.
  unfold bind at 1. unfold lift at 1. unfold dict_item at 1. rewrite Hd. cbv iota.
  unfold bind at 1. unfold lift at 1. unfold dict_item at 1. rewrite Hs. cbv iota.
  unfold bind at 1. unfold lift at 1. unfold dict_get at 1. cbv iota.
  reflexivity.
Qed.

(** X15. The generators of [Story-2.py] add one to the scene index in
    their first statement, outside any [try]. A request to the
    scene-image or the audio endpoint of [new_server.py] whose
    [scene_index] is not a number therefore raises [TypeError] out of
    the handler, with nothing called and nothing written, although the
    request passes validation and its references decode. *)
Theorem ill_typed_scene_index_raises (E : Env) (K : Codec) (dkvs : list (str * json))
    (scene_description style images background scene_index : json)
    (char_bytes : list bytes) (bg_bytes : bytes) (w : World) :
  assoc (lit "scene_description") dkvs = Some scene_description ->
  assoc (lit "style") dkvs = Some style ->
  assoc (lit "character_images_base64") dkvs = Some images ->
  assoc (lit "background_image_base64") dkvs = Some background ->
  decoded K images = Returned char_bytes ->
  b64decode K background = Returned bg_bytes ->
  assoc (lit "scene_index") dkvs = Some scene_index ->
  (forall z, scene_index <> JNum z) ->
  (forall b, scene_index <> JBool b) ->
  NewServer.api_generate_scene_image E K (JObj dkvs) w = (Raised TypeError, w)
  /\ NewServer.api_generate_audio_description E (JObj dkvs) w = (Raised TypeError, w).
Proof.
  intros Hd Hs Hi Hb Hchars Hbg Hidx Hnum Hbool.
  assert (Hadd : py_index scene_index = Raised TypeError).
  { unfold py_index. destruct scene_index; try reflexivity; exfalso;
      [eapply Hbool|eapply Hnum]; reflexivity. }
  split.
  - rewrite (api_generate_scene_image_run E K dkvs _ _ _ _ _ _ w Hd Hs Hi Hb Hchars Hbg).
    rewrite Hidx. unfold bind at 1. unfold lift at 1. rewrite Hadd. reflexivity.
  - unfold NewServer.api_generate_audio_description.
    unfold bind at 1. unfold lift at 1.
    rewrite missing_fields_present;
      [|discriminate|intros k [<-|[]]; eapply has_key_assoc; eassumption].
    cbv iota. unfold bind at 1. unfold lift at 1. unfold dict_item at 1. rewrite Hd.
    cbv iota. unfold bind at 1. unfold lift at 1. unfold dict_get at 1. rewrite Hidx.
    cbv iota. unfold bind at 1. unfold lift at 1. rewrite Hadd. reflexivity.
Qed.

Lemma ill_typed_scene_index_raises_witness :
  let E := Demo.env (fun _ => Returned []) (Demo.pictures (fun _ => lit "PNG")) Demo.no_clock in
  let request :=
    JObj [(lit "scene_description", JStr (lit "Volt leaves the battery"));
          (lit "style", JStr (lit "comic book"));
          (lit "character_images_base64", JArr [JStr (lit "VOLT")]);
          (lit "background_image_base64", JStr (lit "BG"));
          (lit "scene_index", JStr (lit "2"))] in
  NewServer.api_generate_scene_image E Demo.codec request empty_world
  = (Raised TypeError, empty_world)
  /\ NewServer.api_generate_audio_description E request empty_world
     = (Raised TypeError, empty_world).
Proof.
  intros E request.
  apply (ill_typed_scene_index_raises E Demo.codec _
           (JStr (lit "Volt leaves the battery")) (JStr (lit "comic book"))
           (JArr [JStr (lit "VOLT")]) (JStr (lit "BG")) (JStr (lit "2"))
           [lit "VOLT"] (lit "BG") empty_world);
    try reflexivity; discriminate.
Defined.

Lemma Story2_scene_image_parts_run (E : Env) (scene_index : Z) (ps : list Part) (w : World) :
  Story2.scene_image_parts E scene_index ps w =
    match first_inline ps with
    | None => (Returned None, w)
    | Some blob =>
        match Image_open E (data blob) with
        | Raised e => (Raised e, w)
        | Returned img =>
            if writable E (lit "scene_" ++ str_of_int (scene_index + 1) ++ lit ".png")
            then (Returned (Some (lit "scene_" ++ str_of_int (scene_index + 1) ++ lit ".png")),
                  {| files := <[lit "scene_" ++ str_of_int (scene_index + 1) ++ lit ".png"
                                := img]> (files w);
                     calls := calls w |})
            else (Raised OSError, w)
        end
    end.
Proof.
  induction ps as [|p rest IH]; simpl; [reflexivity|].
  destruct (inline_data p) as [blob|]; [|exact IH].
  unfold bind, open_image, lift, image_save.
  destruct (Image_open E (data blob)); [|reflexivity].
  destruct (writable E _); reflexivity.
Qed.

(** X16. Scene files are named by the index alone. A valid request to
    the scene-image endpoint of [new_server.py] whose references
    decode and whose call yields a picture answers 200 with
    [scene_<index + 1>.png] and leaves that file holding the picture,
    replacing what was there; a request without [scene_index] counts
    as index 0, so every such request writes [scene_1.png]. *)
Theorem scene_request_writes_indexed_file (E : Env) (K : Codec) (dkvs : list (str * json))
    (scene_description style images background : json)
    (char_bytes : list bytes) (bg_bytes : bytes) (z : Z) (img : Image) (w : World) :
  assoc (lit "scene_description") dkvs = Some scene_description ->
  assoc (lit "style") dkvs = Some style ->
  assoc (lit "character_images_base64") dkvs = Some images ->
  assoc (lit "background_image_base64") dkvs = Some background ->
  decoded K images = Returned char_bytes ->
  b64decode K background = Returned bg_bytes ->
  (exists picture, Image_open E bg_bytes = Returned picture) ->
  (exists pictures, open_all E char_bytes = Returned pictures) ->
  match assoc (lit "scene_index") dkvs with Some v => v | None => JNum 0 end = JNum z ->
  (forall c, yielded_image E (length (calls w)) c = Some img) ->
  writable E (lit "scene_" ++ str_of_int (z + 1) ++ lit ".png") = true ->
  exists c,
    NewServer.api_generate_scene_image E K (JObj dkvs) w
    = (Returned (JObj [(lit "filename",
                        JStr (lit "scene_" ++ str_of_int (z + 1) ++ lit ".png"))], 200),
       {| files := <[lit "scene_" ++ str_of_int (z + 1) ++ lit ".png" := img]> (files w);
          calls := calls w ++ [GenerateContent c] |}).
Proof.
  intros Hd Hs Hi Hb Hchars Hbg [picture Hopen] [pictures Hall] Hidx Hyield Hw.
  rewrite (api_generate_scene_image_run E K dkvs _ _ _ _ _ _ w Hd Hs Hi Hb Hchars Hbg).
  rewrite Hidx. unfold bind at 1. unfold lift at 1. unfold py_index, py_add_one.
  replace (z + 1 - 1) with z by lia.
  unfold bind at 1. unfold Story2.generate_scene_image_with_references.
  unfold bind at 1. unfold open_image at 1. unfold lift at 1. rewrite Hopen.
  unfold bind at 1. rewrite Story2_append_character_images_run, Hall.
  eexists.
  unfold try_except, bind, models_generate_content, lift, is_Exception, ret.
  match goal with
  | |- context [generate_content E (length (calls w)) ?c] =>
      specialize (Hyield c)
  end.
  unfold yielded_image in Hyield.
  destruct (generate_content E _ _) as [response|]; [|discriminate].
  destruct (response_parts response) as [ps|]; [|discriminate].
  rewrite Story2_scene_image_parts_run.
  destruct (first_inline ps) as [blob|]; [|discriminate].
  destruct (Image_open E (data blob)) as [i|]; [|discriminate].
  injection Hyield as ->. rewrite Hw. reflexivity.
Qed.

Lemma scene_request_writes_indexed_file_witness :
  let E := Demo.env (fun _ => Returned []) (Demo.pictures (fun _ => lit "PNG")) Demo.no_clock in
  let dkvs := [(lit "scene_description", JStr (lit "Volt leaves the battery"));
               (lit "style", JStr (lit "comic book"));
               (lit "character_images_base64", JArr [JStr (lit "VOLT")]);
               (lit "background_image_base64", JStr (lit "BG"))] in
  let w := {| files := <[lit "scene_1.png" := Picture (lit "OLD")]> ∅; calls := [] |} in
  exists c,
    NewServer.api_generate_scene_image E Demo.codec (JObj dkvs) w
    = (Returned (JObj [(lit "filename",
                        JStr (lit "scene_" ++ str_of_int (0 + 1) ++ lit ".png"))], 200),
       {| files := <[lit "scene_" ++ str_of_int (0 + 1) ++ lit ".png" := Picture (lit "PNG")]>
                     (files w);
          calls := calls w ++ [GenerateContent c] |}).
Proof.
  intros E dkvs w.
  apply (scene_request_writes_indexed_file E Demo.codec dkvs
           (JStr (lit "Volt leaves the battery")) (JStr (lit "comic book"))
           (JArr [JStr (lit "VOLT")]) (JStr (lit "BG"))
           [lit "VOLT"] (lit "BG") 0 (Picture (lit "PNG")) w);
    try reflexivity.
  - exists (Picture (lit "BG")). reflexivity.
  - exists [Picture (lit "VOLT")]. reflexivity.
Defined.

(** ** What a background batch leaves on disk *)

(** The decimal text of a number is read back by the digit scanner. *)
Lemma str_of_nat_digits (n : nat) (rest : str) :
  match rest with [] => True | c :: _ => RefJSON.is_digit c = false end ->
  exists ds,
    RefJSON.digits (str_of_nat n ++ rest) [] = (ds, rest)
    /\ RefJSON.nat_of_digits ds = n.
Proof.
  intros Hrest. unfold str_of_nat.
  destruct (RefJSONFacts.str_of_nat_fuel_digits (S n) n [] (Nat.lt_succ_diag_r n))
    as (ds & Hs & Hall & Hval & _).
  exists ds. rewrite Hs, app_nil_r. split; [|exact Hval].
  apply (RefJSONFacts.digits_map ds [] rest Hall Hrest).
Qed.

(** Two items of a batch never share a file name. *)
Lemma Story2_background_filename_inj (i j : nat) :
  Story2.background_filename i = Story2.background_filename j -> i = j.
Proof.
  unfold Story2.background_filename. intros H. apply app_inv_head in H.
  assert (Hrest : match lit ".png" with
                  | [] => True
                  | c :: _ => RefJSON.is_digit c = false
                  end) by reflexivity.
  destruct (str_of_nat_digits (i + 1) (lit ".png") Hrest) as (ds1 & H1 & V1).
  destruct (str_of_nat_digits (j + 1) (lit ".png") Hrest) as (ds2 & H2 & V2).
  rewrite H in H1. rewrite H1 in H2. injection H2 as ->. lia.
Qed.

(** One item of the batch of [Story-2.py], with the world it leaves. *)
Lemma Story2_background_item_world (E : Env) (style desc : json) (i base : nat)
    (acc : list str) (w : World) :
  length (calls w) = (base + i)%nat ->
  snd (try_except
         (let! response := models_generate_content E (Story2.background_contents style desc) in
          let! ps := lift (response_parts response) in
          Story2.background_image_parts E i acc ps)
         is_Exception (fun e => ret acc) w)
  = {| files :=
         match yielded_image E (base + i) (Story2.background_contents style desc) with
         | Some img =>
             if writable E (Story2.background_filename i)
             then <[Story2.background_filename i := img]> (files w)
             else files w
         | None => files w
         end;
       calls := calls w ++ [GenerateContent (Story2.background_contents style desc)] |}.
Proof.
  intros Hn.
  unfold try_except, bind, models_generate_content, lift, is_Exception, ret, yielded_image.
  rewrite Hn.
  destruct (generate_content E (base + i) _) as [response|e]; [|reflexivity].
  destruct (response_parts response) as [ps|e]; [|reflexivity].
  rewrite Story2_background_image_parts_run.
  destruct (first_inline ps) as [blob|]; [|reflexivity].
  destruct (Image_open E (data blob)) as [img|e]; [|reflexivity].
  destruct (writable E _); reflexivity.
Qed.

Lemma Story2_background_images_from_world (E : Env) (style : json) (base : nat)
    (descs : list json) :
  forall (i : nat) (acc : list str) (w : World),
    length (calls w) = (base + i)%nat ->
    let w' := snd (Story2.background_images_from E i descs style acc w) in
    calls w'
    = calls w ++ map (fun desc => GenerateContent (Story2.background_contents style desc)) descs
    /\ (forall k desc,
          descs !! k = Some desc ->
          files w' !! Story2.background_filename (i + k)
          = if Story2_background_ok E style base ((i + k)%nat, desc)
            then yielded_image E (base + (i + k)) (Story2.background_contents style desc)
            else files w !! Story2.background_filename (i + k))
    /\ (forall f,
          (forall k, (k < length descs)%nat -> f <> Story2.background_filename (i + k)) ->
          files w' !! f = files w !! f).
Proof.
  induction descs as [|desc rest IH]; intros i acc w Hn w'.
  - subst w'. simpl. rewrite app_nil_r. split; [reflexivity|].
    split; [intros k d Hk; destruct k; discriminate Hk|reflexivity].
  - pose proof (Story2_background_item_world E style desc i base acc w Hn) as Hw1.
    destruct (Story2_background_item E style desc i base acc w Hn) as (w1 & Hrun & Hc).
    rewrite Hrun in Hw1. simpl snd in Hw1.
    assert (Hstep : w' = snd (Story2.background_images_from E (S i) rest style
                                (if Story2_background_ok E style base (i, desc)
                                 then acc ++ [Story2.background_filename i] else acc) w1)).
    { subst w'. simpl Story2.background_images_from. unfold bind at 1.
      rewrite Hrun. reflexivity. }
    clearbody w'. subst w'.
    assert (Hn1 : length (calls w1) = (base + S i)%nat).
    { rewrite Hc, length_app. simpl. lia. }
    destruct (IH (S i) (if Story2_background_ok E style base (i, desc)
                        then acc ++ [Story2.background_filename i] else acc) w1 Hn1)
      as (Hcalls & Hitems & Hframe).
    assert (Hother : forall f, f <> Story2.background_filename i ->
                               files w1 !! f = files w !! f).
    { intros f Hf. rewrite Hw1. simpl files.
      destruct (yielded_image E (base + i) _); [|reflexivity].
      destruct (writable E _); [|reflexivity].
      apply lookup_insert_ne. congruence. }
    split; [|split].
    + rewrite Hcalls, Hc, <- app_assoc. reflexivity.
    + intros k d Hk. destruct k as [|k].
      * injection Hk as <-. rewrite Nat.add_0_r.
        rewrite Hframe.
        -- rewrite Hw1. simpl files. unfold Story2_background_ok. simpl fst. simpl snd.
           destruct (yielded_image E (base + i) _) as [img|]; [|reflexivity].
           destruct (writable E _); [apply lookup_insert_eq|reflexivity].
        -- intros k _ Heq. apply Story2_background_filename_inj in Heq. lia.
      * replace (i + S k)%nat with (S i + k)%nat by lia.
        rewrite (Hitems k d Hk).
        destruct (Story2_background_ok E style base ((S i + k)%nat, d)); [reflexivity|].
        apply Hother. intros Heq. apply Story2_background_filename_inj in Heq. lia.
    + intros f Hf. rewrite Hframe.
      * apply Hother. specialize (Hf 0%nat). rewrite Nat.add_0_r in Hf.
        apply Hf. simpl. lia.
      * intros k Hk. replace (S i + k)%nat with (i + S k)%nat by lia.
        apply Hf. simpl. lia.
Qed.

(** X17. What a background batch of [Story-2.py] leaves behind, on a
    console that has every description and the text of every
    exception, and a file system that takes the batch's file names.
    The batch sends one prompt per description, in the order of the
    descriptions. Afterwards [background_<i+1>.png] holds the picture
    the [i]-th call yielded, and is as it was before when that call
    yielded none, so a stale file of an earlier batch survives a failed
    call; no other file is touched. *)
Theorem background_batch_files (E : Env) (O : Console) (descs : list json) (style : json)
    (w : World) :
  Forall (fun desc => encodes O desc = true) descs ->
  (forall e, encodes_exception O e = true) ->
  (forall i, (i < length descs)%nat -> writable E (Story2.background_filename i) = true) ->
  let w' := snd (Story2Console.generate_background_images E O (JArr descs) style w) in
  calls w'
  = calls w ++ map (fun desc => GenerateContent (Story2.background_contents style desc)) descs
  /\ (forall i desc,
        descs !! i = Some desc ->
        files w' !! Story2.background_filename i
        = match yielded_image E (length (calls w) + i)
                  (Story2.background_contents style desc) with
          | Some img => Some img
          | None => files w !! Story2.background_filename i
          end)
  /\ (forall f,
        (forall i, (i < length descs)%nat -> f <> Story2.background_filename i) ->
        files w' !! f = files w !! f).
Proof.
  intros Hdescs Hexn Hw w'. subst w'.
  rewrite (Story2Console_generate_background_images_agrees E O descs style w Hdescs Hexn).
  assert (Hrun : snd (Story2.generate_background_images E (JArr descs) style w)
                 = snd (Story2.background_images_from E 0 descs style [] w)) by reflexivity.
  rewrite Hrun.
  destruct (Story2_background_images_from_world E style (length (calls w)) descs 0 [] w)
    as (Hcalls & Hitems & Hframe); [lia|].
  split; [exact Hcalls|]. split; [|exact Hframe].
  intros i desc Hi. specialize (Hitems i desc Hi). simpl Nat.add in Hitems.
  rewrite Hitems.
  unfold Story2_background_ok. simpl fst. simpl snd.
  assert (Hlt : (i < length descs)%nat) by (apply lookup_lt_is_Some_1; eauto).
  rewrite (Hw i Hlt).
  destruct (yielded_image E (length (calls w) + i) _); reflexivity.
Qed.

Lemma background_batch_files_witness :
  let E := Demo.env (fun _ => Returned [])
             (fun n => if Nat.eqb n 1 then Raised (APIError (lit "quota"))
                       else Returned (Demo.image_response (lit "NEW")))
             Demo.no_clock in
  let descs := [JStr (lit "forest"); JStr (lit "river"); JStr (lit "cave")] in
  let style := JStr (lit "comic book") in
  let w := {| files := <[lit "background_2.png" := Picture (lit "OLD2")]>
                         (<[lit "background_1.png" := Picture (lit "OLD1")]> ∅);
              calls := [] |} in
  let w' := snd (Story2Console.generate_background_images E Demo.console (JArr descs)
                   style w) in
  calls w'
  = calls w ++ map (fun desc => GenerateContent (Story2.background_contents style desc)) descs
  /\ (forall i desc,
        descs !! i = Some desc ->
        files w' !! Story2.background_filename i
        = match yielded_image E (length (calls w) + i)
                  (Story2.background_contents style desc) with
          | Some img => Some img
          | None => files w !! Story2.background_filename i
          end)
  /\ (forall f,
        (forall i, (i < length descs)%nat -> f <> Story2.background_filename i) ->
        files w' !! f = files w !! f).
Proof.
  intros E descs style w.
  apply (background_batch_files E Demo.console descs style w).
  - repeat constructor.
  - reflexivity.
  - reflexivity.
Defined.

(** A batch of three over a directory that holds the plates of an
    earlier batch: the second call fails, and the old second plate
    stays. *)
Example background_batch_keeps_stale_plate :
  let w := {| files := <[lit "background_2.png" := Picture (lit "OLD2")]>
                         (<[lit "background_1.png" := Picture (lit "OLD1")]> ∅);
              calls := [] |} in
  let w' :=
    snd (Story2Console.generate_background_images
           (Demo.env (fun _ => Returned [])
              (fun n => if Nat.eqb n 1 then Raised (APIError (lit "quota"))
                        else Returned (Demo.image_response (lit "NEW")))
              Demo.no_clock)
           Demo.ascii_console
           (JArr [JStr (lit "forest"); JStr (lit "river"); JStr (lit "cave")])
           (JStr (lit "comic book")) w) in
  files w' !! lit "background_1.png" = Some (Picture (lit "NEW"))
  /\ files w' !! lit "background_2.png" = Some (Picture (lit "OLD2"))
  /\ files w' !! lit "background_3.png" = Some (Picture (lit "NEW")).
Proof. vm_compute. repeat split. Qed.

(** ** The text endpoints *)

(** X18. Unlike the story endpoint, the scene-description, script and
    audio endpoints never raise on a request that has their fields
    (and, for audio, a numeric index or none): the stage behind them
    catches every exception. They make exactly one chain call, write
    no file, and answer 200 with the parsed reply when it is truthy
    and 500 in every other case: a capability error, a reply without
    JSON, or a falsy value such as [{}]. The same holds for the
    scene-description endpoint of [flask_server.py]. *)
Theorem text_endpoints_answer (E : Env) (dkvs : list (str * json)) (w : World) :
  (forall storyline characters style,
      assoc (lit "storyline") dkvs = Some storyline ->
      assoc (lit "characters") dkvs = Some characters ->
      assoc (lit "style") dkvs = Some style ->
      (let inputs := [(lit "storyline", storyline);
                      (lit "characters", JStr (json_dumps E None characters));
                      (lit "style", style)] in
       NewServer.api_generate_scene_descriptions E (JObj dkvs) w
       = (Returned (NewServer.answer_result
                      (parsed_reply E (invoke E (length (calls w)) scene_chain inputs))
                      "Failed to generate scene descriptions on the server."),
          {| files := files w; calls := calls w ++ [Invoke scene_chain inputs] |}))
      /\ (let inputs := [(lit "storyline", storyline);
                         (lit "characters", JStr (json_dumps E (Some 2%nat) characters));
                         (lit "style", style)] in
          FlaskServer.api_generate_scene_descriptions E (JObj dkvs) w
          = (Returned
               (match parsed_reply E (invoke E (length (calls w)) scene_chain inputs) with
                | Some v =>
                    if truthy v then (v, 200)
                    else FlaskServer.error "Failed to generate scene descriptions" 500
                | None => FlaskServer.error "Failed to generate scene descriptions" 500
                end),
             {| files := files w; calls := calls w ++ [Invoke scene_chain inputs] |})))
  /\ (forall storyline scene_descriptions,
        assoc (lit "storyline") dkvs = Some storyline ->
        assoc (lit "scene_descriptions") dkvs = Some scene_descriptions ->
        let inputs := [(lit "storyline", storyline);
                       (lit "scene_descriptions",
                        JStr (json_dumps E None scene_descriptions))] in
        NewServer.api_generate_script E (JObj dkvs) w
        = (Returned (NewServer.answer_result
                       (parsed_reply E (invoke E (length (calls w)) script_chain inputs))
                       "Failed to generate script on the server."),
           {| files := files w; calls := calls w ++ [Invoke script_chain inputs] |}))
  /\ (forall scene_description z,
        assoc (lit "scene_description") dkvs = Some scene_description ->
        match assoc (lit "scene_index") dkvs with Some v => v | None => JNum 0 end = JNum z ->
        let inputs := [(lit "scene_description", scene_description)] in
        NewServer.api_generate_audio_description E (JObj dkvs) w
        = (Returned (NewServer.answer_result
                       (parsed_reply E (invoke E (length (calls w)) audio_chain inputs))
                       "Failed to generate audio description on the server."),
           {| files := files w; calls := calls w ++ [Invoke audio_chain inputs] |})).
Proof.
  split; [|split].
  - intros storyline characters style Hsl Hch Hst. split.
    + cbv zeta. unfold NewServer.api_generate_scene_descriptions.
      unfold bind at 1. unfold lift at 1.
      rewrite missing_fields_present;
        [|discriminate|intros k [<-|[<-|[<-|[]]]]; eapply has_key_assoc; eassumption].
      cbv iota. unfold bind at 1. unfold lift at 1. unfold dict_item at 1. rewrite Hsl.
      cbv iota. unfold bind at 1. unfold lift at 1. unfold dict_item at 1. rewrite Hch.
      cbv iota. unfold bind at 1. unfold lift at 1. unfold dict_item at 1. rewrite Hst.
      cbv iota. unfold bind at 1.
      unfold Story2.generate_scene_descriptions, try_except, bind, chain_invoke, lift,
        is_Exception, ret, parsed_reply.
      destruct (invoke E _ _ _) as [text|e]; [|reflexivity].
      destruct (json_loads E _); reflexivity.
    + cbv zeta. unfold FlaskServer.api_generate_scene_descriptions.
      unfold bind at 1. unfold lift at 1.
      rewrite missing_fields_present;
        [|discriminate|intros k [<-|[<-|[<-|[]]]]; eapply has_key_assoc; eassumption].
      cbv iota. unfold bind at 1. unfold lift at 1. unfold dict_item at 1. rewrite Hsl.
      cbv iota. unfold bind at 1. unfold lift at 1. unfold dict_item at 1. rewrite Hch.
      cbv iota. unfold bind at 1. unfold lift at 1. unfold dict_item at 1. rewrite Hst.
      cbv iota. unfold bind at 1.
      unfold StoryGenerator.generate_scene_descriptions, try_except, bind, chain_invoke, lift,
        is_Exception, ret, parsed_reply.
      destruct (invoke E _ _ _) as [text|e]; [|reflexivity].
      destruct (json_loads E _); reflexivity.
  - intros storyline scene_descriptions Hsl Hsd. cbv zeta.
    unfold NewServer.api_generate_script.
    unfold bind at 1. unfold lift at 1.
    rewrite missing_fields_present;
      [|discriminate|intros k [<-|[<-|[]]]; eapply has_key_assoc; eassumption].
    cbv iota. unfold bind at 1. unfold lift at 1. unfold dict_item at 1. rewrite Hsl.
    cbv iota. unfold bind at 1. unfold lift at 1. unfold dict_item at 1. rewrite Hsd.
    cbv iota. unfold bind at 1.
    unfold Story2.generate_narration_and_dialogue, try_except, bind, chain_invoke, lift,
      is_Exception, ret, parsed_reply.
    destruct (invoke E _ _ _) as [text|e]; [|reflexivity].
    destruct (json_loads E _); reflexivity.
  - intros scene_description z Hsd Hidx. cbv zeta.
    unfold NewServer.api_generate_audio_description.
    unfold bind at 1. unfold lift at 1.
    rewrite missing_fields_present;
      [|discriminate|intros k [<-|[]]; eapply has_key_assoc; eassumption].
    cbv iota. unfold bind at 1. unfold lift at 1. unfold dict_item at 1. rewrite Hsd.
    cbv iota. unfold bind at 1. unfold lift at 1. unfold dict_get at 1. rewrite Hidx.
    cbv iota. unfold bind at 1. unfold lift at 1. unfold py_index, py_add_one.
    cbv iota. unfold bind at 1.
    unfold Story2.generate_background_audio_description, try_except, bind, chain_invoke, lift,
      is_Exception, ret, parsed_reply.
    destruct (invoke E _ _ _) as [text|e]; [|reflexivity].
    destruct (json_loads E _); reflexivity.
Qed.

(** A scene-description request when the chain is out of quota, and
    when it replies with an empty object. *)
Example scene_descriptions_failures :
  let request :=
    JObj [(lit "storyline", JStr (lit "Volt leaves the battery"));
          (lit "characters", JArr [Demo.volt]);
          (lit "style", JStr (lit "comic book"))] in
  fst (NewServer.api_generate_scene_descriptions
         (Demo.env (fun _ => Raised (APIError (lit "quota"))) Demo.no_images Demo.no_clock)
         request empty_world)
  = Returned (NewServer.handle_error
                "Failed to generate scene descriptions on the server." 500)
  /\ fst (NewServer.api_generate_scene_descriptions
            (Demo.env (fun _ => Returned (lit "Sure: {}")) Demo.no_images Demo.no_clock)
            request empty_world)
     = Returned (NewServer.handle_error
                   "Failed to generate scene descriptions on the server." 500).
Proof. split; vm_compute; reflexivity. Qed.

(** ** References that are valid Base64 but not pictures *)

(** X19. The 400 answer of the scene-image endpoint of
    [new_server.py] covers Base64 errors only. When every reference
    decodes from Base64 but the background, or a character image, is
    not a picture the image library can open, the handler raises the
    library's exception instead of answering, and nothing is called
    or written. *)
Theorem unreadable_picture_is_not_400 (E : Env) (K : Codec) (dkvs : list (str * json))
    (scene_description style images background : json)
    (char_bytes : list bytes) (bg_bytes : bytes) (z : Z) (e : exn) (w : World) :
  assoc (lit "scene_description") dkvs = Some scene_description ->
  assoc (lit "style") dkvs = Some style ->
  assoc (lit "character_images_base64") dkvs = Some images ->
  assoc (lit "background_image_base64") dkvs = Some background ->
  decoded K images = Returned char_bytes ->
  b64decode K background = Returned bg_bytes ->
  match assoc (lit "scene_index") dkvs with Some v => v | None => JNum 0 end = JNum z ->
  Image_open E bg_bytes = Raised e
  \/ (exists picture, Image_open E bg_bytes = Returned picture)
     /\ open_all E char_bytes = Raised e ->
  NewServer.api_generate_scene_image E K (JObj dkvs) w = (Raised e, w).
Proof.
  intros Hd Hs Hi Hb Hchars Hbg Hidx Hfail.
  rewrite (api_generate_scene_image_run E K dkvs _ _ _ _ _ _ w Hd Hs Hi Hb Hchars Hbg).
  rewrite Hidx. unfold bind at 1. unfold lift at 1. unfold py_index, py_add_one.
  unfold bind at 1. unfold Story2.generate_scene_image_with_references.
  unfold bind at 1. unfold open_image at 1. unfold lift at 1.
  destruct Hfail as [Hopen|[[picture Hopen] Hall]]; rewrite Hopen; [reflexivity|].
  unfold bind at 1. rewrite Story2_append_character_images_run, Hall. reflexivity.
Qed.

Lemma unreadable_picture_is_not_400_witness :
  let E := Demo.picky_env (lit "NOT A PNG") (Demo.pictures (fun _ => lit "PNG")) in
  let dkvs := [(lit "scene_description", JStr (lit "Volt leaves the battery"));
               (lit "style", JStr (lit "comic book"));
               (lit "character_images_base64", JArr [JStr (lit "VOLT"); JStr (lit "NOT A PNG")]);
               (lit "background_image_base64", JStr (lit "BG"))] in
  NewServer.api_generate_scene_image E Demo.codec (JObj dkvs) empty_world
  = (Raised UnidentifiedImageError, empty_world).
Proof.
  intros E dkvs.
  apply (unreadable_picture_is_not_400 E Demo.codec dkvs
           (JStr (lit "Volt leaves the battery")) (JStr (lit "comic book"))
           (JArr [JStr (lit "VOLT"); JStr (lit "NOT A PNG")]) (JStr (lit "BG"))
           [lit "VOLT"; lit "NOT A PNG"] (lit "BG") 0 UnidentifiedImageError empty_world);
    try reflexivity.
  right. split; [exists (Picture (lit "BG")); reflexivity|reflexivity].
Defined.

(** X20. The scene-image endpoint of [flask_server.py] on a request
    that has its three fields. If the character images are not valid
    Base64 (or cannot be iterated), it answers 400 with the text of
    the exception. If they are valid Base64 but one of them is not a
    picture, the exception of the image library leaves the handler.
    In both cases nothing is called and nothing is written. *)
Theorem flask_scene_image_references (E : Env) (K : Codec) (dkvs : list (str * json))
    (scene_description style images : json) (e : exn) (w : World) :
  assoc (lit "scene_description") dkvs = Some scene_description ->
  assoc (lit "style") dkvs = Some style ->
  assoc (lit "character_images") dkvs = Some images ->
  (decoded K images = Raised e ->
   FlaskServer.api_generate_scene_image E K (JObj dkvs) w
   = (Returned (JObj [(lit "error",
                       JStr (lit "Invalid Base64 image data: " ++ str_of_exception K e))],
                400), w))
  /\ (forall images_bytes,
        decoded K images = Returned images_bytes ->
        open_all E images_bytes = Raised e ->
        FlaskServer.api_generate_scene_image E K (JObj dkvs) w = (Raised e, w)).
Proof.
  intros Hd Hs Hi.
  assert (Hstart : forall r,
             FlaskServer.decode_images K (JObj dkvs) w = (Returned r, w) ->
             FlaskServer.api_generate_scene_image E K (JObj dkvs) w
             = match r with
               | inl response => (Returned response, w)
               | inr images_bytes =>
                   (let! scene_index :=
                      lift (dict_get (JObj dkvs) (lit "scene_index") (JNum 0)) in
                    let! filename :=
                      StoryGenerator.generate_scene_image_with_references E
                        scene_description style images_bytes scene_index in
                    ret (match filename with
                         | Some f =>
                             if truthy_name filename
                             then (JObj [(lit "filename", JStr f)], 200)
                             else FlaskServer.error "Failed to generate scene image" 500
                         | None => FlaskServer.error "Failed to generate scene image" 500
                         end)) w
               end).
  { intros r Hdec. unfold FlaskServer.api_generate_scene_image.
    unfold bind at 1. unfold lift at 1.
    rewrite missing_fields_present;
      [|discriminate|intros k [<-|[<-|[<-|[]]]]; eapply has_key_assoc; eassumption].
    cbv iota. unfold bind at 1. rewrite Hdec. cbv iota beta.
    destruct r as [response|images_bytes]; [reflexivity|].
    unfold bind at 1. unfold lift at 1. unfold dict_item at 1. rewrite Hd. cbv iota.
    unfold bind at 1. unfold lift at 1. unfold dict_item at 1. rewrite Hs. cbv iota.
    reflexivity. }
  split.
  - intros Hfail.
    rewrite (Hstart (inl (JObj [(lit "error",
                                 JStr (lit "Invalid Base64 image data: "
                                       ++ str_of_exception K e))], 400)));
      [reflexivity|].
    unfold FlaskServer.decode_images, try_except, bind, lift, dict_item, is_Exception, ret.
    rewrite Hi. unfold decoded in Hfail.
    destruct (py_iter images) as [items|e']; [rewrite Hfail|injection Hfail as ->];
      reflexivity.
  - intros images_bytes Hok Hopen. rewrite (Hstart (inr images_bytes)).
    + unfold bind at 1. unfold lift at 1. unfold dict_get. cbv iota.
      unfold bind at 1. unfold StoryGenerator.generate_scene_image_with_references.
      unfold bind at 1. rewrite StoryGenerator_append_character_images_run, Hopen.
      reflexivity.
    + unfold FlaskServer.decode_images, try_except, bind, lift, dict_item, is_Exception, ret.
      rewrite Hi. unfold decoded in Hok.
      destruct (py_iter images) as [items|e']; [|discriminate Hok].
      rewrite Hok. reflexivity.
Qed.

Lemma flask_scene_image_references_witness :
  let E := Demo.picky_env (lit "NOT A PNG") (Demo.pictures (fun _ => lit "PNG")) in
  let dkvs := [(lit "scene_description", JStr (lit "Volt leaves the battery"));
               (lit "style", JStr (lit "comic book"));
               (lit "character_images", JArr [JStr (lit "VOLT"); JStr (lit "NOT A PNG")])] in
  (decoded Demo.codec (JArr [JStr (lit "VOLT"); JStr (lit "NOT A PNG")])
   = Raised UnidentifiedImageError ->
   FlaskServer.api_generate_scene_image E Demo.codec (JObj dkvs) empty_world
   = (Returned (JObj [(lit "error",
                       JStr (lit "Invalid Base64 image data: "
                             ++ str_of_exception Demo.codec UnidentifiedImageError))],
                400), empty_world))
  /\ (forall images_bytes,
        decoded Demo.codec (JArr [JStr (lit "VOLT"); JStr (lit "NOT A PNG")])
        = Returned images_bytes ->
        open_all E images_bytes = Raised UnidentifiedImageError ->
        FlaskServer.api_generate_scene_image E Demo.codec (JObj dkvs) empty_world
        = (Raised UnidentifiedImageError, empty_world)).
Proof.
  intros E dkvs.
  apply (flask_scene_image_references E Demo.codec dkvs
           (JStr (lit "Volt leaves the battery")) (JStr (lit "comic book"))
           (JArr [JStr (lit "VOLT"); JStr (lit "NOT A PNG")]) UnidentifiedImageError
           empty_world); reflexivity.
Defined.

(** The two cases on concrete requests. *)
Example flask_scene_image_bad_references :
  let E := Demo.picky_env (lit "NOT A PNG") (Demo.pictures (fun _ => lit "PNG")) in
  FlaskServer.api_generate_scene_image E Demo.codec
    (JObj [(lit "scene_description", JStr (lit "Volt leaves the battery"));
           (lit "style", JStr (lit "comic book"));
           (lit "character_images", JArr [JStr (lit "VOLT"); JNull])])
    empty_world
  = (Returned (JObj [(lit "error",
                      JStr (lit "Invalid Base64 image data: "
                            ++ str_of_exception Demo.codec TypeError))], 400),
     empty_world)
  /\ FlaskServer.api_generate_scene_image E Demo.codec
       (JObj [(lit "scene_description", JStr (lit "Volt leaves the battery"));
              (lit "style", JStr (lit "comic book"));
              (lit "character_images", JArr [JStr (lit "VOLT"); JStr (lit "NOT A PNG")])])
       empty_world
     = (Raised UnidentifiedImageError, empty_world).
Proof. split; vm_compute; reflexivity. Qed.

(** ** The pipeline of [image_generation.py] *)

Lemma ImageGeneration_character_image_parts_saves_one (E : Env) (name style : json) :
  saves_one (ImageGeneration.character_image_parts E name style).
Proof.
  intros ps w0. induction ps as [|p rest IH]; simpl; [split; reflexivity|].
  destruct (text p); [exact IH|].
  destruct (inline_data p) as [blob|]; [|exact IH].
  unfold bind, open_image, lift, image_save.
  destruct (Image_open E (data blob)) as [img|]; [|split; reflexivity].
  destruct (as_str name) as [n|]; [|split; reflexivity].
  destruct (as_str style) as [st|]; [|split; reflexivity].
  destruct (writable E _); simpl; [|split; reflexivity].
  split; [reflexivity|]. exists img. reflexivity.
Qed.

(** The character stage on a character it can read: it returns, after
    one call, and has written at most the file it names. *)
Lemma ImageGeneration_generate_character_image_frame (E : Env)
    (character style storyline : json) (w : World) :
  drawable character ->
  exists r c w',
    ImageGeneration.generate_character_image E character style storyline w = (Returned r, w')
    /\ calls w' = calls w ++ [GenerateContent c]
    /\ files_frame (files w) r (files w').
Proof.
  intros (kvs & name & appearance & background & -> & Hn & Ha & Hb).
  unfold ImageGeneration.generate_character_image.
  unfold bind at 1. unfold lift at 1. unfold dict_item at 1. rewrite Hn. cbv iota.
  unfold bind at 1. unfold lift at 1. unfold dict_item at 1. rewrite Ha. cbv iota.
  unfold bind at 1. unfold lift at 1. unfold dict_item at 1. rewrite Hb. cbv iota.
  unfold bind at 1. unfold lift at 1. unfold dict_get at 1. cbv iota.
  edestruct (guarded_call_frame E) as (r & w' & Hrun & Hc & Hf);
    [apply (ImageGeneration_character_image_parts_saves_one E name style)|].
  exists r. eexists. exists w'. split; [exact Hrun|]. split; [exact Hc|exact Hf].
Qed.

Lemma files_frame_keeps (before after : gmap str Image) (r : option str) (f : str) :
  files_frame before r after -> is_Some (before !! f) -> is_Some (after !! f).
Proof.
  destruct r as [g|]; simpl.
  - intros [img ->] Hf. destruct (decide (g = f)) as [->|Hne].
    + rewrite lookup_insert_eq. eauto.
    + rewrite lookup_insert_ne by exact Hne. exact Hf.
  - intros ->. auto.
Qed.

(** The loop of the pipeline over characters it can read. *)
Lemma ImageGeneration_character_records_run (E : Env) (skvs : list (str * json))
    (style storyline : json) (characters : list json) :
  assoc (lit "storyline") skvs = Some storyline ->
  Forall drawable characters ->
  forall (generated_images : list json) (w : World),
    exists records w',
      ImageGeneration.character_records E (JObj skvs) style characters generated_images w
      = (Returned (generated_images ++ records), w')
      /\ length (calls w') = (length (calls w) + length characters)%nat
      /\ Forall2 reports characters records
      /\ (forall f, is_Some (files w !! f) -> is_Some (files w' !! f))
      /\ (forall name f, In (ImageGeneration.success_record name f) records ->
                         is_Some (files w' !! f)).
Proof.
  intros Hsl Hall. induction Hall as [|character rest Hc Hrest IH]; intros acc w.
  - exists [], w. simpl. rewrite app_nil_r. split; [reflexivity|].
    split; [lia|]. split; [constructor|]. split; [auto|]. intros ? ? [].
  - simpl ImageGeneration.character_records.
    unfold bind at 1. unfold lift at 1. unfold dict_item at 1. rewrite Hsl. cbv iota.
    unfold bind at 1.
    destruct (ImageGeneration_generate_character_image_frame E character style storyline w Hc)
      as (r & c & w1 & Hrun & Hcalls & Hframe).
    rewrite Hrun. cbv iota beta.
    destruct Hc as (kvs & name & appearance & background & -> & Hn & Ha & Hb).
    unfold bind at 1. unfold lift at 1. rewrite Hn. cbv iota.
    match goal with
    | |- context [ImageGeneration.character_records E _ style rest (acc ++ [?rec]) w1] =>
        set (record := rec)
    end.
    destruct (IH (acc ++ [record]) w1) as (records & w2 & Hloop & Hlen & Hrep & Hkeep & Hfiles).
    exists (record :: records), w2. split; [|split; [|split; [|split]]].
    + rewrite Hloop, <- app_assoc. reflexivity.
    + rewrite Hlen, Hcalls, length_app. simpl. lia.
    + constructor; [|exact Hrep].
      exists name. split; [unfold dict_item; rewrite Hn; reflexivity|].
      subst record. destruct r as [[|ch f]|]; simpl; eauto.
    + intros f Hf. apply Hkeep. eapply files_frame_keeps; eassumption.
    + intros name' f [Heq|Hin]; [|eapply Hfiles; exact Hin].
      apply Hkeep. subst record. destruct r as [[|ch g]|]; simpl in Heq; try discriminate Heq.
      injection Heq as _ <-. simpl in Hframe. destruct Hframe as [img ->].
      rewrite lookup_insert_eq. eauto.
Qed.

(** X21. The pipeline of [image_generation.py] isolates the
    characters from each other. When the story reply parses to an
    object with a [storyline] and a list of characters that each have
    [name], [appearance] and [background_scene], the pipeline returns
    a report, whatever the image capability does: one chain call and
    one image call per character, one record per character in the
    order of the story, each with the character's name and either a
    file and [success] or no file and [failed]; every file named in a
    [success] record exists afterwards. *)
Theorem pipeline_reports_every_character (E : Env) (topic style : str) (description : json)
    (reply : str) (skvs : list (str * json)) (storyline : json) (characters : list json)
    (w : World) :
  invoke E (length (calls w)) story_chain
    [(lit "topic", JStr topic); (lit "description", description); (lit "style", JStr style)]
    = Returned reply ->
  json_loads E (slice reply (find "{" reply) (rfind "}" reply + 1)) = Returned (JObj skvs) ->
  assoc (lit "storyline") skvs = Some storyline ->
  assoc (lit "character_descriptions") skvs = Some (JArr characters) ->
  Forall drawable characters ->
  exists records w',
    ImageGeneration.process_complete_story E (JStr topic) description (JStr style) w
    = (Returned (Some (JObj [(lit "story_data", JObj skvs);
                             (lit "generated_images", JArr records);
                             (lit "topic", JStr topic);
                             (lit "style", JStr style)])), w')
    /\ length (calls w') = (length (calls w) + 1 + length characters)%nat
    /\ Forall2 reports characters records
    /\ (forall name f, In (ImageGeneration.success_record name f) records ->
                       is_Some (files w' !! f)).
Proof.
  intros Hinv Hloads Hsl Hcd Hall.
  set (w0 := {| files := files w;
                calls := calls w ++
                  [Invoke story_chain
                     [(lit "topic", JStr topic); (lit "description", description);
                      (lit "style", JStr style)]] |}).
  destruct (ImageGeneration_character_records_run E skvs (JStr style) storyline characters
              Hsl Hall [] w0) as (records & w' & Hloop & Hlen & Hrep & _ & Hfiles).
  exists records, w'. split; [|split; [|split]].
  - unfold ImageGeneration.process_complete_story.
    unfold bind at 1. unfold lift at 1. unfold as_str at 1. cbv iota.
    unfold bind at 1. unfold lift at 1. unfold as_str at 1. cbv iota.
    unfold bind at 1.
    assert (Hstory : ImageGeneration.generate_story_and_characters E (JStr topic) description
                       (JStr style) w = (Returned (Some (JObj skvs)), w0)).
    { unfold ImageGeneration.generate_story_and_characters, bind, chain_invoke, try_except,
        lift, ret. rewrite Hinv. cbv iota beta zeta. rewrite Hloads. reflexivity. }
    rewrite Hstory. cbv iota beta.
    assert (Htruthy : truthy (JObj skvs) = true).
    { destruct skvs; [discriminate Hsl|reflexivity]. }
    rewrite Htruthy. change (negb true) with false. cbv iota.
    unfold bind at 1. unfold lift at 1. unfold dict_item at 1. rewrite Hcd. cbv iota.
    unfold bind at 1. unfold lift at 1. unfold py_len at 1. cbv iota.
    unfold bind at 1. unfold lift at 1. unfold py_iter at 1. cbv iota.
    unfold bind at 1. rewrite Hloop. reflexivity.
  - rewrite Hlen. subst w0. simpl. rewrite length_app. simpl. lia.
  - exact Hrep.
  - exact Hfiles.
Qed.

Lemma pipeline_reports_every_character_witness :
  let E := Demo.env (fun _ => Returned Demo.buoyancy_reply)
             (Demo.pictures (fun _ => lit "PNG")) Demo.no_clock in
  exists records w',
    ImageGeneration.process_complete_story E (JStr (lit "Buoyancy"))
      (JStr (lit "A girl next to a tub")) (JStr (lit "comic book")) empty_world
    = (Returned (Some (JObj [(lit "story_data", JObj Demo.buoyancy_story);
                             (lit "generated_images", JArr records);
                             (lit "topic", JStr (lit "Buoyancy"));
                             (lit "style", JStr (lit "comic book"))])), w')
    /\ length (calls w')
       = (length (calls empty_world) + 1 + length [JObj Demo.buoyancy_character])%nat
    /\ Forall2 reports [JObj Demo.buoyancy_character] records
    /\ (forall name f, In (ImageGeneration.success_record name f) records ->
                       is_Some (files w' !! f)).
Proof.
  intros E.
  apply (pipeline_reports_every_character E (lit "Buoyancy") (lit "comic book")
           (JStr (lit "A girl next to a tub")) Demo.buoyancy_reply Demo.buoyancy_story
           (JStr (lit "x")) [JObj Demo.buoyancy_character] empty_world).
  - reflexivity.
  - vm_compute. reflexivity.
  - reflexivity.
  - reflexivity.
  - constructor; [|constructor].
    exists Demo.buoyancy_character, (JStr (lit "Mia")), (JStr (lit "a curious girl")),
      (JStr (lit "a bath tub")).
    split; [reflexivity|]. split; [reflexivity|]. split; reflexivity.
Defined.

(** The report of the example story, computed. *)
Example buoyancy_report :
  fst (ImageGeneration.process_complete_story
         (Demo.env (fun _ => Returned Demo.buoyancy_reply)
            (Demo.pictures (fun _ => lit "PNG")) Demo.no_clock)
         (JStr (lit "Buoyancy")) (JStr (lit "A girl next to a tub"))
         (JStr (lit "comic book")) empty_world)
  = Returned (Some (JObj [(lit "story_data", JObj Demo.buoyancy_story);
                          (lit "generated_images",
                           JArr [ImageGeneration.success_record (JStr (lit "Mia"))
                                   (lit "mia_comic_book.png")]);
                          (lit "topic", JStr (lit "Buoyancy"));
                          (lit "style", JStr (lit "comic book"))])).
Proof. vm_compute. reflexivity. Qed.

Lemma ImageGeneration_character_image_parts_captioned (E : Env) (name style : json)
    (ps : list Part) (w : World) :
  (forall p, In p ps -> inline_data p <> None -> text p <> None) ->
  ImageGeneration.character_image_parts E name style ps w = (Returned None, w).
Proof.
  induction ps as [|p rest IH]; intros Hcap; [reflexivity|]. simpl.
  destruct (text p) eqn:Ht.
  - apply IH. intros q Hq. apply Hcap. right. exact Hq.
  - destruct (inline_data p) eqn:Hi.
    + exfalso. apply (Hcap p); [left; reflexivity|rewrite Hi; discriminate|exact Ht].
    + apply IH. intros q Hq. apply Hcap. right. exact Hq.
Qed.

(** X22. The character stage of [image_generation.py] passes over
    every response part that has text, even when the part also carries
    image data. If each picture of the response comes with text, the
    stage makes its call, returns [None] and writes no file. *)
Theorem captioned_picture_is_passed_over (E : Env) (character style storyline : json)
    (response : Response) (ps : list Part) (w : World) :
  drawable character ->
  (forall c, generate_content E (length (calls w)) c = Returned response) ->
  response_parts response = Returned ps ->
  (forall p, In p ps -> inline_data p <> None -> text p <> None) ->
  exists c,
    ImageGeneration.generate_character_image E character style storyline w
    = (Returned None, {| files := files w; calls := calls w ++ [GenerateContent c] |}).
Proof.
  intros (kvs & name & appearance & background & -> & Hn & Ha & Hb) Hgen Hparts Hcap.
  eexists. unfold ImageGeneration.generate_character_image.
  unfold bind at 1. unfold lift at 1. unfold dict_item at 1. rewrite Hn. cbv iota.
  unfold bind at 1. unfold lift at 1. unfold dict_item at 1. rewrite Ha. cbv iota.
  unfold bind at 1. unfold lift at 1. unfold dict_item at 1. rewrite Hb. cbv iota.
  unfold bind at 1. unfold lift at 1. unfold dict_get at 1. cbv iota.
  unfold try_except, bind, models_generate_content, lift.
  rewrite Hgen, Hparts.
  rewrite (ImageGeneration_character_image_parts_captioned E _ _ ps _ Hcap).
  reflexivity.
Qed.

Lemma captioned_picture_is_passed_over_witness :
  let E := Demo.env (fun _ => Returned [])
             (fun _ => Returned (Demo.captioned_response (lit "PNG"))) Demo.no_clock in
  exists c,
    ImageGeneration.generate_character_image E (JObj Demo.buoyancy_character)
      (JStr (lit "comic book")) (JStr (lit "x")) empty_world
    = (Returned None,
       {| files := files empty_world;
          calls := calls empty_world ++ [GenerateContent c] |}).
Proof.
  intros E.
  apply (captioned_picture_is_passed_over E (JObj Demo.buoyancy_character)
           (JStr (lit "comic book")) (JStr (lit "x"))
           (Demo.captioned_response (lit "PNG"))
           [{| text := Some (lit "Here is the image.");
               inline_data := Some {| data := lit "PNG" |} |}] empty_world).
  - exists Demo.buoyancy_character, (JStr (lit "Mia")), (JStr (lit "a curious girl")),
      (JStr (lit "a bath tub")).
    split; [reflexivity|]. split; [reflexivity|]. split; reflexivity.
  - reflexivity.
  - reflexivity.
  - intros p [<-|[]] _. discriminate.
Defined.

(** The same response through the stage of [story_generator.py],
    which looks at the image data alone: the picture is saved. *)
Example captioned_picture_is_saved_elsewhere :
  fst (StoryGenerator.generate_character_image
         (Demo.env (fun _ => Returned [])
            (fun _ => Returned (Demo.captioned_response (lit "PNG"))) Demo.no_clock)
         (JObj Demo.buoyancy_character) (JStr (lit "comic book")) (JStr (lit "x"))
         empty_world)
  = Returned (Some (lit "mia_comic_book.png")).
Proof. vm_compute. reflexivity. Qed.

(** ** The first steps of the client *)

Lemma record_scene_file_object (result : option json) (acc : list json) :
  match result with
  | Some r => truthy r = true -> exists kvs, r = JObj kvs
  | None => True
  end ->
  exists acc', Testing.record_scene_file result acc = Returned acc'.
Proof.
  intros Hobj. unfold Testing.record_scene_file.
  destruct result as [r|]; [|eexists; reflexivity].
  destruct (truthy r) eqn:Ht; [|eexists; reflexivity].
  destruct (Hobj eq_refl) as [kvs ->]. unfold dict_get.
  destruct (truthy (match assoc (lit "filename") kvs with Some v => v | None => JNull end));
    eexists; reflexivity.
Qed.

(** STEP 2 against a server that answers with objects: one request per
    character, in order, whatever the answers are. *)
Lemma character_images_from_posts (C : ClientEnv) (characters : list json) :
  answers_objects C ->
  forall (acc : list json) (w : Client),
    exists character_image_files,
      Testing.character_images_from C characters acc w
      = (Returned character_image_files,
         {| posts := posts w ++ map character_post characters |}).
Proof.
  intros Hobj. induction characters as [|char rest IH]; intros acc w.
  - exists acc. simpl. rewrite app_nil_r. destruct w. reflexivity.
  - simpl Testing.character_images_from.
    unfold bind at 1. unfold lift at 1.
    change (dict_item Testing.story_payload (lit "style"))
      with (Returned (JStr (lit "Simple  comic book style with bold lines, cheerful characters, and clear science visuals. "))).
    cbv iota. unfold bind at 1. unfold Testing.make_post_request at 1. cbv iota beta.
    unfold bind at 1. unfold lift at 1.
    match goal with
    | |- context [Testing.record_scene_file ?r acc] =>
        destruct (record_scene_file_object r acc) as [acc' Hrec];
          [destruct r as [v|] eqn:Hr; [|exact I]; intros Ht; eapply Hobj; eassumption|]
    end.
    rewrite Hrec. cbv iota.
    destruct (IH acc' {| posts := posts w ++ [character_post char] |}) as (fs & Hloop).
    exists fs. unfold character_post at 1 in Hloop. rewrite Hloop.
    simpl posts. rewrite <- app_assoc. reflexivity.
Qed.

(** X23. The first two steps of the client script. A failed or falsy
    answer to the story request ends the run after that one request.
    A story object without [character_descriptions] makes the script
    raise [TypeError] at the character loop, again after one request.
    With a list of characters, and a server that answers with JSON
    objects, the script sends exactly one character request per
    character, in the order of the story, whether or not earlier
    requests failed. *)
Theorem client_first_steps (C : ClientEnv) (w : Client) :
  let story_post := (lit "/generate-story", Testing.story_payload) in
  let reply := post_reply C (length (posts w)) (lit "/generate-story") Testing.story_payload in
  (reply = None \/ (exists r, reply = Some r /\ truthy r = false) ->
   Testing.main_steps_1_2 C w = (Returned None, {| posts := posts w ++ [story_post] |}))
  /\ (forall skvs,
        reply = Some (JObj skvs) ->
        skvs <> [] ->
        assoc (lit "character_descriptions") skvs = None ->
        Testing.main_steps_1_2 C w
        = (Raised TypeError, {| posts := posts w ++ [story_post] |}))
  /\ (forall skvs characters,
        reply = Some (JObj skvs) ->
        assoc (lit "character_descriptions") skvs = Some (JArr characters) ->
        answers_objects C ->
        exists character_image_files,
          Testing.main_steps_1_2 C w
          = (Returned (Some character_image_files),
             {| posts := posts w ++ story_post :: map character_post characters |})).
Proof.
  intros story_post reply.
  set (w1 := {| posts := posts w ++ [story_post] |}).
  assert (Hrun : Testing.main_steps_1_2 C w
                 = match reply with
                   | None => (Returned None, w1)
                   | Some story_data =>
                       if negb (truthy story_data) then (Returned None, w1)
                       else
                         (let! storyline := lift (dict_get story_data (lit "storyline") JNull) in
                          let! character_descriptions :=
                            lift (dict_get story_data (lit "character_descriptions") JNull) in
                          let! background_descriptions :=
                            lift (dict_get story_data (lit "background_descriptions") JNull) in
                          let! characters := lift (py_iter character_descriptions) in
                          let! character_image_files :=
                            Testing.character_images_from C characters [] in
                          ret (Some character_image_files)) w1
                   end).
  { unfold Testing.main_steps_1_2. unfold bind at 1.
    unfold Testing.make_post_request at 1. cbv iota beta. fold reply. fold story_post.
    fold w1. destruct reply as [story_data|]; [|reflexivity].
    destruct (negb (truthy story_data)); reflexivity. }
  rewrite Hrun. clear Hrun. split; [|split].
  - intros [->|(r & -> & Hr)]; [reflexivity|]. rewrite Hr. reflexivity.
  - intros skvs -> Hne Hcd.
    assert (Ht : truthy (JObj skvs) = true) by (destruct skvs; [congruence|reflexivity]).
    rewrite Ht. change (negb true) with false. cbv iota.
    unfold bind, lift, dict_get. rewrite Hcd. reflexivity.
  - intros skvs characters -> Hcd Hobj.
    assert (Ht : truthy (JObj skvs) = true) by (destruct skvs; [discriminate Hcd|reflexivity]).
    rewrite Ht. change (negb true) with false. cbv iota.
    unfold bind at 1. unfold lift at 1. unfold dict_get at 1. cbv iota.
    unfold bind at 1. unfold lift at 1. unfold dict_get at 1. rewrite Hcd. cbv iota.
    unfold bind at 1. unfold lift at 1. unfold dict_get at 1. cbv iota.
    unfold bind at 1. unfold lift at 1. unfold py_iter at 1. cbv iota.
    unfold bind at 1.
    destruct (character_images_from_posts C characters Hobj [] w1) as (fs & Hloop).
    exists fs. rewrite Hloop. subst w1. simpl posts. rewrite <- app_assoc. reflexivity.
Qed.

(** A run against a server that knows two characters and fails on the
    first of them: both are requested, the second file is kept. *)
Example client_keeps_going :
  let C := {| post_reply := fun n _ _ =>
                match n with
                | 0%nat => Some (JObj [(lit "storyline", JStr (lit "x"));
                                       (lit "character_descriptions",
                                        JArr [JStr (lit "Volt"); JStr (lit "Resi")])])
                | 1%nat => None
                | _ => Some (JObj [(lit "filename", JStr (lit "resi.png"))])
                end;
              read_file := fun _ => None;
              b64encode := fun b => b |} in
  Testing.main_steps_1_2 C {| posts := [] |}
  = (Returned (Some [JStr (lit "resi.png")]),
     {| posts := (lit "/generate-story", Testing.story_payload)
                 :: map character_post [JStr (lit "Volt"); JStr (lit "Resi")] |}).
Proof. vm_compute. reflexivity. Qed.
